(** * NUMATIX trading harness: strategy state machine and trade matcher

    A shallow embedding of
    - [strategy/multi_timeframe_strategy.py] (indicators, crossover, trend,
      signal generation, position updates),
    - [utils/validators.py] (greedy trade matching),
    - [execution/live_engine.py] (time-frame parsing, engine construction,
      the wait for the candle close, order execution, the trading loop),
    - [execution/backtest_engine.py] (the per-bar callback, the secondary
      index look-up, the trade ledger),
    - [data/binance_client.py] (order creation),
    - [scripts/match_trades.py] (the day matcher),
    followed by the properties of the specification that concern them and
    by further properties of the code.

    Numbers.  Python/pandas floats are modelled by [fval]: an exact rational,
    one of the two IEEE infinities, or NaN.  Rounding is not modelled there;
    the special values are, because the code relies on them (an undefined
    indicator is NaN, a division by zero gives an infinity, every comparison
    with NaN is false).  The properties stated on [fval] do not depend on
    rounding.  Where rounding decides, the indicators are computed in
    binary64 with pandas' running sums (module [Binary64]).  Python integers
    are [Z]; the bounds of [Timedelta], [datetime] and [time.sleep] are
    spelled out where an operation can leave them. *)

From Stdlib Require Import QArith Qabs Lqa Sorted.
From Stdlib Require SpecFloat.
From stdpp Require Import gmap strings list.

Open Scope Z_scope.

(* ===================================================================== *)
(** ** Exceptions and results *)
(* ===================================================================== *)

Inductive Exception : Type :=
| IndexError
| ValueError.

Inductive result (A : Type) : Type :=
| Ok (a : A)
| Raise (e : Exception).
Arguments Ok {A} a.
Arguments Raise {A} e.

Definition rbind {A B} (r : result A) (k : A -> result B) : result B :=
  match r with
  | Ok a => k a
  | Raise e => Raise e
  end.

(* ===================================================================== *)
(** ** Floating-point values *)
(* ===================================================================== *)

Module Float.

Inductive fval : Type :=
| Fin (q : Q)
| PInf
| NInf
| NaN.

Definition of_Z (z : Z) : fval := Fin (inject_Z z).

(** [pd.isna] *)
Definition isna (x : fval) : bool :=
  match x with NaN => true | _ => false end.

Definition Qltb (a b : Q) : bool :=
  match Qcompare a b with Lt => true | _ => false end.

Definition Qleb (a b : Q) : bool :=
  match Qcompare a b with Gt => false | _ => true end.

Definition Qzerob (a : Q) : bool :=
  match Qcompare a 0 with Eq => true | _ => false end.

(** [x < y]; false as soon as one side is NaN. *)
Definition flt (x y : fval) : bool :=
  match x, y with
  | NaN, _ | _, NaN => false
  | Fin a, Fin b => Qltb a b
  | NInf, NInf => false
  | NInf, _ => true
  | _, NInf => false
  | PInf, _ => false
  | Fin _, PInf => true
  end.

(** [x <= y]; false as soon as one side is NaN. *)
Definition fle (x y : fval) : bool :=
  match x, y with
  | NaN, _ | _, NaN => false
  | Fin a, Fin b => Qleb a b
  | NInf, _ => true
  | _, PInf => true
  | PInf, _ => false
  | Fin _, NInf => false
  end.

Definition fgt (x y : fval) : bool := flt y x.
Definition fge (x y : fval) : bool := fle y x.

Definition fneg (x : fval) : fval :=
  match x with
  | Fin a => Fin (- a)
  | PInf => NInf
  | NInf => PInf
  | NaN => NaN
  end.

Definition fabs (x : fval) : fval :=
  match x with
  | Fin a => Fin (Qabs a)
  | PInf | NInf => PInf
  | NaN => NaN
  end.

Definition fadd (x y : fval) : fval :=
  match x, y with
  | NaN, _ | _, NaN => NaN
  | Fin a, Fin b => Fin (a + b)
  | PInf, NInf | NInf, PInf => NaN
  | PInf, _ | _, PInf => PInf
  | NInf, _ | _, NInf => NInf
  end.

Definition fsub (x y : fval) : fval := fadd x (fneg y).

Definition fmul (x y : fval) : fval :=
  match x, y with
  | NaN, _ | _, NaN => NaN
  | Fin a, Fin b => Fin (a * b)
  | Fin a, PInf | PInf, Fin a =>
      if Qzerob a then NaN else if Qltb 0 a then PInf else NInf
  | Fin a, NInf | NInf, Fin a =>
      if Qzerob a then NaN else if Qltb 0 a then NInf else PInf
  | PInf, PInf | NInf, NInf => PInf
  | PInf, NInf | NInf, PInf => NaN
  end.

(** numpy division: a zero divisor gives an infinity carrying the sign of
    the dividend, or NaN for 0/0; nothing is raised. *)
Definition fdiv (x y : fval) : fval :=
  match x, y with
  | NaN, _ | _, NaN => NaN
  | Fin a, Fin b =>
      if Qzerob b
      then (if Qzerob a then NaN else if Qltb 0 a then PInf else NInf)
      else Fin (a / b)
  | Fin _, (PInf | NInf) => Fin 0
  | PInf, Fin b => if Qleb 0 b then PInf else NInf
  | NInf, Fin b => if Qleb 0 b then NInf else PInf
  | (PInf | NInf), (PInf | NInf) => NaN
  end.

(** Truth value of a Python float: everything but zero. *)
Definition truthy (x : fval) : bool :=
  match x with
  | Fin a => negb (Qzerob a)
  | _ => true
  end.

End Float.
Import Float.

(* ===================================================================== *)
(** ** Positional access to a frame: [df.iloc[idx]] *)
(* ===================================================================== *)

(** Rows of a frame are a list.  [iloc] takes a Python integer: a negative
    index counts from the end, and an index outside [-len, len) raises
    [IndexError]. *)
Definition iloc {A} (df : list A) (idx : Z) : result A :=
  let n := Z.of_nat (length df) in
  let k := if idx <? 0 then idx + n else idx in
  if (k <? 0) || (n <=? k) then Raise IndexError
  else match df !! Z.to_nat k with
       | Some row => Ok row
       | None => Raise IndexError
       end.

(* ===================================================================== *)
(** ** pandas column operations used by the indicator engine *)
(* ===================================================================== *)

Module Pandas.

(** [s.diff()]: first element NaN, then [s[i] - s[i-1]]. *)
Definition diff (xs : list fval) : list fval :=
  match xs with
  | [] => []
  | _ :: tl => NaN :: zip_with fsub tl xs
  end.

(** [s.where(cond, other)]: keep the element where [cond] holds, put
    [other] elsewhere (in particular where the element is NaN, since a
    comparison with NaN is false). *)
Definition where_ (cond : fval -> bool) (other : fval) (xs : list fval)
  : list fval :=
  (fun x => if cond x then x else other) <$> xs.

Definition fsum (xs : list fval) : fval := fold_left fadd xs (Fin 0).

(** The [w] elements ending at position [i]. *)
Definition window (w i : nat) (xs : list fval) : list fval :=
  take w (drop (S i - w) xs).

(** Element [i] of [s.rolling(window=w).mean()].  [min_periods] defaults
    to [w]: the value is NaN until [w] observations are available and
    whenever one of them is NaN.  The mean is taken here on the exact
    values of the window; what pandas computes in binary64, with one
    running sum carried along the series, is [Binary64.roll_mean]. *)
Definition rolling_mean_at (w : Z) (xs : list fval) (i : nat) : fval :=
  if (w <=? 0) || (Z.of_nat i + 1 <? w) then NaN
  else
    let win := window (Z.to_nat w) i xs in
    if existsb isna win then NaN else fdiv (fsum win) (of_Z w).

(** [s.rolling(window=w).mean()]; pandas rejects a negative window with
    [ValueError]. *)
Definition rolling_mean (w : Z) (xs : list fval) : result (list fval) :=
  if w <? 0 then Raise ValueError
  else Ok (rolling_mean_at w xs <$> seq 0 (length xs)).

End Pandas.

(* ===================================================================== *)
(** ** strategy/multi_timeframe_strategy.py *)
(* ===================================================================== *)

Inductive Signal : Type := BUY | SELL | HOLD.

(** [self.position]: [None] (FLAT) or ['LONG']. *)
Inductive Position : Type := FLAT | LONG.

Inductive Crossover : Type := BULLISH | BEARISH.

Inductive Trend : Type := UP | DOWN.

Global Instance Signal_eq_dec : EqDecision Signal.
Proof. solve_decision. Defined.
Global Instance Position_eq_dec : EqDecision Position.
Proof. solve_decision. Defined.
Global Instance Crossover_eq_dec : EqDecision Crossover.
Proof. solve_decision. Defined.
Global Instance Trend_eq_dec : EqDecision Trend.
Proof. solve_decision. Defined.

(** A fetched candle; prices are finite numbers. *)
Module Candle.
Record t : Type := mk {
  open_time : Z;
  open : Q;
  high : Q;
  low : Q;
  close : Q;
  volume : Q
}.
End Candle.

(** A row of the primary frame once the indicator columns exist. *)
Module Primary.
Record row : Type := mk {
  close : fval;
  sma_fast : fval;
  sma_slow : fval;
  rsi : fval
}.
End Primary.

(** A row of the secondary frame once the trend column exists. *)
Module Secondary.
Record row : Type := mk {
  close : fval;
  sma_trend : fval
}.
End Secondary.

(** The strategy object: its parameters and its two mutable fields. *)
Record Strategy : Type := mkStrategy {
  fast_sma : Z;
  slow_sma : Z;
  trend_sma : Z;
  rsi_period : Z;
  rsi_overbought : fval;
  rsi_oversold : fval;
  position : Position;
  entry_price : option fval
}.

(** [MultiTimeframeStrategy.__init__] *)
Definition Strategy_init (fast_sma_period slow_sma_period trend_sma_period
                          rsi_period : Z) (rsi_overbought rsi_oversold : fval)
  : Strategy :=
  mkStrategy fast_sma_period slow_sma_period trend_sma_period rsi_period
             rsi_overbought rsi_oversold FLAT None.

(** Methods run in a state-and-exception monad over the strategy object. *)
Definition M (A : Type) : Type := Strategy -> result A * Strategy.

Definition ret {A} (a : A) : M A := fun self => (Ok a, self).

Definition bind {A B} (m : M A) (k : A -> M B) : M B :=
  fun self =>
    match m self with
    | (Ok a, self') => k a self'
    | (Raise e, self') => (Raise e, self')
    end.

Definition get : M Strategy := fun self => (Ok self, self).

Definition put (self' : Strategy) : M unit := fun _ => (Ok tt, self').

Definition lift {A} (r : result A) : M A := fun self => (r, self).

Declare Scope strategy_scope.
Delimit Scope strategy_scope with strategy.
Notation "'let!' x ':=' m 'in' k" := (bind m (fun x => k))
  (at level 10, x name, m at level 100, k at level 200) : strategy_scope.

Section StrategyMethods.
Local Open Scope strategy_scope.

(** [calculate_indicators]: reads the parameters only. *)
Definition calculate_indicators (self : Strategy)
    (df_primary df_secondary : list Candle.t)
  : result (list Primary.row * list Secondary.row) :=
  let close := (fun c => Fin (Candle.close c)) <$> df_primary in
  rbind (Pandas.rolling_mean (fast_sma self) close) (fun sma_fast =>
  rbind (Pandas.rolling_mean (slow_sma self) close) (fun sma_slow =>
  let delta := Pandas.diff close in
  rbind (Pandas.rolling_mean (rsi_period self)
           (Pandas.where_ (fun d => fgt d (Fin 0)) (Fin 0) delta))
        (fun gain =>
  rbind (Pandas.rolling_mean (rsi_period self)
           (fneg <$> Pandas.where_ (fun d => flt d (Fin 0)) (Fin 0) delta))
        (fun loss =>
  let rs := zip_with fdiv gain loss in
  let rsi :=
    (fun x => fsub (Fin 100) (fdiv (Fin 100) (fadd (Fin 1) x))) <$> rs in
  let close2 := (fun c => Fin (Candle.close c)) <$> df_secondary in
  rbind (Pandas.rolling_mean (trend_sma self) close2) (fun sma_trend =>
  Ok (zip_with (fun cf sr => Primary.mk cf.1 cf.2 sr.1 sr.2)
               (zip close sma_fast) (zip sma_slow rsi),
      zip_with Secondary.mk close2 sma_trend)))))).

(** [get_trend_direction] *)
Definition get_trend_direction (df_secondary : list Secondary.row)
    (index : Z) : M (option Trend) :=
  if (index <? 0) || (Z.of_nat (length df_secondary) <=? index)
  then ret None
  else
    let! r := lift (iloc df_secondary index) in
    let current_price := Secondary.close r in
    let trend_sma := Secondary.sma_trend r in
    if isna trend_sma then ret None
    else if fgt current_price trend_sma then ret (Some UP)
    else if flt current_price trend_sma then ret (Some DOWN)
    else ret None.

(** [check_sma_crossover] *)
Definition check_sma_crossover (df_primary : list Primary.row)
    (current_idx : Z) : M (option Crossover) :=
  if current_idx <? 1 then ret None
  else
    let! cur := lift (iloc df_primary current_idx) in
    let fast_current := Primary.sma_fast cur in
    let slow_current := Primary.sma_slow cur in
    let! prev := lift (iloc df_primary (current_idx - 1)) in
    let fast_prev := Primary.sma_fast prev in
    let slow_prev := Primary.sma_slow prev in
    if isna fast_current || isna slow_current then ret None
    else if fle fast_prev slow_prev && fgt fast_current slow_current
    then ret (Some BULLISH)
    else if fge fast_prev slow_prev && flt fast_current slow_current
    then ret (Some BEARISH)
    else ret None.

(** [generate_signal].  The logging calls are left out: they format
    floats and strings that always exist and change no field. *)
Definition generate_signal (df_primary : list Primary.row)
    (df_secondary : list Secondary.row) (primary_idx secondary_idx : Z)
  : M Signal :=
  let! self := get in
  if (primary_idx <? slow_sma self) || (secondary_idx <? trend_sma self)
  then ret HOLD
  else
    let! row := lift (iloc df_primary primary_idx) in
    let current_price := Primary.close row in
    let! row' := lift (iloc df_primary primary_idx) in
    let rsi := Primary.rsi row' in
    let! crossover := check_sma_crossover df_primary primary_idx in
    let! trend := get_trend_direction df_secondary secondary_idx in
    let! self := get in
    match position self with
    | FLAT =>
        if bool_decide (crossover = Some BULLISH)
           || (bool_decide (trend = Some UP)
               && flt rsi (rsi_overbought self))
        then ret BUY
        else ret HOLD
    | LONG =>
        if bool_decide (crossover = Some BEARISH)
           || fgt rsi (rsi_overbought self)
        then ret SELL
        else ret HOLD
    end.

(** [update_position] *)
Definition update_position (signal : Signal) (price : fval) : M unit :=
  let! self := get in
  match signal with
  | BUY =>
      put (mkStrategy (fast_sma self) (slow_sma self) (trend_sma self)
             (rsi_period self) (rsi_overbought self) (rsi_oversold self)
             LONG (Some price))
  | SELL =>
      put (mkStrategy (fast_sma self) (slow_sma self) (trend_sma self)
             (rsi_period self) (rsi_overbought self) (rsi_oversold self)
             FLAT None)
  | HOLD => ret tt
  end.

(** [reset] *)
Definition reset : M unit :=
  let! self := get in
  put (mkStrategy (fast_sma self) (slow_sma self) (trend_sma self)
         (rsi_period self) (rsi_overbought self) (rsi_oversold self)
         FLAT None).

End StrategyMethods.

(** The alternation of the two drivers: evaluate, then apply the emitted
    signal to the position before the next evaluation.  Each emitted signal
    is recorded with the position it was emitted in.  An evaluation that
    raises emits nothing and leaves the object as it is. *)
Record Step : Type := mkStep {
  step_primary : list Primary.row;
  step_secondary : list Secondary.row;
  step_primary_idx : Z;
  step_secondary_idx : Z;
  step_price : fval
}.

Fixpoint run_session (steps : list Step) (self : Strategy)
  : list (Position * Signal) :=
  match steps with
  | [] => []
  | st :: rest =>
      match generate_signal (step_primary st) (step_secondary st)
              (step_primary_idx st) (step_secondary_idx st) self with
      | (Ok signal, self1) =>
          (position self, signal)
            :: run_session rest (update_position signal (step_price st) self1).2
      | (Raise _, self1) => run_session rest self1
      end
  end.

(** The position discipline of the specification, on a bare signal list:
    [open_buy] tells whether a BUY is waiting for its SELL. *)
Fixpoint no_double_buy (open_buy : bool) (signals : list Signal) : bool :=
  match signals with
  | [] => true
  | BUY :: rest => negb open_buy && no_double_buy true rest
  | SELL :: rest => no_double_buy false rest
  | HOLD :: rest => no_double_buy open_buy rest
  end.

Definition no_sell_while_flat (trace : list (Position * Signal)) : bool :=
  forallb (fun ps => match ps with
                     | (FLAT, SELL) => false
                     | _ => true
                     end) trace.

(** The series cut after bar [i]: [df.iloc[:i+1]] for [i >= 0], nothing for
    a negative [i]. *)
Definition truncate {A} (i : Z) (df : list A) : list A :=
  take (Z.to_nat (i + 1)) df.

(* ===================================================================== *)
(** ** utils/validators.py *)
(* ===================================================================== *)

(** A ledger row, with the columns [compare_trades] reads.  Timestamps and
    durations are in nanoseconds (the resolution of pandas timestamps);
    [entry_price] is [None] when the column is absent. *)
Module Trade.
Record row : Type := mk {
  timestamp : Z;
  side : string;
  entry_price : option fval
}.
End Trade.

(** A frame of trades as [iterrows] yields it: index label and row. *)
Definition Ledger : Type := list (Z * Trade.row).

(** The frame after [reset_index(drop=True)], as [load_trades] returns it. *)
Definition reset_index (rows : list Trade.row) : Ledger :=
  zip (Z.of_nat <$> seq 0 (length rows)) rows.

(** An entry of [results["details"]].  [lv_idx] is not stored by the source:
    it is the label put into [used_live] at this match, kept here so that
    the pairing can be spoken about. *)
Inductive Detail : Type :=
| MATCHED (side : string) (bt_time lv_time : Z) (time_diff_sec : fval)
          (bt_price lv_price : option fval) (price_diff_pct : option fval)
          (lv_idx : Z)
| UNMATCHED_BACKTEST (side : string) (bt_time : Z) (bt_price : option fval).

Record Results : Type := mkResults {
  backtest_trades : Z;
  live_trades : Z;
  matched_trades : Z;
  unmatched_backtest : Z;
  unmatched_live : Z;
  details : list Detail
}.

Record TradeValidator : Type := mkTradeValidator {
  candle_window : Z;
  price_tolerance : fval
}.

Definition nanoseconds_per_second : Z := 1000000000.

(** [TradeValidator.__init__] *)
Definition TradeValidator_init (candle_seconds : Z) (price_tolerance : fval)
  : TradeValidator :=
  mkTradeValidator (candle_seconds * nanoseconds_per_second) price_tolerance.

Section CompareTrades.
Variable self : TradeValidator.

(** The inner loop: the first live row that is unused, has the side of
    [bt] and lies within the candle window.  Timestamps are counted in
    nanoseconds and subtracted as integers: this is the loop on ledgers
    whose timestamps are close enough for every difference to be a
    [Timedelta]; [find_live_checked] below has the bound and the exception
    beyond it. *)
Fixpoint find_live (used_live : gset Z) (bt : Trade.row) (df_lv : Ledger)
  : option (Z * Trade.row) :=
  match df_lv with
  | [] => None
  | (lv_idx, lv) :: rest =>
      if bool_decide (lv_idx ∈ used_live) then find_live used_live bt rest
      else if bool_decide (Trade.side bt ≠ Trade.side lv)
      then find_live used_live bt rest
      else if candle_window self
              <? Z.abs (Trade.timestamp lv - Trade.timestamp bt)
      then find_live used_live bt rest
      else Some (lv_idx, lv)
  end.

Definition matched_detail (bt : Trade.row) (lv_idx : Z) (lv : Trade.row)
  : Detail :=
  let bt_price := Trade.entry_price bt in
  let time_diff := Z.abs (Trade.timestamp lv - Trade.timestamp bt) in
  let price_diff_pct :=
    match bt_price, Trade.entry_price lv with
    | Some p, Some q =>
        if truthy p then Some (fdiv (fabs (fsub p q)) p) else None
    | _, _ => None
    end in
  MATCHED (Trade.side bt) (Trade.timestamp bt) (Trade.timestamp lv)
          (Fin (time_diff # 1000000000))
          bt_price (Trade.entry_price lv)
          ((fun d => fmul d (Fin 100)) <$> price_diff_pct)
          lv_idx.

(** One turn of the outer loop, on the results and [used_live]. *)
Definition compare_step (df_lv : Ledger) (acc : Results * gset Z)
    (bt : Trade.row) : Results * gset Z :=
  let (results, used_live) := acc in
  match find_live used_live bt df_lv with
  | Some (lv_idx, lv) =>
      (mkResults (backtest_trades results) (live_trades results)
         (matched_trades results + 1) (unmatched_backtest results)
         (unmatched_live results)
         (details results ++ [matched_detail bt lv_idx lv]),
       {[lv_idx]} ∪ used_live)
  | None =>
      (mkResults (backtest_trades results) (live_trades results)
         (matched_trades results) (unmatched_backtest results + 1)
         (unmatched_live results)
         (details results
            ++ [UNMATCHED_BACKTEST (Trade.side bt) (Trade.timestamp bt)
                  (Trade.entry_price bt)]),
       used_live)
  end.

Definition compare_loop (df_bt df_lv : Ledger) : Results * gset Z :=
  fold_left (compare_step df_lv) (snd <$> df_bt)
    (mkResults (Z.of_nat (length df_bt)) (Z.of_nat (length df_lv)) 0 0 0 [],
     ∅).

(** [compare_trades] *)
Definition compare_trades (df_bt df_lv : Ledger) : Results :=
  let (results, used_live) := compare_loop df_bt df_lv in
  mkResults (backtest_trades results) (live_trades results)
    (matched_trades results) (unmatched_backtest results)
    (Z.of_nat (length df_lv) - Z.of_nat (size used_live))
    (details results).

End CompareTrades.

(** The largest [Timedelta], in nanoseconds: 64 bits, the least value being
    kept for NaT. *)
Definition timedelta_max : Z := 9223372036854775807.

(** [lv['timestamp'] - bt_time] on two [Timestamp]s; [None] stands for the
    exception raised when the difference does not fit a [Timedelta]. *)
Definition timestamp_sub (a b : Z) : option Z :=
  if (a - b <? - timedelta_max) || (timedelta_max <? a - b) then None
  else Some (a - b).

Section CompareTradesChecked.
Variable self : TradeValidator.

(** The inner loop with the subtraction as pandas performs it.  The outer
    [None] says that it raised, which ends [compare_trades]. *)
Fixpoint find_live_checked (used_live : gset Z) (bt : Trade.row)
    (df_lv : Ledger) : option (option (Z * Trade.row)) :=
  match df_lv with
  | [] => Some None
  | (lv_idx, lv) :: rest =>
      if bool_decide (lv_idx ∈ used_live)
      then find_live_checked used_live bt rest
      else if bool_decide (Trade.side bt ≠ Trade.side lv)
      then find_live_checked used_live bt rest
      else
        match timestamp_sub (Trade.timestamp lv) (Trade.timestamp bt) with
        | None => None
        | Some d =>
            if candle_window self <? Z.abs d
            then find_live_checked used_live bt rest
            else Some (Some (lv_idx, lv))
        end
  end.

(** One turn of the outer loop. *)
Definition compare_step_checked (df_lv : Ledger)
    (acc : option (Results * gset Z)) (bt : Trade.row)
  : option (Results * gset Z) :=
  match acc with
  | None => None
  | Some (results, used_live) =>
      match find_live_checked used_live bt df_lv with
      | None => None
      | Some (Some (lv_idx, lv)) =>
          Some (mkResults (backtest_trades results) (live_trades results)
                  (matched_trades results + 1) (unmatched_backtest results)
                  (unmatched_live results)
                  (details results ++ [matched_detail bt lv_idx lv]),
                {[lv_idx]} ∪ used_live)
      | Some None =>
          Some (mkResults (backtest_trades results) (live_trades results)
                  (matched_trades results) (unmatched_backtest results + 1)
                  (unmatched_live results)
                  (details results
                     ++ [UNMATCHED_BACKTEST (Trade.side bt)
                           (Trade.timestamp bt) (Trade.entry_price bt)]),
                used_live)
      end
  end.

(** [compare_trades], with [None] when a subtraction raised. *)
Definition compare_trades_checked (df_bt df_lv : Ledger) : option Results :=
  match fold_left (compare_step_checked df_lv) (snd <$> df_bt)
          (Some (mkResults (Z.of_nat (length df_bt))
                   (Z.of_nat (length df_lv)) 0 0 0 [], ∅)) with
  | None => None
  | Some (results, used_live) =>
      Some (mkResults (backtest_trades results) (live_trades results)
              (matched_trades results) (unmatched_backtest results)
              (Z.of_nat (length df_lv) - Z.of_nat (size used_live))
              (details results))
  end.

End CompareTradesChecked.

(** Every backtest timestamp is within a [Timedelta] of every live one. *)
Definition timestamps_in_range (df_bt df_lv : Ledger) : Prop :=
  forall bt lv, bt ∈ df_bt.*2 -> lv ∈ df_lv.*2 ->
    Z.abs (Trade.timestamp lv - Trade.timestamp bt) <= timedelta_max.

(** The live labels of the pairings, in the order they were made. *)
Definition matched_live (ds : list Detail) : list Z :=
  omap (fun d => match d with
                 | MATCHED _ _ _ _ _ _ _ lv_idx => Some lv_idx
                 | UNMATCHED_BACKTEST _ _ _ => None
                 end) ds.

(** The invariant of the outer loop: the counters add up to the number of
    rows seen so far, [used_live] has one label per match, these labels are
    the ones recorded in the details, without repetition, and all of them
    label rows of the live ledger. *)
Definition matcher_inv (df_lv : Ledger) (seen : Z) (acc : Results * gset Z)
  : Prop :=
  let (results, used_live) := acc in
  0 <= matched_trades results
  /\ matched_trades results + unmatched_backtest results = seen
  /\ Z.of_nat (size used_live) = matched_trades results
  /\ NoDup (matched_live (details results))
  /\ (forall l, l ∈ matched_live (details results) <-> l ∈ used_live)
  /\ (forall l, l ∈ used_live -> l ∈ (fst <$> df_lv)).

(* ===================================================================== *)
(** ** execution/live_engine.py and data/binance_client.py *)
(* ===================================================================== *)

(** [s.endswith(suffix)] *)
Definition endswith (s suffix : string) : bool :=
  let n := String.length s in
  let k := String.length suffix in
  (k <=? n)%nat && String.eqb (String.substring (n - k) k s) suffix.

(** [s[:-1]] *)
Definition drop_last (s : string) : string :=
  String.substring 0 (String.length s - 1) s.

(** The time frame has none of the unit suffixes the parser knows. *)
Definition unknown_unit (timeframe : string) : bool :=
  negb (endswith timeframe "m") && negb (endswith timeframe "h")
  && negb (endswith timeframe "d").

(** A request parameter value. *)
Inductive Param : Type :=
| PStr (s : string)
| PInt (z : Z)
| PNum (x : fval).

(** The JSON answer to an order, with the keys the engine reads. *)
Record Order : Type := mkOrder {
  orderId : Z;
  status : string
}.

Record LiveTradingEngine : Type := mkLiveTradingEngine {
  strategy : Strategy;
  symbol : string;
  primary_tf : string;
  secondary_tf : string;
  quantity : fval;
  check_interval : Z;
  trades : list Trade.row;
  is_running : bool
}.

Section Engine.
(** The builtin [int] on strings; [None] stands for its [ValueError]. *)
Variable int_ : string -> option Z.

Definition int_of (s : string) : result Z :=
  match int_ s with
  | Some z => Ok z
  | None => Raise ValueError
  end.

(** [_parse_timeframe_to_seconds]; the last branch logs a warning and
    returns 60. *)
Definition _parse_timeframe_to_seconds (timeframe : string) : result Z :=
  if endswith timeframe "m" then
    rbind (int_of (drop_last timeframe)) (fun minutes => Ok (minutes * 60))
  else if endswith timeframe "h" then
    rbind (int_of (drop_last timeframe)) (fun hours => Ok (hours * 60 * 60))
  else if endswith timeframe "d" then
    rbind (int_of (drop_last timeframe))
          (fun days => Ok (days * 24 * 60 * 60))
  else Ok 60.

(** [LiveTradingEngine.__init__]; the [check_interval] argument is
    ignored, as in the source.  The client and the data handler carry no
    state of interest and are left out. *)
Definition LiveTradingEngine_init (strategy : Strategy)
    (symbol primary_timeframe secondary_timeframe : string)
    (trade_quantity : fval) (check_interval : Z)
  : result LiveTradingEngine :=
  rbind (_parse_timeframe_to_seconds primary_timeframe) (fun interval =>
  Ok (mkLiveTradingEngine strategy symbol primary_timeframe
        secondary_timeframe trade_quantity interval [] false)).

End Engine.

Section Client.
(** The outside world of [BinanceClient]: the clock in milliseconds, the
    HMAC signature of a parameter list, and the HTTP POST with
    [raise_for_status] and JSON decoding. *)
Variable now_ms : Z.
Variable _generate_signature : list (string * Param) -> string.
Variable post : string -> list (string * Param) -> result Order.

(** [create_order] *)
Definition create_order (base_url symbol side order_type : string)
    (quantity : fval) (price : option fval) (time_in_force : string)
  : result Order :=
  let endpoint := (base_url ++ "/v3/order")%string in
  let params :=
    [("symbol", PStr symbol); ("side", PStr side); ("type", PStr order_type);
     ("quantity", PNum quantity); ("timestamp", PInt now_ms)] in
  rbind (if String.eqb order_type "LIMIT" then
           match price with
           | None => Raise ValueError
           | Some p =>
               Ok (params ++ [("price", PNum p);
                              ("timeInForce", PStr time_in_force)])
           end
         else Ok params) (fun params =>
  let params := params ++ [("signature", PStr (_generate_signature params))] in
  post endpoint params).

End Client.

(** An instance of [int] for closed examples: unsigned ASCII decimal
    literals.  (Python also accepts signs, surrounding blanks, underscores
    and other decimal digits; the methods above take [int_] as a parameter
    for that reason.) *)
Definition digit_of (c : Ascii.ascii) : option Z :=
  let n := Ascii.nat_of_ascii c in
  if (48 <=? n)%nat && (n <=? 57)%nat then Some (Z.of_nat (n - 48)) else None.

Fixpoint digits (s : string) (acc : Z) : option Z :=
  match s with
  | EmptyString => Some acc
  | String c rest =>
      match digit_of c with
      | Some d => digits rest (10 * acc + d)
      | None => None
      end
  end.

Definition int_decimal (s : string) : option Z :=
  match s with
  | EmptyString => None
  | _ => digits s 0
  end.

(* ===================================================================== *)
(** ** Row-wise description of the indicator frames *)
(* ===================================================================== *)

(** The two columns the RSI averages, as [calculate_indicators] builds
    them from the close column. *)
Definition gains (close : list fval) : list fval :=
  Pandas.where_ (fun d => fgt d (Fin 0)) (Fin 0) (Pandas.diff close).

Definition losses (close : list fval) : list fval :=
  fneg <$> Pandas.where_ (fun d => flt d (Fin 0)) (Fin 0) (Pandas.diff close).

Definition rsi_at (period : Z) (close : list fval) (i : nat) : fval :=
  let rs := fdiv (Pandas.rolling_mean_at period (gains close) i)
                 (Pandas.rolling_mean_at period (losses close) i) in
  fsub (Fin 100) (fdiv (Fin 100) (fadd (Fin 1) rs)).

Definition close_column (df : list Candle.t) : list fval :=
  (fun c => Fin (Candle.close c)) <$> df.

(** Row [i] of the primary frame, read off the close column. *)
Definition primary_row_at (self : Strategy) (close : list fval) (i : nat)
    (c : fval) : Primary.row :=
  Primary.mk c
    (Pandas.rolling_mean_at (fast_sma self) close i)
    (Pandas.rolling_mean_at (slow_sma self) close i)
    (rsi_at (rsi_period self) close i).

Definition secondary_row_at (self : Strategy) (close : list fval) (i : nat)
    (c : fval) : Secondary.row :=
  Secondary.mk c (Pandas.rolling_mean_at (trend_sma self) close i).

Definition finite_nonneg (x : fval) : Prop :=
  exists q, x = Fin q /\ (0 <= q)%Q.

Definition finite_zero (x : fval) : Prop :=
  exists q, x = Fin q /\ (q == 0)%Q.

(** The signal a driver obtains at bars [i] / [j] from raw candles:
    indicators first, then the evaluation. *)
Definition signal_at (self : Strategy) (df_primary df_secondary : list Candle.t)
    (i j : Z) : result Signal :=
  rbind (calculate_indicators self df_primary df_secondary) (fun frames =>
  (generate_signal frames.1 frames.2 i j self).1).

(** A computation is read-only when it hands the object back as it got it,
    whether it returns or raises. *)
Definition read_only {A} (m : M A) : Prop := forall self, (m self).2 = self.

(* ===================================================================== *)
(** ** A small session used in the examples *)
(* ===================================================================== *)

Definition ex_candle (c : Z) : Candle.t :=
  Candle.mk 0 (inject_Z c) (inject_Z c) (inject_Z c) (inject_Z c) 0.

(** Periods 2 / 3 / 2 / 2, overbought at 70. *)
Definition ex_strategy : Strategy := Strategy_init 2 3 2 2 (Fin 70) (Fin 30).

Definition ex_primary_candles : list Candle.t :=
  ex_candle <$> [10; 10; 10; 9; 8; 11; 14; 15; 9; 8].

Definition ex_secondary_candles : list Candle.t :=
  ex_candle <$> [10; 10; 11; 12].

Definition ex_frames : list Primary.row * list Secondary.row :=
  Eval vm_compute in
    match calculate_indicators ex_strategy ex_primary_candles
            ex_secondary_candles with
    | Ok frames => frames
    | Raise _ => ([], [])
    end.

Definition ex_primary : list Primary.row := Eval vm_compute in ex_frames.1.
Definition ex_secondary : list Secondary.row := Eval vm_compute in ex_frames.2.

Definition ex_row (i : nat) : Primary.row :=
  match ex_primary !! i with
  | Some r => r
  | None => Primary.mk NaN NaN NaN NaN
  end.

Definition ex_steps : list Step :=
  (fun i => mkStep ex_primary ex_secondary i 3 (Primary.close (ex_row (Z.to_nat i))))
    <$> [2; 3; 4; 5; 6; 7; 8; 9; 10].

(* ===================================================================== *)
(** ** Contracts used in further properties *)
(* ===================================================================== *)

(** The object a session leaves behind ([run_session] keeps the emitted
    signals only). *)
Fixpoint session_end (steps : list Step) (self : Strategy) : Strategy :=
  match steps with
  | [] => self
  | st :: rest =>
      match generate_signal (step_primary st) (step_secondary st)
              (step_primary_idx st) (step_secondary_idx st) self with
      | (Ok signal, self1) =>
          session_end rest (update_position signal (step_price st) self1).2
      | (Raise _, self1) => session_end rest self1
      end
  end.

(** What [update_position] does to the position: BUY opens, SELL closes,
    HOLD keeps. *)
Definition apply_signal (p : Position) (signal : Signal) : Position :=
  match signal with
  | BUY => LONG
  | SELL => FLAT
  | HOLD => p
  end.


(** A second parameter set for the examples: the RSI period (6) exceeds the
    slow period (3), as in the shipped settings (14 against 10). *)
Definition ex_slow_rsi_strategy : Strategy :=
  Strategy_init 2 3 2 6 (Fin 70) (Fin 30).

Definition ex_slow_rsi_frames : list Primary.row * list Secondary.row :=
  Eval vm_compute in
    match calculate_indicators ex_slow_rsi_strategy ex_primary_candles
            ex_secondary_candles with
    | Ok frames => frames
    | Raise _ => ([], [])
    end.


(** The backtest row a detail entry reports. *)
Definition detail_backtest (d : Detail) : Trade.row :=
  match d with
  | MATCHED side bt_time _ _ bt_price _ _ _ => Trade.mk bt_time side bt_price
  | UNMATCHED_BACKTEST side bt_time bt_price => Trade.mk bt_time side bt_price
  end.

(** What a detail entry claims, checked against the two ledgers: a MATCHED
    entry pairs a backtest row with a live row of the same side whose
    timestamp lies within the window; an UNMATCHED_BACKTEST entry reports a
    backtest row. *)
Definition detail_sound (self : TradeValidator) (df_bt df_lv : Ledger)
    (d : Detail) : Prop :=
  match d with
  | MATCHED side bt_time lv_time time_diff_sec bt_price lv_price _ lv_idx =>
      (exists bt_idx, (bt_idx, Trade.mk bt_time side bt_price) ∈ df_bt)
      /\ (lv_idx, Trade.mk lv_time side lv_price) ∈ df_lv
      /\ Z.abs (lv_time - bt_time) <= candle_window self
      /\ time_diff_sec = Fin (Z.abs (lv_time - bt_time) # 1000000000)
  | UNMATCHED_BACKTEST side bt_time bt_price =>
      exists bt_idx, (bt_idx, Trade.mk bt_time side bt_price) ∈ df_bt
  end.

(** The loop facts behind it, relative to the current [used_live]. *)
Definition detail_ok (self : TradeValidator) (df_lv : Ledger)
    (used_live : gset Z) (d : Detail) : Prop :=
  match d with
  | MATCHED side bt_time lv_time time_diff_sec _ lv_price _ lv_idx =>
      lv_idx ∈ used_live
      /\ (lv_idx, Trade.mk lv_time side lv_price) ∈ df_lv
      /\ Z.abs (lv_time - bt_time) <= candle_window self
      /\ time_diff_sec = Fin (Z.abs (lv_time - bt_time) # 1000000000)
  | UNMATCHED_BACKTEST side bt_time _ =>
      forall l lv, (l, lv) ∈ df_lv -> Trade.side lv = side ->
                   Z.abs (Trade.timestamp lv - bt_time) <= candle_window self ->
                   l ∈ used_live
  end.

Definition matcher_trace_inv (self : TradeValidator) (df_lv : Ledger)
    (seen : list Trade.row) (acc : Results * gset Z) : Prop :=
  let (results, used_live) := acc in
  detail_backtest <$> details results = seen
  /\ 0 <= unmatched_backtest results
  /\ Forall (detail_ok self df_lv used_live) (details results).


(** Two small ledgers for the examples: a window of 10 ns, two backtest
    BUYs and one live BUY that both could take. *)
Definition ex_validator : TradeValidator := mkTradeValidator 10 (Fin 0).

Definition ex_bt_ledger : Ledger :=
  reset_index [Trade.mk 5 "BUY" (Some (Fin 100)); Trade.mk 3 "BUY" None].

Definition ex_lv_ledger : Ledger :=
  reset_index [Trade.mk 0 "BUY" (Some (Fin 101))].


(* ===================================================================== *)
(** ** execution/backtest_engine.py *)
(* ===================================================================== *)

(** [_find_secondary_index]: [secondary_times] is the index of the
    secondary frame; the boolean mask keeps the times not after
    [primary_time]. *)
Definition _find_secondary_index (secondary_times : list Z) (primary_time : Z)
  : option Z :=
  let valid_times := filter (fun t => t <= primary_time) secondary_times in
  if (length valid_times =? 0)%nat then None
  else Some (Z.of_nat (length valid_times) - 1).

(** What [next] asks of the backtesting framework. *)
Inductive BrokerAction : Type :=
| Buy
| ClosePosition.

(** [MultiTimeframeBacktestStrategy.next].  [data] is what the framework has
    revealed so far, as (time, close) rows; [in_position] is the truth value
    of the framework's own [self.position]. *)
Definition next (df_primary : list Primary.row)
    (df_secondary : list Secondary.row) (secondary_times : list Z)
    (data : list (Z * fval)) (in_position : bool) : M (option BrokerAction) :=
  (let primary_idx := Z.of_nat (length data) - 1 in
   let! last := lift (iloc data (-1)) in
   let current_time := last.1 in
   match _find_secondary_index secondary_times current_time with
   | None => ret None
   | Some secondary_idx =>
       let! signal :=
         generate_signal df_primary df_secondary primary_idx secondary_idx in
       if bool_decide (signal = BUY) && negb in_position then
         let! _u := update_position BUY last.2 in ret (Some Buy)
       else if bool_decide (signal = SELL) && in_position then
         let! _u := update_position SELL last.2 in ret (Some ClosePosition)
       else ret None
   end)%strategy.

(** A row of the framework's [_trades] table. *)
Module BtTrade.
Record t : Type := mk {
  EntryTime : Z;
  ExitTime : Z;
  EntryPrice : fval;
  ExitPrice : fval;
  Size : fval;
  PnL : fval;
  ReturnPct : fval
}.
End BtTrade.

(** A record of the backtest ledger. *)
Module BacktestRecord.
Record t : Type := mk {
  timestamp : Z;
  symbol : string;
  side : string;
  entry_price : fval;
  exit_time : option Z;
  exit_price : option fval;
  size : fval;
  pnl : option fval;
  return_pct : option fval
}.
End BacktestRecord.

(** [BacktestEngine._process_trades], on [self.trades]; [results] is [None]
    before any run. *)
Definition _process_trades (results : option (list BtTrade.t))
    (symbol : string) (trades : list BacktestRecord.t)
  : list BacktestRecord.t :=
  match results with
  | None => trades
  | Some trades_data =>
      if (length trades_data =? 0)%nat then trades
      else
        trades_data ≫= (fun trade =>
          [BacktestRecord.mk (BtTrade.EntryTime trade) symbol "BUY"
             (BtTrade.EntryPrice trade) None None (BtTrade.Size trade)
             None None;
           BacktestRecord.mk (BtTrade.ExitTime trade) symbol "SELL"
             (BtTrade.EntryPrice trade) (Some (BtTrade.ExitTime trade))
             (Some (BtTrade.ExitPrice trade)) (BtTrade.Size trade)
             (Some (BtTrade.PnL trade))
             (Some (fmul (BtTrade.ReturnPct trade) (Fin 100)))])
  end.

(** ['total_trades'] of [BacktestEngine.get_summary]. *)
Definition complete_trades (trades : list BacktestRecord.t) : nat :=
  length (filter (fun t => BacktestRecord.side t = "BUY"%string) trades).


(** The order that goes with a signal. *)
Definition action_of (signal : Signal) : option BrokerAction :=
  match signal with
  | BUY => Some Buy
  | SELL => Some ClosePosition
  | HOLD => None
  end.


Definition ex_data : list (Z * fval) :=
  [(0, Fin 10); (3, Fin 10); (6, Fin 10); (9, Fin 9)].


(* ===================================================================== *)
(** ** execution/live_engine.py: waiting, trading, the loop *)
(* ===================================================================== *)

(** How [_wait_for_candle_close] ends: it has slept, or it raised. *)
Inductive WaitOutcome : Type :=
| Slept (seconds : Z)
| WaitZeroDivisionError
| WaitValueError
| WaitOverflowError
| WaitOSError.

(** The longest sleep, in seconds: [time.sleep] keeps its argument as a
    64-bit count of nanoseconds. *)
Definition sleep_max : Z := 9223372036.

(** The largest deadline of a sleep, in nanoseconds of the monotonic
    clock. *)
Definition deadline_max : Z := 9223372036854775807.

(** [time.sleep] on an integer, as CPython 3.11 runs it on Linux: a length
    beyond [sleep_max] in magnitude is an [OverflowError], a negative
    length a [ValueError]; the sleep then lasts until the deadline
    [monotonic + seconds], and a deadline that does not fit 64 bits is
    refused by the system with an [OSError].  [monotonic] is the reading of
    the monotonic clock, in nanoseconds. *)
Definition sleep (monotonic seconds : Z) : WaitOutcome :=
  if (seconds <? - sleep_max) || (sleep_max <? seconds)
  then WaitOverflowError
  else if seconds <? 0 then WaitValueError
  else if deadline_max <? monotonic + seconds * 1000000000
  then WaitOSError
  else Slept seconds.

(** A [datetime] is its count of microseconds from [datetime.min]
    (0001-01-01 00:00:00); [datetime.max] is the last microsecond of the
    year 9999.  Days have 86400 seconds. *)
Definition datetime_max : Z := 3652059 * 86400 * 1000000 - 1.

(** [now.minute] and [now.second] *)
Definition datetime_minute (now : Z) : Z := (now / 60000000) mod 60.
Definition datetime_second (now : Z) : Z := (now / 1000000) mod 60.

(** [timedelta(seconds=s)], in microseconds: the day count, [s // 86400],
    must not exceed 999999999 in magnitude; [None] stands for the
    [OverflowError]. *)
Definition timedelta_of_seconds (s : Z) : option Z :=
  if (s / 86400 <? -999999999) || (999999999 <? s / 86400) then None
  else Some (s * 1000000).

(** [now + delta]: the sum must be a [datetime]; [None] stands for the
    [OverflowError]. *)
Definition datetime_add (now delta : Z) : option Z :=
  if (now + delta <? 0) || (datetime_max <? now + delta) then None
  else Some (now + delta).

(** The arithmetic of [_wait_for_candle_close], from [now], the reading of
    [datetime.utcnow()].  Python's [%] has the sign of the divisor, as
    [Z.modulo], and raises on a zero divisor.  [next_close] is computed
    for the log only, but computing it can raise. *)
Definition wait_seconds (interval_minutes now monotonic : Z) : WaitOutcome :=
  if interval_minutes =? 0 then WaitZeroDivisionError
  else
    let current_minute := datetime_minute now in
    let current_second := datetime_second now in
    let minutes_into_candle := current_minute mod interval_minutes in
    let minutes_until_close := interval_minutes - minutes_into_candle in
    let seconds_until_close := minutes_until_close * 60 - current_second in
    let seconds_until_close :=
      if seconds_until_close <? 5
      then seconds_until_close + interval_minutes * 60
      else seconds_until_close in
    match timedelta_of_seconds seconds_until_close with
    | None => WaitOverflowError
    | Some delta =>
        match datetime_add now delta with
        | None => WaitOverflowError
        | Some _next_close => sleep monotonic seconds_until_close
        end
    end.

(** A record of the live ledger ([self.trades]).  The records are dicts; a
    key that is absent and a key that holds [None] read the same through
    [get], and are both [None] here. *)
Module LiveTrade.
Record t : Type := mk {
  timestamp : Z;
  symbol : string;
  side : string;
  entry_price : fval;
  quantity : fval;
  order_id : Z;
  status : string;
  exit_time : option Z;
  exit_price : option fval;
  pnl : option fval;
  return_pct : option fval
}.
End LiveTrade.

(** The test of the SELL branch: an open BUY. *)
Definition is_open_buy (trade : LiveTrade.t) : bool :=
  bool_decide (LiveTrade.side trade = "BUY"%string)
  && bool_decide (LiveTrade.exit_time trade = None).

(** The walk over [reversed(self.trades)]: the open BUY nearest to the end
    gets its exit fields, in place; the answer carries its entry price and
    the PnL figures, or is [None] when there is no open BUY. *)
Fixpoint close_last_open (trades : list LiveTrade.t) (timestamp : Z)
    (current_price quantity : fval)
  : option (list LiveTrade.t * (fval * fval * fval)) :=
  match trades with
  | [] => None
  | trade :: rest =>
      match close_last_open rest timestamp current_price quantity with
      | Some (rest', info) => Some (trade :: rest', info)
      | None =>
          if is_open_buy trade then
            let entry_price := LiveTrade.entry_price trade in
            let pnl := fmul (fsub current_price entry_price) quantity in
            let pnl_pct :=
              fmul (fdiv (fsub current_price entry_price) entry_price)
                   (Fin 100) in
            Some (LiveTrade.mk (LiveTrade.timestamp trade)
                    (LiveTrade.symbol trade) (LiveTrade.side trade)
                    (LiveTrade.entry_price trade) (LiveTrade.quantity trade)
                    (LiveTrade.order_id trade) (LiveTrade.status trade)
                    (Some timestamp) (Some current_price) (Some pnl)
                    (Some pnl_pct) :: rest,
                  (entry_price, pnl, pnl_pct))
          else None
      end
  end.

(** What the world hands to one iteration of the loop: the two clocks read
    by the wait, the two fetched frames ([None]: the fetch raised), and the
    clock and HTTP layer seen by the order. *)
Record Tick : Type := mkTick {
  tick_now : Z;
  tick_monotonic : Z;
  tick_fetch : option (list Candle.t * list Candle.t);
  tick_now_ms : Z;
  tick_post : string -> list (string * Param) -> result Order
}.

Section LiveLoop.
Variable int_ : string -> option Z.
Variable _generate_signature : list (string * Param) -> string.
Variable base_url : string.
(** The engine as constructed: its symbol, time frames, quantity and check
    interval are read, never written. *)
Variable engine : LiveTradingEngine.

(** [_wait_for_candle_close] *)
Definition _wait_for_candle_close (now monotonic : Z) : WaitOutcome :=
  if endswith (primary_tf engine) "m" then
    match int_ (drop_last (primary_tf engine)) with
    | Some interval_minutes =>
        wait_seconds interval_minutes now monotonic
    | None => WaitValueError
    end
  else if endswith (primary_tf engine) "h" then
    match int_ (drop_last (primary_tf engine)) with
    | Some hours => wait_seconds (hours * 60) now monotonic
    | None => WaitValueError
    end
  else sleep monotonic (check_interval engine).

(** [LiveTradingEngine._generate_signal]: the last bar of each frame. *)
Definition live_generate_signal (df_primary : list Primary.row)
    (df_secondary : list Secondary.row) : M Signal :=
  (let primary_idx := Z.of_nat (length df_primary) - 1 in
   let secondary_idx := Z.of_nat (length df_secondary) - 1 in
   let! _row := lift (iloc df_primary primary_idx) in
   let! _srow := lift (iloc df_secondary secondary_idx) in
   let! _crossover := check_sma_crossover df_primary primary_idx in
   let! _trend := get_trend_direction df_secondary secondary_idx in
   generate_signal df_primary df_secondary primary_idx secondary_idx)%strategy.

(** [_execute_trade], on the strategy and the ledger.  [index] is the index
    of [df_primary].  The two reads before the [try] can raise; whatever
    raises inside the [try] (here: the order) makes the answer [False].
    An answer of the exchange that comes back carries the two keys the
    engine reads, as [Order] has them. *)
Definition _execute_trade (now_ms : Z)
    (post : string -> list (string * Param) -> result Order)
    (signal : Signal) (index : list Z) (df_primary : list Primary.row)
    (self : Strategy * list LiveTrade.t)
  : result (bool * (Strategy * list LiveTrade.t)) :=
  rbind (iloc df_primary (-1)) (fun row =>
  let current_price := Primary.close row in
  rbind (iloc index (-1)) (fun timestamp =>
  match signal with
  | BUY =>
      match create_order now_ms _generate_signature post base_url
              (symbol engine) "BUY" "MARKET" (quantity engine) None "GTC" with
      | Raise _ => Ok (false, self)
      | Ok order =>
          let trade_record :=
            LiveTrade.mk timestamp (symbol engine) "BUY" current_price
              (quantity engine) (orderId order) (status order)
              None None None None in
          Ok (true, ((update_position BUY current_price self.1).2,
                     self.2 ++ [trade_record]))
      end
  | SELL =>
      match create_order now_ms _generate_signature post base_url
              (symbol engine) "SELL" "MARKET" (quantity engine) None "GTC" with
      | Raise _ => Ok (false, self)
      | Ok order =>
          let closed :=
            close_last_open self.2 timestamp current_price (quantity engine) in
          let trades :=
            match closed with Some (trades, _) => trades | None => self.2 end in
          let entry_price :=
            match closed with Some (_, (e, _, _)) => Some e | None => None end in
          let pnl :=
            match closed with Some (_, (_, p, _)) => Some p | None => None end in
          let pnl_pct :=
            match closed with Some (_, (_, _, r)) => Some r | None => None end in
          let sell_record :=
            LiveTrade.mk timestamp (symbol engine) "SELL"
              (match entry_price with
               | Some e => if truthy e then e else current_price
               | None => current_price
               end)
              (quantity engine) (orderId order) (status order)
              (Some timestamp) (Some current_price) pnl pnl_pct in
          Ok (true, ((update_position SELL current_price self.1).2,
                     trades ++ [sell_record]))
      end
  | HOLD => Ok (false, self)
  end)).

(** The body of one iteration of [start], past the wait and the
    [max_trades] test: fetch, indicators, signal, order.  Every exception
    in it is caught and ends the iteration. *)
Definition iteration (tick : Tick) (trade_count : Z)
    (self : Strategy * list LiveTrade.t)
  : Z * (Strategy * list LiveTrade.t) :=
  match tick_fetch tick with
  | None => (trade_count, self)
  | Some (df_primary, df_secondary) =>
      if (length df_primary =? 0)%nat || (length df_secondary =? 0)%nat
      then (trade_count, self)
      else
        match calculate_indicators self.1 df_primary df_secondary with
        | Raise _ => (trade_count, self)
        | Ok frames =>
            match live_generate_signal frames.1 frames.2 self.1 with
            | (Raise _, strategy') => (trade_count, (strategy', self.2))
            | (Ok signal, strategy') =>
                if bool_decide (signal <> HOLD) then
                  match _execute_trade (tick_now_ms tick) (tick_post tick)
                          signal (Candle.open_time <$> df_primary) frames.1
                          (strategy', self.2) with
                  | Raise _ => (trade_count, (strategy', self.2))
                  | Ok (success, self') =>
                      if success && bool_decide (signal = BUY)
                      then (trade_count + 1, self')
                      else (trade_count, self')
                  end
                else (trade_count, (strategy', self.2))
            end
        end
  end.

(** The [while] loop of [start], one tick per iteration; running out of
    ticks stands for the interruption by the user, taken between two
    iterations (during the wait).  The first iteration
    does not wait; a wait that raises ends the loop, as does reaching
    [max_trades] (tested when it is given and not 0). *)
Fixpoint start_loop (max_trades : option Z) (ticks : list Tick)
    (first : bool) (trade_count : Z) (self : Strategy * list LiveTrade.t)
  : Z * (Strategy * list LiveTrade.t) :=
  match ticks with
  | [] => (trade_count, self)
  | tick :: rest =>
      match (if first then Slept 0
             else _wait_for_candle_close (tick_now tick)
                    (tick_monotonic tick))
      with
      | Slept _ =>
          if match max_trades with
             | Some m => negb (m =? 0) && (m <=? trade_count)
             | None => false
             end
          then (trade_count, self)
          else
            let (trade_count', self') := iteration tick trade_count self in
            start_loop max_trades rest false trade_count' self'
      | _ => (trade_count, self)
      end
  end.

(** [start]: the strategy is reset, the counter starts at 0; the ledger is
    the one the engine holds. *)
Definition start (max_trades : option Z) (ticks : list Tick)
    (self : Strategy * list LiveTrade.t)
  : Z * (Strategy * list LiveTrade.t) :=
  start_loop max_trades ticks true 0 ((reset self.1).2, self.2).

End LiveLoop.

(** The number of open BUY records of a live ledger. *)
Definition open_buys (trades : list LiveTrade.t) : nat :=
  length (filter (fun t => is_open_buy t = true) trades).

Definition buy_records (trades : list LiveTrade.t) : nat :=
  length (filter (fun t => LiveTrade.side t = "BUY"%string) trades).

Definition sell_records (trades : list LiveTrade.t) : nat :=
  length (filter (fun t => LiveTrade.side t = "SELL"%string) trades).

(** Every SELL record of the ledger closed a BUY: its PnL is recorded. *)
Definition sells_have_pnl (trades : list LiveTrade.t) : Prop :=
  Forall (fun t => LiveTrade.side t = "SELL"%string ->
                   is_Some (LiveTrade.pnl t) /\ is_Some (LiveTrade.exit_price t))
         trades.

(** The state a session of the live loop keeps consistent. *)
Definition live_inv (self : Strategy * list LiveTrade.t) : Prop :=
  open_buys self.2 = (if bool_decide (position self.1 = LONG) then 1 else 0)%nat
  /\ (buy_records self.2 = sell_records self.2 + open_buys self.2)%nat
  /\ sells_have_pnl self.2
  /\ Forall (fun t => LiveTrade.side t = "BUY"%string
                      \/ LiveTrade.side t = "SELL"%string) self.2.


(** A live session for the examples: a one-minute engine, an HTTP layer
    that fills every order, and two ticks that both fetch the example
    candles. *)
Definition ex_engine : LiveTradingEngine :=
  mkLiveTradingEngine ex_strategy "BTCUSDT" "1m" "3m" (Fin (1 # 1000)) 60 []
    false.

Definition ex_post (endpoint : string) (params : list (string * Param))
  : result Order :=
  Ok (mkOrder 7 "FILLED").

Definition ex_failing_post (endpoint : string) (params : list (string * Param))
  : result Order :=
  Raise ValueError.

Definition ex_tick : Tick :=
  mkTick 63929306697000000 18357000000000
    (Some (ex_primary_candles, ex_secondary_candles)) 0 ex_post.


(* ===================================================================== *)
(** ** scripts/match_trades.py *)
(* ===================================================================== *)

(** A BUY order of one day, with the two columns [match_day] reads.  Rows
    come out of [iterrows] on a frame of mixed column types, so the prices
    are Python floats: dividing by a zero price raises
    [ZeroDivisionError]. *)
Module DayOrder.
Record t : Type := mk {
  timestamp : Z;
  entry_price : fval
}.
End DayOrder.

Record MatchInfo : Type := mkMatchInfo {
  mi_date : Z;
  mi_live_time : Z;
  mi_backtest_time : Z;
  mi_time_diff_seconds : fval;
  mi_live_entry : fval;
  mi_backtest_entry : fval;
  mi_entry_diff_pct : fval
}.

(** Python float division; [None] stands for [ZeroDivisionError]. *)
Definition pydiv (x y : fval) : option fval :=
  match y with
  | Fin b => if Qzerob b then None else Some (fdiv x y)
  | _ => Some (fdiv x y)
  end.

Definition tolerance_minutes : Z := 15.

(** The body of the inner loop for one backtest order that is still free:
    [Some None] when it is out of tolerance, [Some (Some _)] with the time
    difference, the price difference and the score otherwise. *)
Definition day_score (live_order bt_order : DayOrder.t)
  : option (option (fval * fval * fval)) :=
  let time_diff_seconds :=
    Fin (Z.abs (DayOrder.timestamp live_order - DayOrder.timestamp bt_order)
         # 1000000000) in
  let time_diff_minutes := fdiv time_diff_seconds (Fin 60) in
  if fgt time_diff_minutes (of_Z tolerance_minutes) then Some None
  else
    match pydiv (fabs (fsub (DayOrder.entry_price live_order)
                            (DayOrder.entry_price bt_order)))
                (DayOrder.entry_price live_order) with
    | None => None
    | Some ratio =>
        let price_diff_pct := fmul ratio (Fin 100) in
        let score := fadd time_diff_seconds (fmul price_diff_pct (Fin 100)) in
        Some (Some (time_diff_seconds, price_diff_pct, score))
    end.

(** The inner loop: the best free backtest order so far and its score. *)
Fixpoint best_backtest (matched_backtest : gset Z) (live_order : DayOrder.t)
    (backtest_day : list (Z * DayOrder.t))
    (best_match : option (Z * DayOrder.t * fval * fval)) (best_score : fval)
  : option (option (Z * DayOrder.t * fval * fval)) :=
  match backtest_day with
  | [] => Some best_match
  | (bt_idx, bt_order) :: rest =>
      if bool_decide (bt_idx ∈ matched_backtest)
      then best_backtest matched_backtest live_order rest best_match best_score
      else
        match day_score live_order bt_order with
        | None => None
        | Some None =>
            best_backtest matched_backtest live_order rest best_match
              best_score
        | Some (Some (time_diff_seconds, price_diff_pct, score)) =>
            if flt score best_score
            then best_backtest matched_backtest live_order rest
                   (Some (bt_idx, bt_order, time_diff_seconds, price_diff_pct))
                   score
            else best_backtest matched_backtest live_order rest best_match
                   best_score
        end
  end.

(** The outer loop, on [matches], [unmatched_live] and
    [matched_backtest]. *)
Fixpoint match_day_loop (date : Z) (backtest_day : list (Z * DayOrder.t))
    (live_day : list (Z * DayOrder.t))
    (acc : list MatchInfo * list DayOrder.t * gset Z)
  : option (list MatchInfo * list DayOrder.t * gset Z) :=
  match live_day with
  | [] => Some acc
  | (_, live_order) :: rest =>
      let '(matches, unmatched_live, matched_backtest) := acc in
      match best_backtest matched_backtest live_order backtest_day None PInf
      with
      | None => None
      | Some (Some (idx, order, time_diff_seconds, entry_diff_pct)) =>
          match_day_loop date backtest_day rest
            (matches ++ [mkMatchInfo date (DayOrder.timestamp live_order)
                           (DayOrder.timestamp order) time_diff_seconds
                           (DayOrder.entry_price live_order)
                           (DayOrder.entry_price order) entry_diff_pct],
             unmatched_live, {[idx]} ∪ matched_backtest)
      | Some None =>
          match_day_loop date backtest_day rest
            (matches, unmatched_live ++ [live_order], matched_backtest)
      end
  end.

(** [match_day]; [None] when a division raised. *)
Definition match_day (live_day backtest_day : list (Z * DayOrder.t))
    (date : Z)
  : option (list MatchInfo * list DayOrder.t * list DayOrder.t) :=
  match match_day_loop date backtest_day live_day ([], [], ∅) with
  | None => None
  | Some (matches, unmatched_live, matched_backtest) =>
      Some (matches, unmatched_live,
            snd <$> filter (fun row => row.1 ∉ matched_backtest) backtest_day)
  end.

Definition ex_live_day : list (Z * DayOrder.t) :=
  [(0, DayOrder.mk 60000000000 (Fin 100));
   (1, DayOrder.mk 7200000000000 (Fin 101))].

Definition ex_backtest_day : list (Z * DayOrder.t) :=
  [(0, DayOrder.mk 0 (Fin 100)); (1, DayOrder.mk 120000000000 (Fin 100))].


(** Fifteen minutes, in the nanoseconds of the timestamps. *)
Definition tolerance_ns : Z := 900 * 1000000000.

Definition within_tolerance (live_time backtest_time : Z) : Prop :=
  Z.abs (live_time - backtest_time) <= tolerance_ns.

(** What the inner loop may select: a free backtest order within
    tolerance. *)
Definition day_candidate (matched_backtest : gset Z) (live_order : DayOrder.t)
    (backtest_day : list (Z * DayOrder.t))
    (b : Z * DayOrder.t * fval * fval) : Prop :=
  ((b.1.1.1, b.1.1.2) ∈ backtest_day)
  /\ (b.1.1.1 ∉ matched_backtest)
  /\ within_tolerance (DayOrder.timestamp live_order)
       (DayOrder.timestamp b.1.1.2).

(** A Python float equal to zero. *)
Definition pyzero (x : fval) : bool :=
  match x with Fin a => Qzerob a | _ => false end.

(* ===================================================================== *)
(** ** The indicators in binary64 *)
(* ===================================================================== *)

(** The definitions above compute in exact rationals, which is what the
    properties that do not depend on rounding need.  [calculate_indicators]
    really computes in IEEE binary64, and pandas' rolling mean does not
    average each window afresh: its kernel ([roll_mean] with [add_mean],
    [remove_mean] and [calc_mean], called by [rolling(window).mean()])
    carries one compensated running sum along the series, adding the value
    that enters the window and subtracting the one that leaves it.  This
    module follows that computation step by step, on the floats of the
    Standard Library's [SpecFloat] at precision 53 with round to nearest
    even. *)
Module Binary64.

Definition float : Type := SpecFloat.spec_float.

Definition prec : Z := 53.
Definition emax : Z := 1024.

Definition nan : float := SpecFloat.S754_nan.
Definition zero : float := SpecFloat.S754_zero false.

Definition add : float -> float -> float := SpecFloat.SFadd prec emax.
Definition sub : float -> float -> float := SpecFloat.SFsub prec emax.
Definition div : float -> float -> float := SpecFloat.SFdiv prec emax.
Definition neg : float -> float := SpecFloat.SFopp.

(** [x == y] and [x < y]; false as soon as one side is NaN. *)
Definition eqb : float -> float -> bool := SpecFloat.SFeqb.
Definition ltb : float -> float -> bool := SpecFloat.SFltb.

(** The float nearest to an integer. *)
Definition of_Z (z : Z) : float :=
  SpecFloat.binary_normalize prec emax z 0 false.


Definition isinf (x : float) : bool :=
  match x with SpecFloat.S754_infinity _ => true | _ => false end.

(** [signbit]; it is only asked of numbers. *)
Definition signbit (x : float) : bool :=
  match x with
  | SpecFloat.S754_zero s | SpecFloat.S754_infinity s
  | SpecFloat.S754_finite s _ _ => s
  | SpecFloat.S754_nan => false
  end.

(** The running state of [roll_mean]. *)
Record MeanState : Type := mkMeanState {
  nobs : Z;
  neg_ct : Z;
  sum_x : float;
  compensation_add : float;
  compensation_remove : float;
  num_consecutive_same_value : Z;
  prev_value : float
}.

(** [add_mean]: Kahan summation of a value that enters the window. *)
Definition add_mean (val : float) (st : MeanState) : MeanState :=
  if eqb val val then
    let y := sub val (compensation_add st) in
    let t := add (sum_x st) y in
    mkMeanState (nobs st + 1)
      (if signbit val then neg_ct st + 1 else neg_ct st)
      t
      (sub (sub t (sum_x st)) y)
      (compensation_remove st)
      (if eqb val (prev_value st)
       then num_consecutive_same_value st + 1 else 1)
      val
  else st.

(** [remove_mean]: Kahan summation of the opposite of a value that leaves
    the window. *)
Definition remove_mean (val : float) (st : MeanState) : MeanState :=
  if eqb val val then
    let y := sub (neg val) (compensation_remove st) in
    let t := add (sum_x st) y in
    mkMeanState (nobs st - 1)
      (if signbit val then neg_ct st - 1 else neg_ct st)
      t
      (compensation_add st)
      (sub (sub t (sum_x st)) y)
      (num_consecutive_same_value st)
      (prev_value st)
  else st.

(** [calc_mean]: NaN below [minp] observations; otherwise the running sum
    over the count, replaced by the last value when the whole window
    repeats it, and by 0 when its sign contradicts the signs of the
    window. *)
Definition calc_mean (minp : Z) (st : MeanState) : float :=
  if (minp <=? nobs st) && (0 <? nobs st) then
    let result := div (sum_x st) (of_Z (nobs st)) in
    if nobs st <=? num_consecutive_same_value st then prev_value st
    else if (neg_ct st =? 0) && ltb result zero then zero
    else if (neg_ct st =? nobs st) && ltb zero result then zero
    else result
  else nan.

(** The bounds of the fixed window at position [i] of [n] values: [w]
    values ending at [i]; both bounds of a window of 0 are [i]. *)
Definition window_end (w : Z) (n i : nat) : nat :=
  if w =? 0 then Nat.min i n else Nat.min (S i) n.

Definition window_start (w : Z) (n i : nat) : nat :=
  if w =? 0 then Nat.min i n else Nat.min (S i - Z.to_nat w) n.

Definition at_ (values : list float) (j : nat) : float :=
  nth j values nan.

(** The set-up branch of [roll_mean]: a fresh state, filled with the
    values of the window. *)
Definition setup (values : list float) (s e : nat) : MeanState :=
  fold_left (fun st j => add_mean (at_ values j) st) (seq s (e - s))
    (mkMeanState 0 0 zero zero zero 0 (at_ values s)).

(** The other branch: the values between the old start and the new one
    leave, the values between the old end and the new one enter. *)
Definition slide (values : list float) (s0 e0 s e : nat) (st : MeanState)
  : MeanState :=
  fold_left (fun st j => add_mean (at_ values j) st) (seq e0 (e - e0))
    (fold_left (fun st j => remove_mean (at_ values j) st)
       (seq s0 (s - s0)) st).

(** One turn of the loop of [roll_mean], at position [i]. *)
Definition roll_mean_step (values : list float) (w minp : Z)
    (acc : MeanState * list float) (i : nat) : MeanState * list float :=
  let n := length values in
  let s := window_start w n i in
  let e := window_end w n i in
  let st :=
    if (i =? 0)%nat || (window_end w n (i - 1) <=? s)%nat
    then setup values s e
    else slide values (window_start w n (i - 1)) (window_end w n (i - 1))
           s e acc.1 in
  (st, acc.2 ++ [calc_mean minp st]).

(** [roll_mean] on the bounds of a fixed window. *)
Definition roll_mean (values : list float) (w minp : Z) : list float :=
  (fold_left (roll_mean_step values w minp) (seq 0 (length values))
     (mkMeanState 0 0 zero zero zero 0 nan, [])).2.

(** [s.rolling(window=w).mean()]: a negative window is a [ValueError];
    infinities are turned into NaN before the kernel runs; [min_periods]
    defaults to the window. *)
Definition rolling_mean (w : Z) (xs : list float) : result (list float) :=
  if w <? 0 then Raise ValueError
  else Ok (roll_mean ((fun x => if isinf x then nan else x) <$> xs) w w).

(** [s.diff()] *)
Definition diff (xs : list float) : list float :=
  match xs with
  | [] => []
  | _ :: tl => nan :: zip_with sub tl xs
  end.

(** [delta.where(delta > 0, 0)] and [-delta.where(delta < 0, 0)] *)
Definition gains (delta : list float) : list float :=
  (fun d => if ltb zero d then d else zero) <$> delta.

Definition losses (delta : list float) : list float :=
  (fun d => neg (if ltb d zero then d else zero)) <$> delta.

(** [100 - (100 / (1 + rs))] with [rs = gain / loss] *)
Definition rsi_of (gain loss : float) : float :=
  sub (of_Z 100) (div (of_Z 100) (add (of_Z 1) (div gain loss))).

Module Primary.
Record row : Type := mk {
  close : float;
  sma_fast : float;
  sma_slow : float;
  rsi : float
}.
End Primary.

Module Secondary.
Record row : Type := mk {
  close : float;
  sma_trend : float
}.
End Secondary.

(** The two rolling averages behind the RSI. *)
Definition average_gain (rsi_period : Z) (close : list float)
  : result (list float) :=
  rolling_mean rsi_period (gains (diff close)).

Definition average_loss (rsi_period : Z) (close : list float)
  : result (list float) :=
  rolling_mean rsi_period (losses (diff close)).

(** [calculate_indicators]; the frames enter through their close columns,
    the only ones it reads. *)
Definition calculate_indicators (self : Strategy)
    (close close2 : list float)
  : result (list Primary.row * list Secondary.row) :=
  rbind (rolling_mean (fast_sma self) close) (fun sma_fast =>
  rbind (rolling_mean (slow_sma self) close) (fun sma_slow =>
  rbind (average_gain (rsi_period self) close) (fun gain =>
  rbind (average_loss (rsi_period self) close) (fun loss =>
  let rsi := zip_with rsi_of gain loss in
  rbind (rolling_mean (trend_sma self) close2) (fun sma_trend =>
  Ok (zip_with (fun cf sr => Primary.mk cf.1 cf.2 sr.1 sr.2)
               (zip close sma_fast) (zip sma_slow rsi),
      zip_with Secondary.mk close2 sma_trend)))))).

End Binary64.


(** A rising series, and a series on which the running sums of the rolling
    mean lose the last gains: 10, 300, 3e16, 1, 1.000001, 2.000001. *)
Definition ex_rising_close : list Binary64.float :=
  Binary64.of_Z <$> [1; 2; 3; 4].



(** The frames of the rising series under periods 2, 3, 2 and 2. *)
Definition ex_rising_frames
  : list Binary64.Primary.row * list Binary64.Secondary.row :=
  Eval vm_compute in
    match Binary64.calculate_indicators
            (Strategy_init 2 3 2 2 (Fin 70) (Fin 30))
            ex_rising_close ex_rising_close with
    | Ok frames => frames
    | Raise _ => ([], [])
    end.


(* ===================================================================== *)
(** * Properties *)
(* ===================================================================== *)

(** ** Basic facts about [iloc] and the monad *)

Lemma Ok_inj {A} (a b : A) : Ok a = Ok b -> a = b.
Proof. congruence. Qed.

Lemma iloc_in_range {A} (df : list A) (idx : Z) :
  0 <= idx < Z.of_nat (length df) ->
  iloc df idx = match df !! Z.to_nat idx with
               | Some row => Ok row
               | None => Raise IndexError
               end.
Proof.
  intros [Hlo Hhi]. unfold iloc.
  destruct (idx <? 0) eqn:E; [apply Z.ltb_lt in E; lia|].
  destruct (idx <? 0) eqn:E1; [apply Z.ltb_lt in E1; lia|].
  destruct (Z.of_nat (length df) <=? idx) eqn:E2; [apply Z.leb_le in E2; lia|].
  reflexivity.
Qed.

Lemma iloc_lookup {A} (df : list A) (idx : Z) (row : A) :
  0 <= idx -> df !! Z.to_nat idx = Some row -> iloc df idx = Ok row.
Proof.
  intros Hlo Hrow.
  assert (Hlen : (Z.to_nat idx < length df)%nat)
    by (eapply lookup_lt_Some; eassumption).
  rewrite iloc_in_range by lia. now rewrite Hrow.
Qed.

Lemma read_only_ret {A} (a : A) : read_only (ret a).
Proof. intros self. reflexivity. Qed.

Lemma read_only_lift {A} (r : result A) : read_only (lift r).
Proof. intros self. reflexivity. Qed.

Lemma read_only_get : read_only get.
Proof. intros self. reflexivity. Qed.

Lemma read_only_bind {A B} (m : M A) (k : A -> M B) :
  read_only m -> (forall a, read_only (k a)) -> read_only (bind m k).
Proof.
  intros Hm Hk self. unfold bind.
  specialize (Hm self). destruct (m self) as [[a|e] self'] eqn:E; simpl in Hm.
  - subst self'. apply Hk.
  - exact Hm.
Qed.

Lemma read_only_if {A} (b : bool) (m1 m2 : M A) :
  read_only m1 -> read_only m2 -> read_only (if b then m1 else m2).
Proof. destruct b; auto. Qed.

Ltac frame :=
  repeat lazymatch goal with
    | |- read_only (ret _) => apply read_only_ret
    | |- read_only (lift _) => apply read_only_lift
    | |- read_only get => apply read_only_get
    | |- read_only (if ?b then _ else _) =>
        first [apply read_only_if | destruct b]
    | |- read_only (bind _ _) => apply read_only_bind; [| intros ?]
    end.

Lemma get_trend_direction_read_only df_secondary index :
  read_only (get_trend_direction df_secondary index).
Proof. unfold get_trend_direction. frame. Qed.

Lemma check_sma_crossover_read_only df_primary current_idx :
  read_only (check_sma_crossover df_primary current_idx).
Proof. unfold check_sma_crossover. frame. Qed.

Lemma generate_signal_read_only df_primary df_secondary primary_idx
      secondary_idx :
  read_only (generate_signal df_primary df_secondary primary_idx secondary_idx).
Proof.
  unfold generate_signal. frame;
    auto using check_sma_crossover_read_only, get_trend_direction_read_only.
Qed.

(** [get_trend_direction] never raises. *)
Lemma get_trend_direction_total df_secondary index self :
  exists t, get_trend_direction df_secondary index self = (Ok t, self).
Proof.
  unfold get_trend_direction.
  destruct ((index <? 0) || (Z.of_nat (length df_secondary) <=? index)) eqn:G.
  - eexists; reflexivity.
  - apply orb_false_iff in G as [G1 G2].
    apply Z.ltb_ge in G1. apply Z.leb_gt in G2.
    destruct (lookup_lt_is_Some_2 df_secondary (Z.to_nat index)) as [r Hr];
      [lia|].
    unfold bind, lift. rewrite (iloc_lookup _ _ r) by assumption.
    destruct (isna _); [eexists; reflexivity|].
    destruct (fgt _ _); [eexists; reflexivity|].
    destruct (flt _ _); eexists; reflexivity.
Qed.

(** [check_sma_crossover] returns at every index that has a row. *)
Lemma check_sma_crossover_total df_primary current_idx self :
  0 <= current_idx < Z.of_nat (length df_primary) ->
  exists c, check_sma_crossover df_primary current_idx self = (Ok c, self).
Proof.
  intros [Hlo Hhi]. unfold check_sma_crossover.
  destruct (current_idx <? 1) eqn:G; [eexists; reflexivity|].
  apply Z.ltb_ge in G.
  destruct (lookup_lt_is_Some_2 df_primary (Z.to_nat current_idx))
    as [cur Hcur]; [lia|].
  destruct (lookup_lt_is_Some_2 df_primary (Z.to_nat (current_idx - 1)))
    as [prev Hprev]; [lia|].
  unfold bind, lift.
  rewrite (iloc_lookup _ _ cur) by (assumption || lia).
  rewrite (iloc_lookup _ _ prev) by (assumption || lia).
  destruct (isna _ || isna _); [eexists; reflexivity|].
  destruct (fle _ _ && fgt _ _); [eexists; reflexivity|].
  destruct (fge _ _ && flt _ _); eexists; reflexivity.
Qed.

(** ** C6: the warm-up guard *)

(** C6.  Whatever the two frames, the position and the rest of the object,
    as soon as the primary index is below [slow_sma] or the secondary index
    is below [trend_sma], [generate_signal] returns HOLD: it does not raise,
    and it leaves the object untouched. *)
Theorem generate_signal_warmup_hold
    (self : Strategy) (df_primary : list Primary.row)
    (df_secondary : list Secondary.row) (primary_idx secondary_idx : Z) :
  primary_idx < slow_sma self \/ secondary_idx < trend_sma self ->
  generate_signal df_primary df_secondary primary_idx secondary_idx self
  = (Ok HOLD, self).
Proof.
  intros Hwarm. unfold generate_signal, bind, get.
  assert (G : (primary_idx <? slow_sma self)
              || (secondary_idx <? trend_sma self) = true).
  { apply orb_true_iff. destruct Hwarm as [H|H]; [left|right];
      now apply Z.ltb_lt. }
  now rewrite G.
Qed.

Lemma generate_signal_warmup_hold_witness :
  generate_signal [] [] 3 7 (Strategy_init 5 10 50 14 (Fin 70) (Fin 30))
  = (Ok HOLD, Strategy_init 5 10 50 14 (Fin 70) (Fin 30)).
Proof.
  apply (generate_signal_warmup_hold
           (Strategy_init 5 10 50 14 (Fin 70) (Fin 30)) [] [] 3 7).
  left. simpl. lia.
Defined.

(** ** C9: signal generation has no effect on the object *)

(** C9.  [generate_signal] hands the strategy object back exactly as it
    received it (so [position] and [entry_price] are unchanged), on every
    input and whether it returns or raises.  The transitions are made by
    [update_position]: BUY stores LONG and the price, SELL stores FLAT and
    clears the price, HOLD changes nothing; no parameter is touched. *)
Theorem generate_signal_frame
    (self : Strategy) (df_primary : list Primary.row)
    (df_secondary : list Secondary.row) (primary_idx secondary_idx : Z)
    (price : fval) :
  (generate_signal df_primary df_secondary primary_idx secondary_idx self).2
  = self
  /\ update_position BUY price self
     = (Ok tt, mkStrategy (fast_sma self) (slow_sma self) (trend_sma self)
                 (rsi_period self) (rsi_overbought self) (rsi_oversold self)
                 LONG (Some price))
  /\ update_position SELL price self
     = (Ok tt, mkStrategy (fast_sma self) (slow_sma self) (trend_sma self)
                 (rsi_period self) (rsi_overbought self) (rsi_oversold self)
                 FLAT None)
  /\ update_position HOLD price self = (Ok tt, self).
Proof.
  split; [apply generate_signal_read_only|].
  repeat split.
Qed.

(** ** C1: the signal rules past the warm-up guard *)

(** Past the guard and on a row that exists, [generate_signal] is the
    decision table applied to its three ingredients. *)
Lemma generate_signal_past_guard self df_primary df_secondary primary_idx
      secondary_idx row crossover trend :
  slow_sma self <= primary_idx ->
  trend_sma self <= secondary_idx ->
  0 <= primary_idx ->
  df_primary !! Z.to_nat primary_idx = Some row ->
  check_sma_crossover df_primary primary_idx self = (Ok crossover, self) ->
  get_trend_direction df_secondary secondary_idx self = (Ok trend, self) ->
  generate_signal df_primary df_secondary primary_idx secondary_idx self
  = (Ok match position self with
        | FLAT =>
            if bool_decide (crossover = Some BULLISH)
               || (bool_decide (trend = Some UP)
                   && flt (Primary.rsi row) (rsi_overbought self))
            then BUY else HOLD
        | LONG =>
            if bool_decide (crossover = Some BEARISH)
               || fgt (Primary.rsi row) (rsi_overbought self)
            then SELL else HOLD
        end, self).
Proof.
  intros Hslow Htrend Hlo Hrow Hc Ht.
  unfold generate_signal, bind, get, lift.
  destruct (primary_idx <? slow_sma self) eqn:G1;
    [apply Z.ltb_lt in G1; lia|].
  destruct (secondary_idx <? trend_sma self) eqn:G2;
    [apply Z.ltb_lt in G2; lia|].
  simpl. rewrite (iloc_lookup _ _ row) by assumption.
  rewrite Hc, Ht.
  destruct (position self).
  - destruct (bool_decide _ || _); reflexivity.
  - destruct (bool_decide _ || _); reflexivity.
Qed.

(** C1.  For annotated frames, a primary index that has a row, both indices
    past the warm-up guard, and any position: the result is BUY exactly when
    the position is FLAT and (the crossover is BULLISH, or the trend is UP
    and rsi < rsi_overbought); SELL exactly when the position is LONG and
    (the crossover is BEARISH or rsi > rsi_overbought); HOLD exactly when
    neither holds.  The crossover and the trend are what
    [check_sma_crossover] and [get_trend_direction] return at these
    indices; the secondary index may even lie outside its frame. *)
Theorem generate_signal_rules
    (self : Strategy) (df_primary : list Primary.row)
    (df_secondary : list Secondary.row) (primary_idx secondary_idx : Z)
    (row : Primary.row) :
  slow_sma self <= primary_idx ->
  trend_sma self <= secondary_idx ->
  0 <= primary_idx ->
  df_primary !! Z.to_nat primary_idx = Some row ->
  let signal :=
    (generate_signal df_primary df_secondary primary_idx secondary_idx self).1 in
  let crossover := (check_sma_crossover df_primary primary_idx self).1 in
  let trend := (get_trend_direction df_secondary secondary_idx self).1 in
  let rsi := Primary.rsi row in
  let buy := position self = FLAT
             /\ (crossover = Ok (Some BULLISH)
                 \/ (trend = Ok (Some UP)
                     /\ flt rsi (rsi_overbought self) = true)) in
  let sell := position self = LONG
              /\ (crossover = Ok (Some BEARISH)
                  \/ fgt rsi (rsi_overbought self) = true) in
  (signal = Ok BUY <-> buy)
  /\ (signal = Ok SELL <-> sell)
  /\ (signal = Ok HOLD <-> ~ buy /\ ~ sell).
Proof.
  intros Hslow Htrend Hlo Hrow.
  assert (Hlen : (Z.to_nat primary_idx < length df_primary)%nat)
    by (eapply lookup_lt_Some; eassumption).
  destruct (check_sma_crossover_total df_primary primary_idx self)
    as [c Hc]; [lia|].
  destruct (get_trend_direction_total df_secondary secondary_idx self)
    as [t Ht].
  cbv zeta.
  rewrite (generate_signal_past_guard _ _ _ _ _ row c t) by assumption.
  rewrite Hc, Ht. simpl.
  destruct (position self);
    destruct c as [[|]|]; destruct t as [[|]|];
    destruct (flt (Primary.rsi row) (rsi_overbought self));
    destruct (fgt (Primary.rsi row) (rsi_overbought self));
    simpl; intuition congruence.
Qed.

(** ** C7: a bullish crossover is reported once, at the later bar *)

Lemma Qltb_not_Qleb (a b : Q) : Qltb b a = true -> Qleb a b = false.
Proof.
  unfold Qltb, Qleb. rewrite <- (Qcompare_antisym a b).
  destruct (a ?= b)%Q; simpl; congruence.
Qed.

Lemma flt_not_fle (x y : fval) : flt y x = true -> fle x y = false.
Proof.
  destruct x, y; simpl; try congruence. apply Qltb_not_Qleb.
Qed.

Lemma flt_not_nan (x y : fval) :
  flt x y = true -> isna x = false /\ isna y = false.
Proof. destruct x, y; simpl; auto; congruence. Qed.

(** C7.  Let bars [i-1], [i] and [i+1] exist in an annotated primary frame
    ([i >= 1]).  If the fast average is at or below the slow one at bar
    [i-1] and strictly above it at bar [i], then [check_sma_crossover]
    returns BULLISH at [i], and at [i+1] it returns normally with an answer
    other than BULLISH. *)
Theorem bullish_crossover_once
    (self : Strategy) (df_primary : list Primary.row) (i : Z)
    (prev cur : Primary.row) :
  1 <= i ->
  i + 1 < Z.of_nat (length df_primary) ->
  df_primary !! Z.to_nat (i - 1) = Some prev ->
  df_primary !! Z.to_nat i = Some cur ->
  fle (Primary.sma_fast prev) (Primary.sma_slow prev) = true ->
  fgt (Primary.sma_fast cur) (Primary.sma_slow cur) = true ->
  (check_sma_crossover df_primary i self).1 = Ok (Some BULLISH)
  /\ exists c, (check_sma_crossover df_primary (i + 1) self).1 = Ok c
               /\ c <> Some BULLISH.
Proof.
  intros Hi Hlen Hprev Hcur Hle Hgt.
  split.
  - unfold check_sma_crossover, bind, lift.
    destruct (i <? 1) eqn:G; [apply Z.ltb_lt in G; lia|].
    rewrite (iloc_lookup _ _ cur) by (assumption || lia).
    rewrite (iloc_lookup _ _ prev) by (assumption || lia).
    destruct (flt_not_nan _ _ Hgt) as [Hs Hf].
    rewrite Hf, Hs, Hle, Hgt. reflexivity.
  - destruct (lookup_lt_is_Some_2 df_primary (Z.to_nat (i + 1)))
      as [next Hnext]; [lia|].
    unfold check_sma_crossover, bind, lift.
    destruct (i + 1 <? 1) eqn:G; [apply Z.ltb_lt in G; lia|].
    rewrite (iloc_lookup _ _ next) by (assumption || lia).
    replace (i + 1 - 1) with i by lia.
    rewrite (iloc_lookup _ _ cur) by (assumption || lia).
    rewrite (flt_not_fle _ _ Hgt).
    destruct (isna _ || isna _); [exists None; split; [reflexivity|congruence]|].
    simpl.
    destruct (fge _ _ && flt _ _); eexists; (split; [reflexivity|congruence]).
Qed.

(** ** C5: the position discipline of a session *)

(** What an evaluation can answer in each position. *)
Lemma generate_signal_in_turn self df_primary df_secondary primary_idx
      secondary_idx signal self' :
  generate_signal df_primary df_secondary primary_idx secondary_idx self
  = (Ok signal, self') ->
  self' = self
  /\ (signal = BUY -> position self = FLAT)
  /\ (signal = SELL -> position self = LONG).
Proof.
  intros H.
  assert (Hself : self' = self).
  { pose proof (generate_signal_read_only df_primary df_secondary primary_idx
                  secondary_idx self) as Hf.
    rewrite H in Hf. exact Hf. }
  split; [exact Hself|]. subst self'.
  revert H. unfold generate_signal, bind, get, lift.
  destruct ((primary_idx <? slow_sma self)
            || (secondary_idx <? trend_sma self));
    [intros [= <-]; split; congruence|].
  destruct (iloc df_primary primary_idx) as [row|e]; [|congruence].
  destruct (check_sma_crossover df_primary primary_idx self)
    as [[c|e] s1]; [|congruence].
  destruct (get_trend_direction df_secondary secondary_idx s1)
    as [[t|e] s2]; [|congruence].
  destruct (position s2) eqn:Hp2.
  - destruct (bool_decide _ || _); intros [= <- <-]; split; congruence.
  - destruct (bool_decide _ || _); intros [= <- <-]; split; congruence.
Qed.

Lemma run_session_discipline steps : forall self,
  no_sell_while_flat (run_session steps self) = true
  /\ no_double_buy (bool_decide (position self = LONG))
                   (snd <$> run_session steps self) = true.
Proof.
  induction steps as [|st rest IH]; intros self; [split; reflexivity|].
  simpl.
  destruct (generate_signal _ _ _ _ self) as [[signal|e] self1] eqn:E.
  - apply generate_signal_in_turn in E as (-> & Hbuy & Hsell).
    destruct signal.
    + specialize (Hbuy eq_refl).
      destruct (IH (update_position BUY (step_price st) self).2) as [IH1 IH2].
      simpl in *. rewrite Hbuy. simpl. auto.
    + specialize (Hsell eq_refl).
      destruct (IH (update_position SELL (step_price st) self).2) as [IH1 IH2].
      simpl in *. rewrite Hsell. simpl. auto.
    + destruct (IH self) as [IH1 IH2]. simpl.
      destruct (position self); auto.
  - pose proof (generate_signal_read_only (step_primary st)
                  (step_secondary st) (step_primary_idx st)
                  (step_secondary_idx st) self) as Hf.
    rewrite E in Hf. simpl in Hf. subst self1. apply IH.
Qed.

(** C5.  Start from a FLAT object and alternate evaluation and position
    update over any sequence of frames, indices and prices.  No SELL is
    emitted while the position is FLAT, and the emitted signals never hold
    two BUYs without a SELL in between. *)
Theorem session_position_discipline (steps : list Step) (self : Strategy) :
  position self = FLAT ->
  no_sell_while_flat (run_session steps self) = true
  /\ no_double_buy false (snd <$> run_session steps self) = true.
Proof.
  intros Hflat.
  destruct (run_session_discipline steps self) as [H1 H2].
  rewrite Hflat in H2. auto.
Qed.

Lemma session_position_discipline_witness :
  position ex_strategy = FLAT
  /\ run_session ex_steps ex_strategy
     = [(FLAT, HOLD); (FLAT, BUY); (LONG, HOLD); (LONG, SELL); (FLAT, HOLD);
        (FLAT, HOLD); (FLAT, BUY); (LONG, HOLD)]
  /\ no_sell_while_flat (run_session ex_steps ex_strategy) = true
  /\ no_double_buy false (snd <$> run_session ex_steps ex_strategy) = true.
Proof.
  split; [reflexivity|]. split; [vm_compute; reflexivity|].
  apply (session_position_discipline ex_steps ex_strategy). reflexivity.
Defined.

Lemma generate_signal_rules_witness :
  (generate_signal ex_primary ex_secondary 8 3 ex_strategy).1 = Ok BUY
  /\ (generate_signal ex_primary ex_secondary 5 3
        (update_position BUY (Fin 8) ex_strategy).2).1 = Ok SELL.
Proof.
  split.
  - apply (generate_signal_rules ex_strategy ex_primary ex_secondary 8 3
             (ex_row 8)); [simpl; lia | simpl; lia | lia | reflexivity |].
    split; [reflexivity|]. right. split; vm_compute; reflexivity.
  - apply (generate_signal_rules (update_position BUY (Fin 8) ex_strategy).2
             ex_primary ex_secondary 5 3 (ex_row 5));
      [simpl; lia | simpl; lia | lia | reflexivity |].
    split; [reflexivity|]. right. vm_compute; reflexivity.
Defined.

Lemma bullish_crossover_once_witness :
  (check_sma_crossover ex_primary 5 ex_strategy).1 = Ok (Some BULLISH)
  /\ exists c, (check_sma_crossover ex_primary (5 + 1) ex_strategy).1 = Ok c
               /\ c <> Some BULLISH.
Proof.
  apply (bullish_crossover_once ex_strategy ex_primary 5 (ex_row 4) (ex_row 5));
    [lia | simpl; lia | reflexivity | reflexivity
    | vm_compute; reflexivity | vm_compute; reflexivity].
Defined.

(** ** C10: the matcher conserves counts and pairs each live row once *)

Section MatcherInvariant.
Variable self : TradeValidator.
Variable df_lv : Ledger.

(** A live row found by the inner loop is an unused row of the live ledger
    with the side of the backtest row, inside the window. *)
Lemma find_live_Some used_live bt rows lv_idx lv :
  find_live self used_live bt rows = Some (lv_idx, lv) ->
  (lv_idx ∉ used_live)
  /\ ((lv_idx, lv) ∈ rows)
  /\ Trade.side bt = Trade.side lv
  /\ Z.abs (Trade.timestamp lv - Trade.timestamp bt) <= candle_window self.
Proof.
  induction rows as [|[l r] rest IH]; simpl; [congruence|].
  case_bool_decide as Hused.
  { intros H. destruct (IH H) as (? & ? & ? & ?).
    repeat split; auto. now apply list_elem_of_further. }
  case_bool_decide as Hside.
  { intros H. destruct (IH H) as (? & ? & ? & ?).
    repeat split; auto. now apply list_elem_of_further. }
  destruct (candle_window self <? _) eqn:Hw.
  { intros H. destruct (IH H) as (? & ? & ? & ?).
    repeat split; auto. now apply list_elem_of_further. }
  intros [= <- <-]. apply Z.ltb_ge in Hw.
  repeat split; auto. apply list_elem_of_here.
Qed.

Lemma matched_live_app ds1 ds2 :
  matched_live (ds1 ++ ds2) = matched_live ds1 ++ matched_live ds2.
Proof. unfold matched_live. apply omap_app. Qed.

Lemma compare_step_inv seen acc bt :
  matcher_inv df_lv seen acc ->
  matcher_inv df_lv (seen + 1) (compare_step self df_lv acc bt).
Proof.
  destruct acc as [results used_live].
  intros (Hpos & Hsum & Hsize & Hnd & Hin & Hsub).
  unfold compare_step.
  destruct (find_live self used_live bt df_lv) as [[lv_idx lv]|] eqn:E.
  - apply find_live_Some in E as (Hfresh & Hmem & _ & _).
    simpl. repeat split.
    + lia.
    + lia.
    + rewrite size_union by (apply disjoint_singleton_l; exact Hfresh).
      rewrite size_singleton. lia.
    + rewrite matched_live_app. simpl. apply NoDup_app.
      repeat split; [assumption| |apply NoDup_singleton].
      intros l Hl Hl'. apply list_elem_of_singleton in Hl'. subst l.
      apply Hfresh. apply Hin. exact Hl.
    + rewrite matched_live_app. simpl. intros Hl.
      apply elem_of_app in Hl as [Hl|Hl].
      * apply elem_of_union_r. apply Hin. exact Hl.
      * apply list_elem_of_singleton in Hl. subst l.
        apply elem_of_union_l. now apply elem_of_singleton.
    + rewrite matched_live_app. simpl. intros Hl.
      apply elem_of_app. apply elem_of_union in Hl as [Hl|Hl].
      * right. apply elem_of_singleton in Hl. subst l. apply list_elem_of_here.
      * left. apply Hin. exact Hl.
    + intros l Hl. apply elem_of_union in Hl as [Hl|Hl]; [|auto].
      apply elem_of_singleton in Hl. subst l.
      apply list_elem_of_fmap. exists (lv_idx, lv). auto.
  - simpl. repeat split; try assumption.
    + lia.
    + rewrite matched_live_app. simpl. now rewrite app_nil_r.
    + rewrite matched_live_app. simpl. rewrite app_nil_r. apply Hin.
    + rewrite matched_live_app. simpl. rewrite app_nil_r. apply Hin.
Qed.

Lemma compare_fold_inv bts : forall seen acc,
  matcher_inv df_lv seen acc ->
  matcher_inv df_lv (seen + Z.of_nat (length bts))
              (fold_left (compare_step self df_lv) bts acc).
Proof.
  induction bts as [|bt rest IH]; intros seen acc Hinv; simpl fold_left.
  - simpl. now rewrite Z.add_0_r.
  - replace (seen + Z.of_nat (length (bt :: rest)))
      with (seen + 1 + Z.of_nat (length rest)) by (simpl length; lia).
    apply IH. now apply compare_step_inv.
Qed.

Lemma compare_fold_frame bts : forall acc,
  backtest_trades (fold_left (compare_step self df_lv) bts acc).1
  = backtest_trades acc.1
  /\ live_trades (fold_left (compare_step self df_lv) bts acc).1
     = live_trades acc.1.
Proof.
  induction bts as [|bt rest IH]; intros acc; simpl; [auto|].
  destruct (IH (compare_step self df_lv acc bt)) as [-> ->].
  destruct acc as [results used_live]. unfold compare_step.
  destruct (find_live _ _ _ _) as [[? ?]|]; auto.
Qed.

End MatcherInvariant.

(** C10.  For any two ledgers, [compare_trades] reports the two lengths,
    and its counters conserve them: matched + unmatched_backtest is the
    number of backtest rows, matched + unmatched_live is the number of live
    rows.  The live labels of the recorded pairings are pairwise distinct,
    are labels of the live ledger, and there are as many as matched
    trades: no live row is paired twice. *)
Theorem compare_trades_conserves
    (self : TradeValidator) (df_bt df_lv : Ledger) :
  let results := compare_trades self df_bt df_lv in
  backtest_trades results = Z.of_nat (length df_bt)
  /\ live_trades results = Z.of_nat (length df_lv)
  /\ matched_trades results + unmatched_backtest results
     = Z.of_nat (length df_bt)
  /\ matched_trades results + unmatched_live results
     = Z.of_nat (length df_lv)
  /\ NoDup (matched_live (details results))
  /\ Z.of_nat (length (matched_live (details results)))
     = matched_trades results
  /\ (forall l, l ∈ matched_live (details results) -> l ∈ (fst <$> df_lv)).
Proof.
  cbv zeta. unfold compare_trades, compare_loop.
  set (init := (mkResults _ _ 0 0 0 [], ∅)).
  pose proof (compare_fold_frame self df_lv (snd <$> df_bt) init) as [Hb Hl].
  assert (Hinit : matcher_inv df_lv 0 init).
  { subst init. simpl. repeat split; try lia.
    - apply NoDup_nil_2.
    - intros H. inversion H.
    - intros H. set_solver.
    - intros l H. set_solver. }
  pose proof (compare_fold_inv self df_lv (snd <$> df_bt) 0 init Hinit) as Hinv.
  rewrite length_fmap, Z.add_0_l in Hinv.
  destruct (fold_left _ _ init) as [results used_live].
  destruct Hinv as (Hpos & Hsum & Hsize & Hnd & Hin & Hsub).
  simpl in *. repeat split; try assumption.
  - lia.
  - rewrite <- Hsize. f_equal. unfold size, set_size. simpl.
    apply Permutation_length, NoDup_Permutation;
      [assumption | apply NoDup_elements |].
    intros l. rewrite Hin, elem_of_elements. reflexivity.
  - intros l Hmem. apply Hsub. apply Hin. exact Hmem.
Qed.

(** ** C4: one BUY on each side *)

(** ** The bound of [Timedelta] *)

Lemma timestamp_sub_in_range a b :
  Z.abs (a - b) <= timedelta_max -> timestamp_sub a b = Some (a - b).
Proof.
  unfold timestamp_sub. intros H.
  destruct (Z.ltb_spec (a - b) (- timedelta_max)); [lia|].
  destruct (Z.ltb_spec timedelta_max (a - b)); [lia|]. reflexivity.
Qed.

Lemma find_live_checked_in_range self used_live bt df_lv :
  (forall lv, lv ∈ df_lv.*2 ->
     Z.abs (Trade.timestamp lv - Trade.timestamp bt) <= timedelta_max) ->
  find_live_checked self used_live bt df_lv
  = Some (find_live self used_live bt df_lv).
Proof.
  induction df_lv as [|[lv_idx lv] rest IH]; intros Hr; [reflexivity|].
  assert (Hrest : forall lv', lv' ∈ rest.*2 ->
            Z.abs (Trade.timestamp lv' - Trade.timestamp bt)
            <= timedelta_max).
  { intros lv' Hin. apply Hr. rewrite fmap_cons.
    apply list_elem_of_further, Hin. }
  simpl. case_bool_decide; [exact (IH Hrest)|].
  case_bool_decide; [exact (IH Hrest)|].
  rewrite timestamp_sub_in_range
    by (apply Hr; rewrite fmap_cons; apply list_elem_of_here).
  destruct (_ <? _); [exact (IH Hrest)|reflexivity].
Qed.

Lemma compare_fold_checked_in_range self df_lv bts acc :
  (forall bt lv, bt ∈ bts -> lv ∈ df_lv.*2 ->
     Z.abs (Trade.timestamp lv - Trade.timestamp bt) <= timedelta_max) ->
  fold_left (compare_step_checked self df_lv) bts (Some acc)
  = Some (fold_left (compare_step self df_lv) bts acc).
Proof.
  revert acc. induction bts as [|bt rest IH]; intros [results used_live] Hr;
    [reflexivity|].
  cbn [fold_left]. unfold compare_step_checked at 2, compare_step at 2.
  rewrite find_live_checked_in_range
    by (intros lv Hlv; apply Hr; [apply list_elem_of_here|exact Hlv]).
  assert (Hrest : forall bt' lv, bt' ∈ rest -> lv ∈ df_lv.*2 ->
            Z.abs (Trade.timestamp lv - Trade.timestamp bt')
            <= timedelta_max).
  { intros bt' lv Hbt. apply Hr. apply list_elem_of_further, Hbt. }
  destruct (find_live self used_live bt df_lv) as [[lv_idx lv]|];
    exact (IH _ Hrest).
Qed.

(** On ledgers in range the matcher returns, and returns what the loop on
    integers computes. *)
Lemma compare_trades_checked_in_range self df_bt df_lv :
  timestamps_in_range df_bt df_lv ->
  compare_trades_checked self df_bt df_lv
  = Some (compare_trades self df_bt df_lv).
Proof.
  intros Hr. unfold compare_trades_checked, compare_trades, compare_loop.
  rewrite compare_fold_checked_in_range by exact Hr.
  destruct (fold_left _ _ _) as [results used_live]. reflexivity.
Qed.

(** C4.  Take two ledgers of one BUY row each (labels, timestamps and
    prices arbitrary) whose timestamps are no further apart than a
    [Timedelta] can hold (2^63 - 1 nanoseconds), and a validator of window
    W.  Then [compare_trades] returns.  If the timestamps are at most W
    apart, it reports 1 matched, 0 unmatched backtest and 0 unmatched live;
    if they are more than W apart, it reports 0 matched, 1 unmatched
    backtest and 1 unmatched live. *)
Theorem compare_trades_single_buy
    (self : TradeValidator) (bt_idx lv_idx bt_time lv_time : Z)
    (bt_price lv_price : option fval) :
  Z.abs (lv_time - bt_time) <= timedelta_max ->
  let df_bt := [(bt_idx, Trade.mk bt_time "BUY" bt_price)] in
  let df_lv := [(lv_idx, Trade.mk lv_time "BUY" lv_price)] in
  exists results,
    compare_trades_checked self df_bt df_lv = Some results
    /\ (matched_trades results, unmatched_backtest results,
        unmatched_live results)
       = if Z.abs (lv_time - bt_time) <=? candle_window self
         then (1, 0, 0)
         else (0, 1, 1).
Proof.
  intros Hrange. cbv zeta. eexists. split.
  { apply compare_trades_checked_in_range. intros bt lv Hbt Hlv.
    apply list_elem_of_singleton in Hbt, Hlv. subst bt lv. exact Hrange. }
  unfold compare_trades, compare_loop. simpl.
  rewrite bool_decide_eq_false_2 by apply not_elem_of_empty.
  rewrite Z.ltb_antisym.
  assert (Hone : size ({[lv_idx]} ∪ (∅ : gset Z)) = 1%nat).
  { rewrite size_union by apply disjoint_empty_r.
    now rewrite size_singleton, size_empty. }
  destruct (Z.abs (lv_time - bt_time) <=? candle_window self);
    cbn -[size union singleton empty].
  - rewrite Hone. reflexivity.
  - rewrite size_empty. reflexivity.
Qed.

Lemma compare_trades_single_buy_witness :
  exists results,
    compare_trades_checked (TradeValidator_init 180 (Fin (5 # 100)))
      [(0, Trade.mk 0 "BUY" None)] [(0, Trade.mk 60000000000 "BUY" None)]
    = Some results
    /\ (matched_trades results, unmatched_backtest results,
        unmatched_live results)
       = if Z.abs (60000000000 - 0)
            <=? candle_window (TradeValidator_init 180 (Fin (5 # 100)))
         then (1, 0, 0)
         else (0, 1, 1).
Proof.
  apply (compare_trades_single_buy (TradeValidator_init 180 (Fin (5 # 100)))
           0 0 0 60000000000 None None).
  unfold timedelta_max. simpl. lia.
Defined.

(** Without the bound the property fails: two BUY rows at valid timestamps
    more than 2^63 nanoseconds apart are more than W apart, and
    [compare_trades] raises on their difference instead of reporting 0
    matched, 1 unmatched backtest and 1 unmatched live. *)
Lemma compare_trades_single_buy_overflow :
  let self := TradeValidator_init 180 (Fin (5 # 100)) in
  let df_bt := [(0, Trade.mk (-9223372036854774808) "BUY" None)] in
  let df_lv := [(0, Trade.mk 9223372036854774808 "BUY" None)] in
  candle_window self
  < Z.abs (9223372036854774808 - -9223372036854774808)
  /\ compare_trades_checked self df_bt df_lv = None
  /\ ~ (exists results,
          compare_trades_checked self df_bt df_lv = Some results
          /\ (matched_trades results, unmatched_backtest results,
              unmatched_live results) = (0, 1, 1)).
Proof.
  cbv zeta. split; [reflexivity|].
  assert (Hnone : compare_trades_checked
                    (TradeValidator_init 180 (Fin (5 # 100)))
                    [(0, Trade.mk (-9223372036854774808) "BUY" None)]
                    [(0, Trade.mk 9223372036854774808 "BUY" None)] = None)
    by reflexivity.
  split; [exact Hnone|].
  intros (results & Hsome & _). rewrite Hnone in Hsome. discriminate.
Qed.

(** ** Element-wise reading of the column operations *)

Lemma rolling_mean_lookup w xs ys (i : nat) :
  Pandas.rolling_mean w xs = Ok ys ->
  (i < length xs)%nat ->
  ys !! i = Some (Pandas.rolling_mean_at w xs i).
Proof.
  unfold Pandas.rolling_mean. destruct (w <? 0); [congruence|].
  intros [= <-] Hi.
  rewrite list_lookup_fmap, lookup_seq_lt by assumption. reflexivity.
Qed.

Lemma rolling_mean_length w xs ys :
  Pandas.rolling_mean w xs = Ok ys -> length ys = length xs.
Proof.
  unfold Pandas.rolling_mean. destruct (w <? 0); [congruence|].
  intros [= <-]. now rewrite length_fmap, length_seq.
Qed.

Lemma rolling_mean_Ok w xs :
  0 <= w -> exists ys, Pandas.rolling_mean w xs = Ok ys.
Proof.
  intros Hw. unfold Pandas.rolling_mean.
  destruct (w <? 0) eqn:E; [apply Z.ltb_lt in E; lia|]. eauto.
Qed.

Lemma diff_lookup_S xs (k : nat) a b :
  xs !! k = Some a -> xs !! S k = Some b ->
  Pandas.diff xs !! S k = Some (fsub b a).
Proof.
  destruct xs as [|x tl]; [intros H; inversion H|].
  intros Ha Hb. simpl in Hb. unfold Pandas.diff.
  change ((NaN :: zip_with fsub tl (x :: tl)) !! S k)
    with (zip_with fsub tl (x :: tl) !! k).
  rewrite lookup_zip_with, Hb, Ha. reflexivity.
Qed.

Lemma diff_length xs : length (Pandas.diff xs) = length xs.
Proof.
  destruct xs as [|x tl]; [reflexivity|].
  unfold Pandas.diff. simpl. rewrite length_zip_with. simpl. lia.
Qed.

Lemma window_lookup (w i : nat) xs (j : nat) :
  (j < w)%nat -> Pandas.window w i xs !! j = xs !! (S i - w + j)%nat.
Proof.
  intros Hj. unfold Pandas.window.
  rewrite lookup_take_lt by assumption. apply lookup_drop.
Qed.

Lemma window_elem (w i : nat) xs x :
  x ∈ Pandas.window w i xs ->
  exists k, (S i - w <= k < S i - w + w)%nat /\ xs !! k = Some x.
Proof.
  intros Hx. apply list_elem_of_lookup in Hx as [j Hj].
  assert (Hjw : (j < w)%nat).
  { apply lookup_lt_Some in Hj. unfold Pandas.window in Hj.
    rewrite length_take in Hj. lia. }
  rewrite window_lookup in Hj by assumption.
  exists (S i - w + j)%nat. split; [lia|assumption].
Qed.

(** ** Comparisons and sums of finite values *)

Lemma Qltb_true a b : Qltb a b = true <-> (a < b)%Q.
Proof.
  unfold Qltb. rewrite Qlt_alt. destruct (a ?= b)%Q; split; congruence.
Qed.

Lemma Qzerob_true a : Qzerob a = true <-> (a == 0)%Q.
Proof.
  unfold Qzerob. rewrite Qeq_alt. destruct (a ?= 0)%Q; split; congruence.
Qed.

Lemma Qzerob_false_pos a : (0 < a)%Q -> Qzerob a = false.
Proof.
  intros Ha. destruct (Qzerob a) eqn:E; [|reflexivity].
  apply Qzerob_true in E. rewrite E in Ha. now apply Qlt_irrefl in Ha.
Qed.

Lemma finite_zero_nonneg x : finite_zero x -> finite_nonneg x.
Proof. intros (q & -> & Hq). exists q. split; [reflexivity|]. now rewrite Hq. Qed.

Lemma existsb_isna_nonneg xs :
  (forall x, x ∈ xs -> finite_nonneg x) -> existsb isna xs = false.
Proof.
  induction xs as [|x xs IH]; intros H; [reflexivity|]. simpl.
  destruct (H x (list_elem_of_here _ _)) as (q & -> & _). simpl.
  apply IH. intros y Hy. apply H. now apply list_elem_of_further.
Qed.

Lemma fold_fadd_zero xs : forall a,
  (forall x, x ∈ xs -> finite_zero x) ->
  exists s, fold_left fadd xs (Fin a) = Fin s /\ (s == a)%Q.
Proof.
  induction xs as [|x xs IH]; intros a H; simpl.
  - exists a. split; reflexivity.
  - destruct (H x (list_elem_of_here _ _)) as (q & -> & Hq). simpl.
    destruct (IH (a + q)%Q) as (s & Hs & Heq).
    { intros y Hy. apply H. now apply list_elem_of_further. }
    exists s. split; [assumption|].
    rewrite Heq, Hq. apply Qplus_0_r.
Qed.

Section RollingMean.
Variable w : Z.
Variable xs : list fval.
Variable i : nat.
Hypothesis w_pos : 0 < w.
Hypothesis w_full : w <= Z.of_nat i + 1.

Lemma rolling_mean_at_full :
  Pandas.rolling_mean_at w xs i
  = let win := Pandas.window (Z.to_nat w) i xs in
    if existsb isna win then NaN else fdiv (Pandas.fsum win) (of_Z w).
Proof.
  unfold Pandas.rolling_mean_at.
  destruct (w <=? 0) eqn:E1; [apply Z.leb_le in E1; lia|].
  destruct (Z.of_nat i + 1 <? w) eqn:E2; [apply Z.ltb_lt in E2; lia|].
  reflexivity.
Qed.

Lemma inject_Z_w_pos : (0 < inject_Z w)%Q.
Proof. change 0%Q with (inject_Z 0). rewrite <- Zlt_Qlt. exact w_pos. Qed.

Lemma rolling_mean_at_zero :
  (forall x, x ∈ Pandas.window (Z.to_nat w) i xs -> finite_zero x) ->
  finite_zero (Pandas.rolling_mean_at w xs i).
Proof.
  intros Hall. rewrite rolling_mean_at_full. cbv zeta.
  rewrite existsb_isna_nonneg
    by (intros x Hx; apply finite_zero_nonneg, Hall, Hx).
  destruct (fold_fadd_zero _ 0%Q Hall) as (s & Hs & Heq).
  unfold Pandas.fsum. rewrite Hs. unfold of_Z, fdiv.
  rewrite (Qzerob_false_pos _ inject_Z_w_pos).
  exists (s / inject_Z w)%Q. split; [reflexivity|].
  rewrite Heq. unfold Qdiv. apply Qmult_0_l.
Qed.

End RollingMean.

(** ** The frames of [calculate_indicators], row by row *)

Lemma where_length cond other xs :
  length (Pandas.where_ cond other xs) = length xs.
Proof. unfold Pandas.where_. apply length_fmap. Qed.

Lemma gains_length close : length (gains close) = length close.
Proof. unfold gains. now rewrite where_length, diff_length. Qed.

Lemma losses_length close : length (losses close) = length close.
Proof. unfold losses. now rewrite length_fmap, where_length, diff_length. Qed.

Lemma calculate_indicators_Ok self df_primary df_secondary :
  0 <= fast_sma self -> 0 <= slow_sma self -> 0 <= rsi_period self ->
  0 <= trend_sma self ->
  exists frames, calculate_indicators self df_primary df_secondary = Ok frames.
Proof.
  intros Hf Hs Hr Ht. unfold calculate_indicators.
  destruct (rolling_mean_Ok (fast_sma self) (close_column df_primary) Hf)
    as [c1 E1].
  destruct (rolling_mean_Ok (slow_sma self) (close_column df_primary) Hs)
    as [c2 E2].
  destruct (rolling_mean_Ok (rsi_period self)
              (gains (close_column df_primary)) Hr) as [c3 E3].
  destruct (rolling_mean_Ok (rsi_period self)
              (losses (close_column df_primary)) Hr) as [c4 E4].
  destruct (rolling_mean_Ok (trend_sma self) (close_column df_secondary) Ht)
    as [c5 E5].
  unfold close_column, gains, losses in *.
  rewrite E1. cbn [rbind]. rewrite E2. cbn [rbind]. rewrite E3. cbn [rbind].
  rewrite E4. cbn [rbind]. rewrite E5. cbn [rbind]. eauto.
Qed.

(** A negative window makes the whole computation raise, whatever the
    candles. *)
Lemma calculate_indicators_Raise self df_primary df_secondary :
  fast_sma self < 0 \/ slow_sma self < 0 \/ rsi_period self < 0
  \/ trend_sma self < 0 ->
  calculate_indicators self df_primary df_secondary = Raise ValueError.
Proof.
  intros H. unfold calculate_indicators, Pandas.rolling_mean.
  destruct (fast_sma self <? 0) eqn:E1; [reflexivity|]. simpl.
  destruct (slow_sma self <? 0) eqn:E2; [reflexivity|]. simpl.
  destruct (rsi_period self <? 0) eqn:E3; [reflexivity|]. simpl.
  destruct (trend_sma self <? 0) eqn:E4; [reflexivity|].
  apply Z.ltb_ge in E1, E2, E3, E4. lia.
Qed.

Lemma calculate_indicators_rows self df_primary df_secondary frames :
  calculate_indicators self df_primary df_secondary = Ok frames ->
  (forall (i : nat) c, close_column df_primary !! i = Some c ->
     frames.1 !! i
     = Some (primary_row_at self (close_column df_primary) i c))
  /\ (forall (j : nat) c, close_column df_secondary !! j = Some c ->
        frames.2 !! j
        = Some (secondary_row_at self (close_column df_secondary) j c))
  /\ length frames.1 = length df_primary
  /\ length frames.2 = length df_secondary.
Proof.
  unfold calculate_indicators.
  fold (close_column df_primary). fold (close_column df_secondary).
  fold (gains (close_column df_primary)).
  fold (losses (close_column df_primary)).
  set (close := close_column df_primary).
  set (close2 := close_column df_secondary).
  destruct (Pandas.rolling_mean (fast_sma self) close) as [c1|] eqn:E1;
    [cbn [rbind]|discriminate].
  destruct (Pandas.rolling_mean (slow_sma self) close) as [c2|] eqn:E2;
    [cbn [rbind]|discriminate].
  destruct (Pandas.rolling_mean (rsi_period self) (gains close))
    as [c3|] eqn:E3; [cbn [rbind]|discriminate].
  destruct (Pandas.rolling_mean (rsi_period self) (losses close))
    as [c4|] eqn:E4; [cbn [rbind]|discriminate].
  destruct (Pandas.rolling_mean (trend_sma self) close2) as [c5|] eqn:E5;
    [cbn [rbind]|discriminate].
  intros H. apply Ok_inj in H. subst frames. cbn [fst snd].
  pose proof (rolling_mean_length _ _ _ E1) as L1.
  pose proof (rolling_mean_length _ _ _ E2) as L2.
  pose proof (rolling_mean_length _ _ _ E3) as L3.
  pose proof (rolling_mean_length _ _ _ E4) as L4.
  pose proof (rolling_mean_length _ _ _ E5) as L5.
  rewrite gains_length in L3. rewrite losses_length in L4.
  assert (Lc : length close = length df_primary)
    by (subst close; unfold close_column; apply length_fmap).
  assert (Lc2 : length close2 = length df_secondary)
    by (subst close2; unfold close_column; apply length_fmap).
  repeat split.
  - intros i c Hc.
    assert (Hi : (i < length close)%nat) by (eapply lookup_lt_Some; eauto).
    pose proof (rolling_mean_lookup _ _ _ i E1 Hi) as H1.
    pose proof (rolling_mean_lookup _ _ _ i E2 Hi) as H2.
    assert (H3 := rolling_mean_lookup _ _ _ i E3).
    assert (H4 := rolling_mean_lookup _ _ _ i E4).
    rewrite gains_length in H3. rewrite losses_length in H4.
    specialize (H3 Hi). specialize (H4 Hi).
    apply lookup_zip_with_Some. eexists (_, _), (_, _).
    split; [|split; apply lookup_zip_with_Some; eexists _, _;
               (split; [reflexivity|split; [eassumption|]])].
    + reflexivity.
    + exact H1.
    + rewrite list_lookup_fmap, lookup_zip_with, H3, H4. reflexivity.
  - intros j c Hc.
    assert (Hj : (j < length close2)%nat) by (eapply lookup_lt_Some; eauto).
    rewrite lookup_zip_with, Hc.
    rewrite (rolling_mean_lookup _ _ _ j E5) by assumption.
    reflexivity.
  - rewrite length_zip_with, !length_zip, length_fmap, length_zip_with. lia.
  - rewrite length_zip_with. lia.
Qed.

(** ** Gains and losses, element by element *)

Lemma diff_Fin_lookup (qs : list Q) (k : nat) d :
  Pandas.diff (Fin <$> qs) !! k = Some d ->
  (k = 0%nat /\ d = NaN)
  \/ exists k' a b, k = S k' /\ qs !! k' = Some a /\ qs !! S k' = Some b
                    /\ d = Fin (b - a).
Proof.
  intros Hd.
  assert (Hk : (k < length qs)%nat).
  { apply lookup_lt_Some in Hd. now rewrite diff_length, length_fmap in Hd. }
  destruct k as [|k'].
  - left. split; [reflexivity|].
    destruct qs as [|q qs]; [simpl in Hk; lia|].
    simpl in Hd. congruence.
  - right.
    destruct (lookup_lt_is_Some_2 qs k') as [a Ha]; [lia|].
    destruct (lookup_lt_is_Some_2 qs (S k')) as [b Hb]; [lia|].
    exists k', a, b. repeat split; try assumption.
    rewrite (diff_lookup_S (Fin <$> qs) k' (Fin a) (Fin b)) in Hd.
    + now inversion Hd.
    + now rewrite list_lookup_fmap, Ha.
    + now rewrite list_lookup_fmap, Hb.
Qed.

Lemma gains_lookup (qs : list Q) (k : nat) x :
  gains (Fin <$> qs) !! k = Some x ->
  (k = 0%nat /\ x = Fin 0)
  \/ exists k' a b, k = S k' /\ qs !! k' = Some a /\ qs !! S k' = Some b
                    /\ x = if Qltb 0 (b - a) then Fin (b - a) else Fin 0.
Proof.
  unfold gains, Pandas.where_. rewrite list_lookup_fmap.
  destruct (Pandas.diff (Fin <$> qs) !! k) as [d|] eqn:Hd; [|discriminate].
  simpl. intros [= <-].
  apply diff_Fin_lookup in Hd as [[-> ->]|(k' & a & b & -> & Ha & Hb & ->)].
  - left. split; reflexivity.
  - right. exists k', a, b. repeat split; assumption || reflexivity.
Qed.

Lemma losses_lookup (qs : list Q) (k : nat) x :
  losses (Fin <$> qs) !! k = Some x ->
  (k = 0%nat /\ x = Fin (- 0))
  \/ exists k' a b, k = S k' /\ qs !! k' = Some a /\ qs !! S k' = Some b
                    /\ x = if Qltb (b - a) 0 then Fin (- (b - a))
                           else Fin (- 0).
Proof.
  unfold losses, Pandas.where_. rewrite !list_lookup_fmap.
  destruct (Pandas.diff (Fin <$> qs) !! k) as [d|] eqn:Hd; [|discriminate].
  simpl. intros [= <-].
  apply diff_Fin_lookup in Hd as [[-> ->]|(k' & a & b & -> & Ha & Hb & ->)].
  - left. split; reflexivity.
  - right. exists k', a, b. repeat split; try assumption.
    simpl. destruct (Qltb (b - a) 0); reflexivity.
Qed.

Lemma close_column_Fin df :
  close_column df = Fin <$> (Candle.close <$> df).
Proof. unfold close_column. now rewrite <- list_fmap_compose. Qed.

(** ** C3: the RSI over a zero average loss, in binary64 *)

Lemma roll_mean_fold_length values w minp indices acc :
  length (fold_left (Binary64.roll_mean_step values w minp) indices acc).2
  = (length acc.2 + length indices)%nat.
Proof.
  revert acc. induction indices as [|i rest IH]; intros acc; simpl.
  - lia.
  - rewrite IH. simpl. rewrite length_app. simpl. lia.
Qed.

Lemma roll_mean_length values w minp :
  length (Binary64.roll_mean values w minp) = length values.
Proof.
  unfold Binary64.roll_mean. rewrite roll_mean_fold_length.
  simpl. now rewrite length_seq.
Qed.








(** ** C2: no look-ahead *)

Lemma iloc_nonneg {A} (df : list A) (idx : Z) :
  0 <= idx ->
  iloc df idx = match df !! Z.to_nat idx with
               | Some row => Ok row
               | None => Raise IndexError
               end.
Proof.
  intros Hidx.
  destruct (Z_lt_le_dec idx (Z.of_nat (length df))) as [Hlt|Hge].
  - apply iloc_in_range. lia.
  - rewrite lookup_ge_None_2 by lia. unfold iloc.
    destruct (idx <? 0) eqn:E; [apply Z.ltb_lt in E; lia|].
    rewrite E. simpl.
    destruct (Z.of_nat (length df) <=? idx) eqn:E2; [reflexivity|].
    apply Z.leb_gt in E2. lia.
Qed.

Lemma get_trend_direction_lookup df_secondary index :
  0 <= index ->
  get_trend_direction df_secondary index
  = match df_secondary !! Z.to_nat index with
    | None => ret None
    | Some r =>
        if isna (Secondary.sma_trend r) then ret None
        else if fgt (Secondary.close r) (Secondary.sma_trend r)
        then ret (Some UP)
        else if flt (Secondary.close r) (Secondary.sma_trend r)
        then ret (Some DOWN)
        else ret None
    end.
Proof.
  intros Hidx. unfold get_trend_direction.
  destruct (index <? 0) eqn:E; [apply Z.ltb_lt in E; lia|]. simpl.
  destruct (Z.of_nat (length df_secondary) <=? index) eqn:E2.
  - apply Z.leb_le in E2. now rewrite lookup_ge_None_2 by lia.
  - apply Z.leb_gt in E2.
    destruct (lookup_lt_is_Some_2 df_secondary (Z.to_nat index)) as [r Hr];
      [lia|].
    rewrite Hr, (iloc_lookup _ _ r) by assumption. reflexivity.
Qed.

(** The evaluation reads the frames at three places only. *)
Lemma generate_signal_ext self P1 P2 S1 S2 (i j : Z) :
  0 <= slow_sma self -> 0 <= trend_sma self ->
  (0 <= i -> P1 !! Z.to_nat i = P2 !! Z.to_nat i) ->
  (1 <= i -> P1 !! Z.to_nat (i - 1) = P2 !! Z.to_nat (i - 1)) ->
  (0 <= j -> S1 !! Z.to_nat j = S2 !! Z.to_nat j) ->
  generate_signal P1 S1 i j self = generate_signal P2 S2 i j self.
Proof.
  intros Hslow Htrend Hi Hprev Hj. unfold generate_signal, bind, get.
  destruct ((i <? slow_sma self) || (j <? trend_sma self)) eqn:G;
    [reflexivity|].
  apply orb_false_iff in G as [G1 G2].
  apply Z.ltb_ge in G1. apply Z.ltb_ge in G2.
  assert (Hc : check_sma_crossover P1 i self = check_sma_crossover P2 i self).
  { unfold check_sma_crossover, bind, lift.
    destruct (i <? 1) eqn:E; [reflexivity|]. apply Z.ltb_ge in E.
    rewrite !iloc_nonneg by lia. rewrite Hi, Hprev by lia. reflexivity. }
  unfold lift. rewrite !iloc_nonneg by lia. rewrite Hi by lia.
  destruct (P2 !! Z.to_nat i) as [row|]; [|reflexivity].
  rewrite Hc.
  destruct (check_sma_crossover P2 i self) as [[c|e] s1]; [|reflexivity].
  rewrite !get_trend_direction_lookup by lia. rewrite Hj by lia.
  reflexivity.
Qed.

(** The column operations commute with cutting the series, and a rolling
    mean at a bar that survives the cut does not see the cut. *)
Lemma diff_take (n : nat) xs :
  Pandas.diff (take n xs) = take n (Pandas.diff xs).
Proof.
  destruct n as [|n]; [now destruct xs|].
  destruct xs as [|x tl]; [reflexivity|].
  simpl. f_equal.
  apply list_eq. intros k.
  rewrite lookup_zip_with.
  destruct (decide (k < n)%nat) as [Hk|Hk].
  - rewrite !lookup_take_lt by assumption. rewrite lookup_zip_with.
    destruct (tl !! k) as [b|]; [simpl|reflexivity].
    destruct k as [|k]; [reflexivity|]. simpl.
    rewrite lookup_take_lt by lia. reflexivity.
  - rewrite !lookup_take_ge by lia. reflexivity.
Qed.

Lemma gains_take (n : nat) close : gains (take n close) = take n (gains close).
Proof.
  unfold gains, Pandas.where_. now rewrite diff_take, fmap_take.
Qed.

Lemma losses_take (n : nat) close :
  losses (take n close) = take n (losses close).
Proof.
  unfold losses, Pandas.where_. now rewrite diff_take, !fmap_take.
Qed.

Lemma close_column_take (n : nat) df :
  close_column (take n df) = take n (close_column df).
Proof. unfold close_column. apply fmap_take. Qed.

Lemma window_take (w k n : nat) xs :
  (k < n)%nat -> (w <= S k)%nat ->
  Pandas.window w k (take n xs) = Pandas.window w k xs.
Proof.
  intros Hk Hw. unfold Pandas.window. apply list_eq. intros j.
  destruct (decide (j < w)%nat) as [Hj|Hj].
  - rewrite !lookup_take_lt by assumption. rewrite !lookup_drop.
    apply lookup_take_lt. lia.
  - rewrite !lookup_take_ge by lia. reflexivity.
Qed.

Lemma rolling_mean_at_take w (k n : nat) xs :
  (k < n)%nat ->
  Pandas.rolling_mean_at w (take n xs) k = Pandas.rolling_mean_at w xs k.
Proof.
  intros Hk. unfold Pandas.rolling_mean_at.
  destruct ((w <=? 0) || (Z.of_nat k + 1 <? w)) eqn:G; [reflexivity|].
  apply orb_false_iff in G as [G1 G2].
  apply Z.leb_gt in G1. apply Z.ltb_ge in G2.
  rewrite window_take by lia. reflexivity.
Qed.

Lemma primary_row_at_take self (k n : nat) close c :
  (k < n)%nat ->
  primary_row_at self (take n close) k c = primary_row_at self close k c.
Proof.
  intros Hk. unfold primary_row_at, rsi_at.
  rewrite gains_take, losses_take, !rolling_mean_at_take by assumption.
  reflexivity.
Qed.

Lemma secondary_row_at_take self (k n : nat) close c :
  (k < n)%nat ->
  secondary_row_at self (take n close) k c = secondary_row_at self close k c.
Proof.
  intros Hk. unfold secondary_row_at.
  now rewrite rolling_mean_at_take by assumption.
Qed.

(** Indicators computed on cut series agree with those computed on the full
    series at every bar that survives the cut. *)
Lemma calculate_indicators_take self df_primary df_secondary (n m : nat)
      cut full :
  calculate_indicators self (take n df_primary) (take m df_secondary)
  = Ok cut ->
  calculate_indicators self df_primary df_secondary = Ok full ->
  (forall k, (k < n)%nat -> cut.1 !! k = full.1 !! k)
  /\ (forall k, (k < m)%nat -> cut.2 !! k = full.2 !! k).
Proof.
  intros Hcut Hfull.
  destruct (calculate_indicators_rows _ _ _ _ Hcut) as (Hc1 & Hc2 & Lc1 & Lc2).
  destruct (calculate_indicators_rows _ _ _ _ Hfull) as (Hf1 & Hf2 & Lf1 & Lf2).
  rewrite length_take in Lc1, Lc2.
  rewrite close_column_take in Hc1, Hc2.
  split; intros k Hk.
  - destruct (decide (k < length df_primary)%nat) as [Hlen|Hlen].
    + destruct (lookup_lt_is_Some_2 (close_column df_primary) k) as [c Hc].
      { unfold close_column. now rewrite length_fmap. }
      rewrite (Hf1 k c Hc), (Hc1 k c) by (now rewrite lookup_take_lt).
      now rewrite primary_row_at_take.
    + rewrite !lookup_ge_None_2 by lia. reflexivity.
  - destruct (decide (k < length df_secondary)%nat) as [Hlen|Hlen].
    + destruct (lookup_lt_is_Some_2 (close_column df_secondary) k) as [c Hc].
      { unfold close_column. now rewrite length_fmap. }
      rewrite (Hf2 k c Hc), (Hc2 k c) by (now rewrite lookup_take_lt).
      now rewrite secondary_row_at_take.
    + rewrite !lookup_ge_None_2 by lia. reflexivity.
Qed.

Lemma signal_at_take self df_primary df_secondary (i j : Z) (n m : nat) :
  (i < Z.of_nat n) -> (j < Z.of_nat m) ->
  signal_at self (take n df_primary) (take m df_secondary) i j
  = signal_at self df_primary df_secondary i j.
Proof.
  intros Hn Hm. unfold signal_at.
  destruct (Z_lt_le_dec (fast_sma self) 0) as [Hf|Hf];
    [rewrite !calculate_indicators_Raise by lia; reflexivity|].
  destruct (Z_lt_le_dec (slow_sma self) 0) as [Hs|Hs];
    [rewrite !calculate_indicators_Raise by lia; reflexivity|].
  destruct (Z_lt_le_dec (rsi_period self) 0) as [Hr|Hr];
    [rewrite !calculate_indicators_Raise by lia; reflexivity|].
  destruct (Z_lt_le_dec (trend_sma self) 0) as [Ht|Ht];
    [rewrite !calculate_indicators_Raise by lia; reflexivity|].
  destruct (calculate_indicators_Ok self (take n df_primary)
              (take m df_secondary)) as [cut Hcut]; try assumption.
  destruct (calculate_indicators_Ok self df_primary df_secondary)
    as [full Hfull]; try assumption.
  destruct (calculate_indicators_take _ _ _ _ _ _ _ Hcut Hfull) as [H1 H2].
  rewrite Hcut, Hfull. simpl. f_equal.
  apply generate_signal_ext; try assumption.
  - intros Hi. apply H1. lia.
  - intros Hi. apply H1. lia.
  - intros Hj. apply H2. lia.
Qed.

(** C2.  For all candle series, all parameters, every position and all
    indices [i], [j]: the signal obtained at bars [i] / [j] from the series
    cut after bar [i] (primary) and after bar [j] (secondary) is the signal
    obtained there from the full series; the same holds when only the
    primary series is cut.  Both sides raise together when a window
    parameter is negative. *)
Theorem no_look_ahead
    (self : Strategy) (df_primary df_secondary : list Candle.t) (i j : Z) :
  signal_at self (truncate i df_primary) (truncate j df_secondary) i j
  = signal_at self df_primary df_secondary i j
  /\ signal_at self (truncate i df_primary) df_secondary i j
     = signal_at self df_primary df_secondary i j.
Proof.
  unfold truncate. split.
  - apply signal_at_take; lia.
  - rewrite <- (signal_at_take self df_primary df_secondary i j
                  (Z.to_nat (i + 1))
                  (Z.to_nat (Z.max (j + 1) (Z.of_nat (length df_secondary)))))
      by lia.
    rewrite (take_ge df_secondary) by lia.
    reflexivity.
Qed.

(** ** C8: what happens to a malformed configuration *)

(** C8 as stated fails: the time frame "5x" has an unknown unit, yet it is
    parsed to 60 seconds and the engine is constructed with that check
    interval; so it is not true that every time frame with an unknown unit
    makes the construction raise. *)
Lemma unknown_unit_not_rejected :
  unknown_unit "5x" = true
  /\ _parse_timeframe_to_seconds int_decimal "5x" = Ok 60
  /\ LiveTradingEngine_init int_decimal ex_strategy "BTCUSDT" "5x" "3m"
       (Fin (1 # 1000)) 1
     = Ok (mkLiveTradingEngine ex_strategy "BTCUSDT" "5x" "3m"
             (Fin (1 # 1000)) 60 [] false)
  /\ ~ (forall timeframe, unknown_unit timeframe = true ->
          exists e, LiveTradingEngine_init int_decimal ex_strategy "BTCUSDT"
                      timeframe "3m" (Fin (1 # 1000)) 1 = Raise e).
Proof.
  repeat split.
  intros H. destruct (H "5x"%string eq_refl) as [e He]. discriminate He.
Qed.

(** C8, amended.  A time frame whose unit suffix is none of m, h, d is not
    rejected: [_parse_timeframe_to_seconds] answers 60 and the engine is
    constructed with a check interval of 60 seconds, whatever [int] does.
    A LIMIT order without a price is rejected by [create_order] with
    [ValueError] when the order is requested, whatever the clock, the
    signature and the HTTP layer would do. *)
Theorem malformed_configuration
    (int_ : string -> option Z) (strategy : Strategy)
    (symbol timeframe secondary_timeframe : string) (trade_quantity : fval)
    (check_interval : Z)
    (now_ms : Z) (_generate_signature : list (string * Param) -> string)
    (post : string -> list (string * Param) -> result Order)
    (base_url order_symbol side : string) (quantity : fval)
    (time_in_force : string) :
  unknown_unit timeframe = true ->
  _parse_timeframe_to_seconds int_ timeframe = Ok 60
  /\ LiveTradingEngine_init int_ strategy symbol timeframe secondary_timeframe
       trade_quantity check_interval
     = Ok (mkLiveTradingEngine strategy symbol timeframe secondary_timeframe
             trade_quantity 60 [] false)
  /\ create_order now_ms _generate_signature post base_url order_symbol side
       "LIMIT" quantity None time_in_force
     = Raise ValueError.
Proof.
  intros Hunit. unfold unknown_unit in Hunit.
  apply andb_true_iff in Hunit as [Hunit Hd].
  apply andb_true_iff in Hunit as [Hm Hh].
  apply negb_true_iff in Hm, Hh, Hd.
  assert (Hparse : _parse_timeframe_to_seconds int_ timeframe = Ok 60).
  { unfold _parse_timeframe_to_seconds. now rewrite Hm, Hh, Hd. }
  split; [exact Hparse|]. split.
  - unfold LiveTradingEngine_init. now rewrite Hparse.
  - reflexivity.
Qed.

Lemma malformed_configuration_witness :
  _parse_timeframe_to_seconds int_decimal "5x" = Ok 60
  /\ LiveTradingEngine_init int_decimal ex_strategy "BTCUSDT" "5x" "3m"
       (Fin (1 # 1000)) 1
     = Ok (mkLiveTradingEngine ex_strategy "BTCUSDT" "5x" "3m"
             (Fin (1 # 1000)) 60 [] false)
  /\ create_order 0 (fun _ => ""%string) (fun _ _ => Ok (mkOrder 1 "FILLED"))
       "https://testnet.binance.vision/api" "BTCUSDT" "BUY"
       "LIMIT" (Fin (1 # 1000)) None "GTC"
     = Raise ValueError.
Proof.
  apply (malformed_configuration int_decimal ex_strategy "BTCUSDT" "5x" "3m"
           (Fin (1 # 1000)) 1 0 (fun _ => ""%string)
           (fun _ _ => Ok (mkOrder 1 "FILLED"))
           "https://testnet.binance.vision/api" "BTCUSDT" "BUY"
           (Fin (1 # 1000)) "GTC").
  reflexivity.
Defined.

(** The known units are parsed, and a known unit without a readable count
    does make the construction raise. *)
Example parse_known_units :
  _parse_timeframe_to_seconds int_decimal "1m" = Ok 60
  /\ _parse_timeframe_to_seconds int_decimal "4h" = Ok 14400
  /\ _parse_timeframe_to_seconds int_decimal "2d" = Ok 172800
  /\ _parse_timeframe_to_seconds int_decimal "m" = Raise ValueError.
Proof. repeat split. Qed.

(* ===================================================================== *)
(** * Further properties of the indicator engine *)
(* ===================================================================== *)

Lemma rolling_mean_at_warmup w xs (i : nat) :
  w <= 0 \/ Z.of_nat i + 1 < w -> Pandas.rolling_mean_at w xs i = NaN.
Proof.
  intros H. unfold Pandas.rolling_mean_at.
  destruct (w <=? 0) eqn:E1; [reflexivity|].
  destruct (Z.of_nat i + 1 <? w) eqn:E2; [reflexivity|].
  apply Z.leb_gt in E1. apply Z.ltb_ge in E2. lia.
Qed.

Section RsiWindow.
Variable closes : list Q.
Variable period : Z.
Variable i : nat.
Hypothesis period_pos : 0 < period.
Hypothesis period_full : period <= Z.of_nat i + 1.

(** Bar [S k] lies in the trailing window of bar [i]. *)
Let in_window (k : nat) : Prop :=
  Z.of_nat i - period < Z.of_nat (S k) <= Z.of_nat i.

Lemma gains_window_zero :
  (forall k a b, in_window k ->
     closes !! k = Some a -> closes !! S k = Some b -> (b <= a)%Q) ->
  forall x, x ∈ Pandas.window (Z.to_nat period) i (gains (Fin <$> closes)) ->
            finite_zero x.
Proof.
  intros Hmono x Hx. apply window_elem in Hx as (k & Hrange & Hk).
  apply gains_lookup in Hk as [[_ ->]|(k' & a & b & -> & Ha & Hb & ->)].
  - exists 0%Q. split; reflexivity.
  - assert (Hle : (b <= a)%Q)
      by (apply (Hmono k'); [unfold in_window; lia|assumption|assumption]).
    destruct (Qltb 0 (b - a)) eqn:E.
    + apply Qltb_true in E. lra.
    + exists 0%Q. split; reflexivity.
Qed.

Lemma losses_window_zero :
  (forall k a b, in_window k ->
     closes !! k = Some a -> closes !! S k = Some b -> (a <= b)%Q) ->
  forall x, x ∈ Pandas.window (Z.to_nat period) i (losses (Fin <$> closes)) ->
            finite_zero x.
Proof.
  intros Hmono x Hx. apply window_elem in Hx as (k & Hrange & Hk).
  apply losses_lookup in Hk as [[_ ->]|(k' & a & b & -> & Ha & Hb & ->)].
  - exists (- 0)%Q. split; reflexivity.
  - assert (Hle : (a <= b)%Q)
      by (apply (Hmono k'); [unfold in_window; lia|assumption|assumption]).
    destruct (Qltb (b - a) 0) eqn:E.
    + apply Qltb_true in E. lra.
    + exists (- 0)%Q. split; reflexivity.
Qed.

End RsiWindow.

Lemma rsi_formula_flat g l :
  (g == 0)%Q -> (l == 0)%Q ->
  fsub (Fin 100) (fdiv (Fin 100) (fadd (Fin 1) (fdiv (Fin g) (Fin l)))) = NaN.
Proof.
  intros Hg Hl.
  assert (Hrs : fdiv (Fin g) (Fin l) = NaN).
  { unfold fdiv. now rewrite (proj2 (Qzerob_true l) Hl),
                             (proj2 (Qzerob_true g) Hg). }
  now rewrite Hrs.
Qed.

(** X3.  When the closes do not move over the trailing RSI window of bar
    [i] (average gain and average loss both 0), the RSI stored at bar [i] is
    NaN: 0/0, not an exception and not a number. *)
Theorem rsi_nan_on_flat_window
    (self : Strategy) (df_primary df_secondary : list Candle.t) (i : nat) :
  let closes := Candle.close <$> df_primary in
  let in_window (k : nat) :=
    Z.of_nat i - rsi_period self < Z.of_nat (S k) <= Z.of_nat i in
  0 <= fast_sma self -> 0 <= slow_sma self -> 0 <= trend_sma self ->
  0 < rsi_period self ->
  rsi_period self <= Z.of_nat i + 1 ->
  (i < length df_primary)%nat ->
  (forall k a b, in_window k ->
     closes !! k = Some a -> closes !! S k = Some b -> (a == b)%Q) ->
  exists frames row,
    calculate_indicators self df_primary df_secondary = Ok frames
    /\ frames.1 !! i = Some row
    /\ Primary.rsi row = NaN.
Proof.
  intros closes in_window Hfast Hslow Htrend Hper Hfull Hi Hflat.
  destruct (calculate_indicators_Ok self df_primary df_secondary)
    as [frames Hframes]; try lia.
  destruct (calculate_indicators_rows _ _ _ _ Hframes) as (Hrows & _ & _ & _).
  destruct (lookup_lt_is_Some_2 (close_column df_primary) i) as [c Hc].
  { unfold close_column. now rewrite length_fmap. }
  destruct (rolling_mean_at_zero (rsi_period self) (gains (Fin <$> closes)) i)
    as (g & Hg & Hg0); try assumption.
  { apply gains_window_zero; try assumption.
    intros k a b Hk Ha Hb. rewrite (Hflat k a b Hk Ha Hb). apply Qle_refl. }
  destruct (rolling_mean_at_zero (rsi_period self) (losses (Fin <$> closes)) i)
    as (l & Hl & Hl0); try assumption.
  { apply losses_window_zero; try assumption.
    intros k a b Hk Ha Hb. rewrite (Hflat k a b Hk Ha Hb). apply Qle_refl. }
  exists frames, (primary_row_at self (close_column df_primary) i c).
  split; [assumption|]. split; [now apply Hrows|].
  simpl. unfold rsi_at. rewrite close_column_Fin. fold closes.
  rewrite Hg, Hl. now apply rsi_formula_flat.
Qed.

Lemma rsi_nan_on_flat_window_witness :
  exists frames row,
    calculate_indicators ex_strategy ex_primary_candles ex_secondary_candles
    = Ok frames
    /\ frames.1 !! 2%nat = Some row
    /\ Primary.rsi row = NaN.
Proof.
  apply (rsi_nan_on_flat_window ex_strategy ex_primary_candles
           ex_secondary_candles 2); try (simpl; lia).
  intros k a b [Hlo Hhi] Ha Hb. simpl in Hlo.
  assert (Hk : k = 0%nat \/ k = 1%nat) by lia.
  destruct Hk as [-> | ->]; vm_compute in Ha, Hb;
    injection Ha as <-; injection Hb as <-; reflexivity.
Defined.

(** *** The warm-up of the rolling means, in binary64 *)

Lemma add_mean_nobs val st :
  Binary64.nobs (Binary64.add_mean val st) <= Binary64.nobs st + 1.
Proof.
  unfold Binary64.add_mean. destruct (Binary64.eqb val val); simpl; lia.
Qed.

(** The state of [roll_mean] once position [i] has been handled. *)
Lemma roll_mean_lookup values w minp (i : nat) :
  (i < length values)%nat ->
  Binary64.roll_mean values w minp !! i
  = Some (Binary64.calc_mean minp
            (fold_left (Binary64.roll_mean_step values w minp) (seq 0 (S i))
               (Binary64.mkMeanState 0 0 Binary64.zero Binary64.zero
                  Binary64.zero 0 Binary64.nan, [])).1).
Proof.
  intros Hi. unfold Binary64.roll_mean.
  set (init := (Binary64.mkMeanState 0 0 Binary64.zero Binary64.zero
                  Binary64.zero 0 Binary64.nan, [])).
  set (step := Binary64.roll_mean_step values w minp).
  replace (length values) with (S i + (length values - S i))%nat by lia.
  rewrite seq_app, fold_left_app.
  assert (Hpre : forall l acc,
            exists ys, (fold_left step l acc).2 = acc.2 ++ ys).
  { induction l as [|j l IH]; intros acc; simpl.
    - exists []. now rewrite app_nil_r.
    - destruct (IH (step acc j)) as [ys ->]. simpl.
      rewrite <- app_assoc. eexists. reflexivity. }
  destruct (Hpre (seq (0 + S i) (length values - S i))
              (fold_left step (seq 0 (S i)) init)) as [ys ->].
  assert (Hlen : length (fold_left step (seq 0 (S i)) init).2 = S i).
  { unfold step. rewrite roll_mean_fold_length. simpl.
    now rewrite length_seq. }
  rewrite lookup_app_l by lia.
  rewrite seq_S, fold_left_app in Hlen |- *. simpl in Hlen |- *.
  rewrite length_app in Hlen. simpl in Hlen.
  rewrite lookup_app_r by lia.
  replace (i - length (fold_left step (seq 0 i) init).2)%nat with 0%nat by lia.
  reflexivity.
Qed.

Lemma roll_mean_step_state values w minp acc (i : nat) :
  (Binary64.roll_mean_step values w minp acc i).1
  = if (i =? 0)%nat
       || (Binary64.window_end w (length values) (i - 1)
           <=? Binary64.window_start w (length values) i)%nat
    then Binary64.setup values
           (Binary64.window_start w (length values) i)
           (Binary64.window_end w (length values) i)
    else Binary64.slide values
           (Binary64.window_start w (length values) (i - 1))
           (Binary64.window_end w (length values) (i - 1))
           (Binary64.window_start w (length values) i)
           (Binary64.window_end w (length values) i) acc.1.
Proof. reflexivity. Qed.

Lemma window_start_warmup w n (i : nat) :
  Z.of_nat i + 1 < w -> Binary64.window_start w n i = 0%nat.
Proof.
  intros Hw. unfold Binary64.window_start.
  destruct (w =? 0) eqn:E; [apply Z.eqb_eq in E; lia|].
  replace (S i - Z.to_nat w)%nat with 0%nat by lia. reflexivity.
Qed.

Lemma window_end_inside w n (i : nat) :
  w <> 0 -> (i < n)%nat -> Binary64.window_end w n i = S i.
Proof.
  intros Hw Hi. unfold Binary64.window_end.
  destruct (w =? 0) eqn:E; [apply Z.eqb_eq in E; lia|]. lia.
Qed.

(** While the window is not yet full nothing leaves it, and each position
    adds at most one observation. *)
Lemma roll_mean_warmup_nobs values w minp (i : nat) :
  (i < length values)%nat ->
  Z.of_nat i + 1 < w ->
  Binary64.nobs
    (fold_left (Binary64.roll_mean_step values w minp) (seq 0 (S i))
       (Binary64.mkMeanState 0 0 Binary64.zero Binary64.zero
          Binary64.zero 0 Binary64.nan, [])).1
  <= Z.of_nat i + 1.
Proof.
  set (init := (Binary64.mkMeanState 0 0 Binary64.zero Binary64.zero
                  Binary64.zero 0 Binary64.nan, [])).
  induction i as [|i IH]; intros Hi Hw.
  - cbn [seq fold_left]. rewrite roll_mean_step_state.
    rewrite !window_start_warmup by exact Hw.
    rewrite !window_end_inside by lia.
    cbn [Nat.eqb orb]. unfold Binary64.setup.
    cbn [Nat.sub seq fold_left].
    pose proof (add_mean_nobs (Binary64.at_ values 0)
                  (Binary64.mkMeanState 0 0 Binary64.zero Binary64.zero
                     Binary64.zero 0 (Binary64.at_ values 0))) as H.
    cbn [Binary64.nobs] in H. lia.
  - specialize (IH ltac:(lia) ltac:(lia)).
    rewrite seq_S, fold_left_app. cbn [fold_left Nat.add].
    set (acc := fold_left _ (seq 0 (S i)) init) in *.
    rewrite roll_mean_step_state.
    replace (S i - 1)%nat with i by lia.
    rewrite !window_start_warmup by lia.
    rewrite !window_end_inside by lia.
    cbn [Nat.eqb Nat.leb orb]. unfold Binary64.slide.
    replace (S (S i) - S i)%nat with 1%nat by lia.
    cbn [Nat.sub seq fold_left].
    pose proof (add_mean_nobs (Binary64.at_ values (S i)) acc.1) as H.
    lia.
Qed.

(** A window of 0 is set up afresh, empty, at every position. *)
Lemma roll_mean_empty_window_nobs values minp (i : nat) :
  Binary64.nobs
    (fold_left (Binary64.roll_mean_step values 0 minp) (seq 0 (S i))
       (Binary64.mkMeanState 0 0 Binary64.zero Binary64.zero
          Binary64.zero 0 Binary64.nan, [])).1
  = 0.
Proof.
  rewrite seq_S, fold_left_app. cbn [fold_left Nat.add].
  rewrite roll_mean_step_state.
  unfold Binary64.window_start, Binary64.window_end.
  change (0 =? 0) with true. cbv iota.
  assert (Hc : (i =? 0)%nat
               || (Nat.min (i - 1) (length values)
                   <=? Nat.min i (length values))%nat = true).
  { apply orb_true_iff. right. apply Nat.leb_le. lia. }
  rewrite Hc. unfold Binary64.setup.
  now rewrite Nat.sub_diag.
Qed.

Lemma rolling_mean64_warmup w xs ys (i : nat) y :
  Binary64.rolling_mean w xs = Ok ys ->
  ys !! i = Some y ->
  w = 0 \/ Z.of_nat i + 1 < w ->
  y = Binary64.nan.
Proof.
  unfold Binary64.rolling_mean. destruct (w <? 0); [discriminate|].
  intros H Hy Hw. injection H as <-.
  assert (Hi : (i < length ((fun x => if Binary64.isinf x then Binary64.nan
                                      else x) <$> xs))%nat).
  { apply lookup_lt_Some in Hy. now rewrite roll_mean_length in Hy. }
  rewrite roll_mean_lookup in Hy by exact Hi.
  assert (Hn : Binary64.nobs
                 (fold_left
                    (Binary64.roll_mean_step
                       ((fun x => if Binary64.isinf x then Binary64.nan
                                  else x) <$> xs) w w)
                    (seq 0 (S i))
                    (Binary64.mkMeanState 0 0 Binary64.zero Binary64.zero
                       Binary64.zero 0 Binary64.nan, [])).1 = 0
               \/ Binary64.nobs
                    (fold_left
                       (Binary64.roll_mean_step
                          ((fun x => if Binary64.isinf x then Binary64.nan
                                     else x) <$> xs) w w)
                       (seq 0 (S i))
                       (Binary64.mkMeanState 0 0 Binary64.zero Binary64.zero
                          Binary64.zero 0 Binary64.nan, [])).1 < w).
  { destruct Hw as [-> | Hw].
    - left. apply roll_mean_empty_window_nobs.
    - right. pose proof (roll_mean_warmup_nobs _ w w i Hi Hw). lia. }
  revert Hy Hn.
  match goal with
  | |- context [fold_left ?f ?l ?a] => generalize (fold_left f l a)
  end.
  intros acc Hy Hn. injection Hy as <-. unfold Binary64.calc_mean.
  destruct Hn as [-> | Hn].
  - now rewrite andb_false_r.
  - destruct (w <=? _) eqn:E; [apply Z.leb_le in E; lia|]. reflexivity.
Qed.

Lemma rsi_of_nan_gain l : Binary64.rsi_of Binary64.nan l = Binary64.nan.
Proof. destruct l; reflexivity. Qed.

(** X4.  In the frames [calculate_indicators] returns, computed in
    binary64 with pandas' running sums, each moving average (fast and slow
    on the primary frame, trend on the secondary frame) is NaN at every bar
    where its window is not yet full (bar [i] with [i + 1 < period]) and at
    every bar when its period is 0; so is the RSI with respect to the RSI
    period. *)
Theorem rolling_columns_nan_until_window_full
    (self : Strategy) (close close2 : list Binary64.float)
    (frames : list Binary64.Primary.row * list Binary64.Secondary.row) :
  Binary64.calculate_indicators self close close2 = Ok frames ->
  (forall (i : nat) row, frames.1 !! i = Some row ->
     (fast_sma self = 0 \/ Z.of_nat i + 1 < fast_sma self ->
      Binary64.Primary.sma_fast row = Binary64.nan)
     /\ (slow_sma self = 0 \/ Z.of_nat i + 1 < slow_sma self ->
         Binary64.Primary.sma_slow row = Binary64.nan)
     /\ (rsi_period self = 0 \/ Z.of_nat i + 1 < rsi_period self ->
         Binary64.Primary.rsi row = Binary64.nan))
  /\ (forall (j : nat) row, frames.2 !! j = Some row ->
        trend_sma self = 0 \/ Z.of_nat j + 1 < trend_sma self ->
        Binary64.Secondary.sma_trend row = Binary64.nan).
Proof.
  unfold Binary64.calculate_indicators.
  destruct (Binary64.rolling_mean (fast_sma self) close)
    as [sma_fast|] eqn:Hfast; [|discriminate].
  destruct (Binary64.rolling_mean (slow_sma self) close)
    as [sma_slow|] eqn:Hslow; [|discriminate].
  destruct (Binary64.average_gain (rsi_period self) close)
    as [gain|] eqn:Hgain; [|discriminate].
  destruct (Binary64.average_loss (rsi_period self) close)
    as [loss|] eqn:Hloss; [|discriminate].
  destruct (Binary64.rolling_mean (trend_sma self) close2)
    as [sma_trend|] eqn:Htrend; [|discriminate].
  unfold rbind. intros H. injection H as <-. cbn [fst snd]. split.
  - intros i row Hrow.
    apply lookup_zip_with_Some in Hrow
      as ([c f] & [sl r] & -> & Hcf & Hsr).
    apply lookup_zip_with_Some in Hcf as (c' & f' & Ecf & Hc & Hf).
    apply lookup_zip_with_Some in Hsr as (sl' & r' & Esr & Hsl & Hr).
    injection Ecf as -> ->. injection Esr as -> ->.
    apply lookup_zip_with_Some in Hr as (g & l & -> & Hg & Hl).
    cbn [Binary64.Primary.sma_fast Binary64.Primary.sma_slow
         Binary64.Primary.rsi fst snd].
    split; [|split]; intros Hw.
    + exact (rolling_mean64_warmup _ _ _ _ _ Hfast Hf Hw).
    + exact (rolling_mean64_warmup _ _ _ _ _ Hslow Hsl Hw).
    + rewrite (rolling_mean64_warmup _ _ _ _ _ Hgain Hg Hw).
      apply rsi_of_nan_gain.
  - intros j row Hrow Hw.
    apply lookup_zip_with_Some in Hrow as (c & t & -> & Hc & Ht).
    exact (rolling_mean64_warmup _ _ _ _ _ Htrend Ht Hw).
Qed.

Lemma rolling_columns_nan_until_window_full_witness :
  (forall (i : nat) row, ex_rising_frames.1 !! i = Some row ->
     (2 = 0 \/ Z.of_nat i + 1 < 2 ->
      Binary64.Primary.sma_fast row = Binary64.nan)
     /\ (3 = 0 \/ Z.of_nat i + 1 < 3 ->
         Binary64.Primary.sma_slow row = Binary64.nan)
     /\ (2 = 0 \/ Z.of_nat i + 1 < 2 ->
         Binary64.Primary.rsi row = Binary64.nan))
  /\ (forall (j : nat) row, ex_rising_frames.2 !! j = Some row ->
        2 = 0 \/ Z.of_nat j + 1 < 2 ->
        Binary64.Secondary.sma_trend row = Binary64.nan).
Proof.
  apply (rolling_columns_nan_until_window_full
           (Strategy_init 2 3 2 2 (Fin 70) (Fin 30))
           ex_rising_close ex_rising_close ex_rising_frames).
  reflexivity.
Defined.

(** *** Shape of the frames *)

Lemma calculate_indicators_closes self df_primary df_secondary frames :
  calculate_indicators self df_primary df_secondary = Ok frames ->
  Primary.close <$> frames.1 = close_column df_primary
  /\ Secondary.close <$> frames.2 = close_column df_secondary.
Proof.
  intros Hcalc.
  destruct (calculate_indicators_rows _ _ _ _ Hcalc)
    as (Hrows1 & Hrows2 & Hlen1 & Hlen2).
  split; apply list_eq; intros k; rewrite list_lookup_fmap.
  - destruct (close_column df_primary !! k) as [c|] eqn:Hc.
    + now rewrite (Hrows1 k c Hc).
    + apply lookup_ge_None in Hc. unfold close_column in Hc.
      rewrite length_fmap in Hc. rewrite lookup_ge_None_2 by lia. reflexivity.
  - destruct (close_column df_secondary !! k) as [c|] eqn:Hc.
    + now rewrite (Hrows2 k c Hc).
    + apply lookup_ge_None in Hc. unfold close_column in Hc.
      rewrite length_fmap in Hc. rewrite lookup_ge_None_2 by lia. reflexivity.
Qed.

(** X5.  [calculate_indicators] raises [ValueError] exactly when one of the
    four periods is negative, whatever the candles (even none at all).
    Otherwise it returns two frames that have one row per candle, in order,
    each carrying the close of its candle unchanged. *)
Theorem calculate_indicators_shape
    (self : Strategy) (df_primary df_secondary : list Candle.t) :
  if (fast_sma self <? 0) || (slow_sma self <? 0) || (rsi_period self <? 0)
     || (trend_sma self <? 0)
  then calculate_indicators self df_primary df_secondary = Raise ValueError
  else exists frames,
         calculate_indicators self df_primary df_secondary = Ok frames
         /\ Primary.close <$> frames.1
            = (fun c => Fin (Candle.close c)) <$> df_primary
         /\ Secondary.close <$> frames.2
            = (fun c => Fin (Candle.close c)) <$> df_secondary.
Proof.
  destruct ((fast_sma self <? 0) || (slow_sma self <? 0)
            || (rsi_period self <? 0) || (trend_sma self <? 0)) eqn:G.
  - apply calculate_indicators_Raise.
    repeat (apply orb_true_iff in G as [G|G]);
      apply Z.ltb_lt in G; lia.
  - repeat (apply orb_false_iff in G as [G ?]).
    apply Z.ltb_ge in G.
    repeat match goal with H : (_ <? _) = false |- _ =>
             apply Z.ltb_ge in H end.
    destruct (calculate_indicators_Ok self df_primary df_secondary)
      as [frames Hframes]; try assumption.
    exists frames. split; [assumption|].
    exact (calculate_indicators_closes _ _ _ _ Hframes).
Qed.

(* ===================================================================== *)
(** * Further properties of the signal state machine *)
(* ===================================================================== *)

(** X7.  The bearish mirror of the crossover event: if bars [i-1], [i] and
    [i+1] exist ([i >= 1]), the fast average is at or above the slow one at
    bar [i-1] and strictly below it at bar [i], then
    [check_sma_crossover] returns BEARISH at [i], and at [i+1] it returns
    normally with an answer other than BEARISH. *)
Theorem bearish_crossover_once
    (self : Strategy) (df_primary : list Primary.row) (i : Z)
    (prev cur : Primary.row) :
  1 <= i ->
  i + 1 < Z.of_nat (length df_primary) ->
  df_primary !! Z.to_nat (i - 1) = Some prev ->
  df_primary !! Z.to_nat i = Some cur ->
  fge (Primary.sma_fast prev) (Primary.sma_slow prev) = true ->
  flt (Primary.sma_fast cur) (Primary.sma_slow cur) = true ->
  (check_sma_crossover df_primary i self).1 = Ok (Some BEARISH)
  /\ exists c, (check_sma_crossover df_primary (i + 1) self).1 = Ok c
               /\ c <> Some BEARISH.
Proof.
  intros Hi Hlen Hprev Hcur Hge Hlt.
  split.
  - unfold check_sma_crossover, bind, lift.
    destruct (i <? 1) eqn:G; [apply Z.ltb_lt in G; lia|].
    rewrite (iloc_lookup _ _ cur) by (assumption || lia).
    rewrite (iloc_lookup _ _ prev) by (assumption || lia).
    destruct (flt_not_nan _ _ Hlt) as [Hf Hs].
    rewrite Hf, Hs, Hge, Hlt. simpl.
    assert (Hng : fgt (Primary.sma_fast cur) (Primary.sma_slow cur) = false).
    { unfold fgt. destruct (Primary.sma_fast cur), (Primary.sma_slow cur);
        simpl in *; try congruence.
      unfold Qltb in *. rewrite <- Qcompare_antisym.
      destruct (q ?= q0)%Q; simpl; congruence. }
    rewrite Hng, andb_false_r. reflexivity.
  - destruct (lookup_lt_is_Some_2 df_primary (Z.to_nat (i + 1)))
      as [next Hnext]; [lia|].
    unfold check_sma_crossover, bind, lift.
    destruct (i + 1 <? 1) eqn:G; [apply Z.ltb_lt in G; lia|].
    rewrite (iloc_lookup _ _ next) by (assumption || lia).
    replace (i + 1 - 1) with i by lia.
    rewrite (iloc_lookup _ _ cur) by (assumption || lia).
    unfold fge. rewrite (flt_not_fle _ _ Hlt).
    destruct (isna _ || isna _); [exists None; split; [reflexivity|congruence]|].
    simpl.
    destruct (fle _ _ && fgt _ _); eexists; (split; [reflexivity|congruence]).
Qed.

Lemma bearish_crossover_once_witness :
  (check_sma_crossover ex_primary 3 ex_strategy).1 = Ok (Some BEARISH)
  /\ exists c, (check_sma_crossover ex_primary (3 + 1) ex_strategy).1 = Ok c
               /\ c <> Some BEARISH.
Proof.
  apply (bearish_crossover_once ex_strategy ex_primary 3 (ex_row 2) (ex_row 3));
    [lia | simpl; lia | reflexivity | reflexivity
    | vm_compute; reflexivity | vm_compute; reflexivity].
Defined.

(** X8.  The only exception [generate_signal] can raise is [IndexError],
    and it raises it exactly when both indices pass the warm-up guard and
    the primary index lies outside [-len, len) of the primary frame.  The
    secondary index never makes it raise. *)
Theorem generate_signal_raises_iff
    (self : Strategy) (df_primary : list Primary.row)
    (df_secondary : list Secondary.row) (primary_idx secondary_idx : Z)
    (e : Exception) :
  (generate_signal df_primary df_secondary primary_idx secondary_idx self).1
  = Raise e
  <-> e = IndexError
      /\ slow_sma self <= primary_idx
      /\ trend_sma self <= secondary_idx
      /\ (primary_idx < - Z.of_nat (length df_primary)
          \/ Z.of_nat (length df_primary) <= primary_idx).
Proof.
  unfold generate_signal, bind, get, lift.
  destruct (primary_idx <? slow_sma self) eqn:G1.
  { apply Z.ltb_lt in G1. simpl. split; [discriminate|lia]. }
  destruct (secondary_idx <? trend_sma self) eqn:G2.
  { apply Z.ltb_lt in G2. simpl. split; [discriminate|lia]. }
  apply Z.ltb_ge in G1. apply Z.ltb_ge in G2. simpl.
  set (n := Z.of_nat (length df_primary)).
  destruct (iloc df_primary primary_idx) as [row|e'] eqn:Hiloc.
  - (* the row exists: nothing below raises *)
    assert (Hrange : - n <= primary_idx < n).
    { revert Hiloc. unfold iloc. fold n.
      destruct (primary_idx <? 0) eqn:E.
      - apply Z.ltb_lt in E.
        destruct (primary_idx + n <? 0) eqn:E1; [discriminate|].
        apply Z.ltb_ge in E1. lia.
      - apply Z.ltb_ge in E.
        destruct (primary_idx <? 0) eqn:E1; [apply Z.ltb_lt in E1; lia|].
        destruct (n <=? primary_idx) eqn:E2; [discriminate|].
        apply Z.leb_gt in E2. lia. }
    assert (Hc : exists c,
               check_sma_crossover df_primary primary_idx self = (Ok c, self)).
    { destruct (Z_lt_le_dec primary_idx 1) as [Hlt|Hge].
      - exists None. unfold check_sma_crossover.
        destruct (primary_idx <? 1) eqn:E; [reflexivity|].
        apply Z.ltb_ge in E. lia.
      - apply check_sma_crossover_total. lia. }
    destruct Hc as [c Hc]. rewrite Hc.
    destruct (get_trend_direction_total df_secondary secondary_idx self)
      as [t Ht]. rewrite Ht.
    split.
    + destruct (position self); destruct (bool_decide _ || _); discriminate.
    + intros (_ & _ & _ & Hout). fold n in Hout. lia.
  - simpl. revert Hiloc. unfold iloc. fold n.
    destruct (primary_idx <? 0) eqn:E.
    + apply Z.ltb_lt in E.
      destruct (primary_idx + n <? 0) eqn:E1.
      * apply Z.ltb_lt in E1. simpl. intros [= <-].
        split; [intros [= <-]; repeat split; lia || auto|].
        intros (-> & _). reflexivity.
      * apply Z.ltb_ge in E1.
        destruct (n <=? primary_idx + n) eqn:E2;
          [apply Z.leb_le in E2; lia|]. simpl.
        destruct (lookup_lt_is_Some_2 df_primary
                    (Z.to_nat (primary_idx + n))) as [r Hr]; [lia|].
        rewrite Hr. discriminate.
    + apply Z.ltb_ge in E.
      destruct (primary_idx <? 0) eqn:E1; [apply Z.ltb_lt in E1; lia|].
      destruct (n <=? primary_idx) eqn:E2.
      * apply Z.leb_le in E2. simpl. intros [= <-].
        split; [intros [= <-]; repeat split; lia || auto|].
        intros (-> & _). reflexivity.
      * apply Z.leb_gt in E2. simpl.
        destruct (lookup_lt_is_Some_2 df_primary (Z.to_nat primary_idx))
          as [r Hr]; [lia|].
        rewrite Hr. discriminate.
Qed.

(** X9.  While the RSI is still warming up (bar [i] with [i + 1 <
    rsi_period], which the guard lets through when [rsi_period] exceeds
    [slow_sma + 1], as with the shipped 14 against 10), the stored RSI is
    NaN, both RSI comparisons are false, and the signal is decided by the
    crossover alone: BUY exactly when FLAT on a BULLISH crossover, SELL
    exactly when LONG on a BEARISH crossover, HOLD otherwise. *)
Theorem signal_during_rsi_warmup
    (self : Strategy) (df_primary df_secondary : list Candle.t)
    (frames : list Primary.row * list Secondary.row) (i j : Z) :
  calculate_indicators self df_primary df_secondary = Ok frames ->
  slow_sma self <= i -> trend_sma self <= j ->
  0 <= i < Z.of_nat (length df_primary) ->
  i + 1 < rsi_period self ->
  let signal := (generate_signal frames.1 frames.2 i j self).1 in
  let crossover := (check_sma_crossover frames.1 i self).1 in
  (signal = Ok BUY
   <-> position self = FLAT /\ crossover = Ok (Some BULLISH))
  /\ (signal = Ok SELL
      <-> position self = LONG /\ crossover = Ok (Some BEARISH))
  /\ (signal = Ok HOLD
      <-> ~ (position self = FLAT /\ crossover = Ok (Some BULLISH))
          /\ ~ (position self = LONG /\ crossover = Ok (Some BEARISH))).
Proof.
  intros Hcalc Hslow Htrend Hi Hwarm.
  destruct (calculate_indicators_rows _ _ _ _ Hcalc) as (Hrows & _ & Hlen & _).
  destruct (lookup_lt_is_Some_2 (close_column df_primary) (Z.to_nat i))
    as [c Hc]; [unfold close_column; rewrite length_fmap; lia|].
  pose proof (Hrows _ _ Hc) as Hrow.
  destruct (check_sma_crossover_total frames.1 i self) as [x Hx]; [lia|].
  destruct (get_trend_direction_total frames.2 j self) as [t Ht].
  cbv zeta.
  rewrite (generate_signal_past_guard _ _ _ _ _ _ x t Hslow Htrend
             (proj1 Hi) Hrow Hx Ht).
  rewrite Hx. simpl. unfold rsi_at.
  rewrite !rolling_mean_at_warmup by (right; lia). simpl.
  rewrite andb_false_r, !orb_false_r.
  assert (Hnan : fgt NaN (rsi_overbought self) = false)
    by (unfold fgt; destruct (rsi_overbought self); reflexivity).
  rewrite Hnan, orb_false_r.
  destruct (position self); destruct x as [[|]|]; simpl;
    intuition congruence.
Qed.

Lemma signal_during_rsi_warmup_witness :
  (generate_signal ex_slow_rsi_frames.1 ex_slow_rsi_frames.2 3 3
     ex_slow_rsi_strategy).1 = Ok HOLD.
Proof.
  apply (signal_during_rsi_warmup ex_slow_rsi_strategy ex_primary_candles
           ex_secondary_candles ex_slow_rsi_frames 3 3);
    [reflexivity | simpl; lia | simpl; lia | simpl; lia | simpl; lia |].
  split; [intros [_ H]; vm_compute in H | intros [H _]]; discriminate H.
Defined.

(** *** The object at the end of a session *)

Lemma session_end_invariant steps : forall self,
  (position self = FLAT <-> entry_price self = None) ->
  let self' := session_end steps self in
  position self'
  = fold_left apply_signal (snd <$> run_session steps self) (position self)
  /\ (position self' = FLAT <-> entry_price self' = None)
  /\ fast_sma self' = fast_sma self /\ slow_sma self' = slow_sma self
  /\ trend_sma self' = trend_sma self /\ rsi_period self' = rsi_period self
  /\ rsi_overbought self' = rsi_overbought self
  /\ rsi_oversold self' = rsi_oversold self.
Proof.
  induction steps as [|st rest IH]; intros self Hinv; cbv zeta.
  - simpl. repeat split; tauto.
  - simpl.
    pose proof (generate_signal_read_only (step_primary st)
                  (step_secondary st) (step_primary_idx st)
                  (step_secondary_idx st) self) as Hf.
    destruct (generate_signal _ _ _ _ self) as [[signal|e] self1] eqn:E;
      simpl in Hf; subst self1.
    + apply generate_signal_in_turn in E as (_ & Hbuy & Hsell).
      destruct signal.
      * specialize (IH (update_position BUY (step_price st) self).2).
        cbv zeta in IH. simpl in *.
        destruct IH as (H1 & H2 & H3); [split; discriminate|].
        repeat split; tauto.
      * specialize (IH (update_position SELL (step_price st) self).2).
        cbv zeta in IH. simpl in *.
        destruct IH as (H1 & H2 & H3); [split; reflexivity|].
        repeat split; tauto.
      * specialize (IH self Hinv). cbv zeta in IH. simpl. exact IH.
    + exact (IH self Hinv).
Qed.

(** X10.  Start a session from an object that is FLAT with no entry price
    (as [__init__] and [reset] leave it).  At the end, the position is the
    one the emitted signals lead to from FLAT (a BUY gives LONG, a SELL
    gives FLAT, a HOLD changes nothing), an entry price is stored exactly when the position is LONG,
    and none of the six parameters has changed. *)
Theorem session_end_state (steps : list Step) (self : Strategy) :
  position self = FLAT ->
  entry_price self = None ->
  let self' := session_end steps self in
  position self'
  = fold_left apply_signal (snd <$> run_session steps self) FLAT
  /\ (position self' = FLAT <-> entry_price self' = None)
  /\ fast_sma self' = fast_sma self /\ slow_sma self' = slow_sma self
  /\ trend_sma self' = trend_sma self /\ rsi_period self' = rsi_period self
  /\ rsi_overbought self' = rsi_overbought self
  /\ rsi_oversold self' = rsi_oversold self.
Proof.
  intros Hflat Hnone.
  pose proof (session_end_invariant steps self) as H. cbv zeta in *.
  rewrite Hflat in H. apply H. rewrite Hnone. tauto.
Qed.

Lemma session_end_state_witness :
  position (session_end ex_steps ex_strategy) = LONG
  /\ entry_price (session_end ex_steps ex_strategy) = Some (Fin (inject_Z 9)).
Proof.
  destruct (session_end_state ex_steps ex_strategy eq_refl eq_refl)
    as (Hpos & _).
  split; [rewrite Hpos|]; vm_compute; reflexivity.
Defined.

(* ===================================================================== *)
(** * Further properties of the trade matcher *)
(* ===================================================================== *)

(** Induction over the outer loop, on the backtest rows seen so far. *)
Lemma compare_fold_ind self df_lv
      (P : list Trade.row -> Results * gset Z -> Prop) :
  (forall seen bt acc, P seen acc ->
     P (seen ++ [bt]) (compare_step self df_lv acc bt)) ->
  forall bts seen acc, P seen acc ->
    P (seen ++ bts) (fold_left (compare_step self df_lv) bts acc).
Proof.
  intros Hstep. induction bts as [|bt rest IH]; intros seen acc Hacc; simpl.
  - now rewrite app_nil_r.
  - replace (seen ++ bt :: rest) with ((seen ++ [bt]) ++ rest)
      by (now rewrite <- app_assoc).
    apply IH, Hstep, Hacc.
Qed.

Lemma find_live_None self used_live bt rows :
  find_live self used_live bt rows = None ->
  forall l lv, (l, lv) ∈ rows -> Trade.side lv = Trade.side bt ->
    Z.abs (Trade.timestamp lv - Trade.timestamp bt) <= candle_window self ->
    l ∈ used_live.
Proof.
  induction rows as [|[l0 r0] rest IH]; intros Hnone l lv Hmem Hside Hwin.
  - inversion Hmem.
  - simpl in Hnone.
    apply elem_of_cons in Hmem as [[= -> ->]|Hmem].
    + case_bool_decide as Hused; [assumption|].
      case_bool_decide as Hs; [congruence|].
      destruct (candle_window self <? _) eqn:Hw; [|discriminate].
      apply Z.ltb_lt in Hw. lia.
    + case_bool_decide as Hused; [now apply (IH Hnone l lv)|].
      case_bool_decide as Hs; [now apply (IH Hnone l lv)|].
      destruct (candle_window self <? _) eqn:Hw;
        [now apply (IH Hnone l lv)|discriminate].
Qed.

Lemma detail_ok_mono self df_lv (used1 used2 : gset Z) d :
  used1 ⊆ used2 -> detail_ok self df_lv used1 d -> detail_ok self df_lv used2 d.
Proof.
  intros Hsub. destruct d; simpl.
  - intros (H1 & H2). split; [now apply Hsub|assumption].
  - intros H l lv Hl Hs Hw. apply Hsub. now apply (H l lv).
Qed.

Lemma compare_step_trace self df_lv seen acc bt :
  matcher_trace_inv self df_lv seen acc ->
  matcher_trace_inv self df_lv (seen ++ [bt]) (compare_step self df_lv acc bt).
Proof.
  destruct acc as [results used_live]. intros (Hseen & Hpos & Hall).
  unfold compare_step.
  destruct (find_live self used_live bt df_lv) as [[lv_idx lv]|] eqn:E.
  - apply find_live_Some in E as (Hfresh & Hmem & Hside & Hwin).
    simpl. repeat split.
    + rewrite fmap_app, Hseen. simpl. now destruct bt.
    + assumption.
    + apply Forall_app. split.
      * eapply Forall_impl; [exact Hall|]. intros d.
        apply detail_ok_mono. apply union_subseteq_r.
      * apply Forall_singleton. unfold matched_detail. simpl.
        repeat split.
        -- apply elem_of_union_l. now apply elem_of_singleton.
        -- rewrite Hside. now destruct lv.
        -- assumption.
  - simpl. repeat split.
    + rewrite fmap_app, Hseen. simpl. now destruct bt.
    + lia.
    + apply Forall_app. split; [assumption|].
      apply Forall_singleton. simpl. intros l lv Hl Hs Hw.
      now apply (find_live_None self used_live bt df_lv E l lv).
Qed.

Lemma compare_loop_trace self df_bt df_lv :
  matcher_trace_inv self df_lv (snd <$> df_bt) (compare_loop self df_bt df_lv).
Proof.
  unfold compare_loop.
  set (init := (mkResults _ _ 0 0 0 [], ∅)).
  pose proof (compare_fold_ind self df_lv (matcher_trace_inv self df_lv)
                (fun seen bt acc => compare_step_trace self df_lv seen acc bt)
                (snd <$> df_bt) [] init) as H.
  rewrite app_nil_l in H.
  apply H. subst init. simpl. repeat split; [lia|constructor].
Qed.

Lemma compare_loop_counts self df_bt df_lv :
  matcher_inv df_lv (Z.of_nat (length df_bt)) (compare_loop self df_bt df_lv).
Proof.
  unfold compare_loop.
  set (init := (mkResults _ _ 0 0 0 [], ∅)).
  assert (Hinit : matcher_inv df_lv 0 init).
  { subst init. simpl. repeat split; try lia.
    - apply NoDup_nil_2.
    - intros H. inversion H.
    - intros H. apply elem_of_empty in H. contradiction.
    - intros l H. apply elem_of_empty in H. contradiction. }
  pose proof (compare_fold_inv self df_lv (snd <$> df_bt) 0 init Hinit) as Hinv.
  now rewrite length_fmap, Z.add_0_l in Hinv.
Qed.

Lemma compare_trades_details self df_bt df_lv :
  details (compare_trades self df_bt df_lv)
  = details (compare_loop self df_bt df_lv).1.
Proof.
  unfold compare_trades. now destruct (compare_loop self df_bt df_lv).
Qed.

(** X11.  The details list has one entry per backtest row, in ledger
    order, and each entry reports the side, timestamp and price of its
    row. *)
Theorem compare_trades_details_follow_backtest
    (self : TradeValidator) (df_bt df_lv : Ledger) :
  detail_backtest <$> details (compare_trades self df_bt df_lv)
  = snd <$> df_bt.
Proof.
  rewrite compare_trades_details.
  pose proof (compare_loop_trace self df_bt df_lv) as H.
  destruct (compare_loop self df_bt df_lv) as [results used_live].
  now destruct H as (H & _).
Qed.

(** X12.  Every entry of the details is sound: a MATCHED entry pairs a row
    of the backtest ledger with a row of the live ledger that has the same
    side, carries the live label recorded, and whose timestamp is at most
    the candle window away (the reported time difference being that
    distance in seconds); an UNMATCHED_BACKTEST entry reports a row of the
    backtest ledger. *)
Theorem compare_trades_details_sound
    (self : TradeValidator) (df_bt df_lv : Ledger) :
  Forall (detail_sound self df_bt df_lv)
         (details (compare_trades self df_bt df_lv)).
Proof.
  rewrite compare_trades_details.
  pose proof (compare_loop_trace self df_bt df_lv) as H.
  destruct (compare_loop self df_bt df_lv) as [results used_live].
  destruct H as (Hseen & _ & Hall). simpl.
  apply Forall_forall. intros d Hd.
  assert (Hbt : exists bt_idx, (bt_idx, detail_backtest d) ∈ df_bt).
  { assert (Hin : detail_backtest d ∈ snd <$> df_bt).
    { rewrite <- Hseen. now apply list_elem_of_fmap_2. }
    apply list_elem_of_fmap in Hin as ([idx row] & Heq & Hin).
    simpl in Heq. subst row. eauto. }
  rewrite Forall_forall in Hall. specialize (Hall d Hd).
  destruct d; simpl in *.
  - destruct Hall as (_ & H2 & H3 & H4). auto.
  - assumption.
Qed.

(** X13.  The matching is maximal for the greedy order: when the run is
    over, no backtest row reported UNMATCHED_BACKTEST is left with a
    compatible live row (same side, within the window) that is still
    unused; every such live row carries a label some pairing has taken. *)
Theorem compare_trades_greedy_maximal
    (self : TradeValidator) (df_bt df_lv : Ledger)
    (side : string) (bt_time : Z) (bt_price : option fval)
    (l : Z) (lv : Trade.row) :
  let results := compare_trades self df_bt df_lv in
  UNMATCHED_BACKTEST side bt_time bt_price ∈ details results ->
  (l, lv) ∈ df_lv ->
  Trade.side lv = side ->
  Z.abs (Trade.timestamp lv - bt_time) <= candle_window self ->
  l ∈ matched_live (details results).
Proof.
  cbv zeta. rewrite compare_trades_details.
  pose proof (compare_loop_trace self df_bt df_lv) as H.
  pose proof (compare_loop_counts self df_bt df_lv) as Hc.
  destruct (compare_loop self df_bt df_lv) as [results used_live].
  destruct H as (_ & _ & Hall).
  destruct Hc as (_ & _ & _ & _ & Hin & _). simpl.
  intros Hd Hl Hs Hw.
  rewrite Forall_forall in Hall. specialize (Hall _ Hd). simpl in Hall.
  apply Hin. now apply (Hall l lv).
Qed.

Lemma compare_trades_greedy_maximal_witness :
  0 ∈ matched_live (details (compare_trades ex_validator ex_bt_ledger
                               ex_lv_ledger)).
Proof.
  apply (compare_trades_greedy_maximal ex_validator ex_bt_ledger ex_lv_ledger
           "BUY" 3 None 0 (Trade.mk 0 "BUY" (Some (Fin 101)))).
  - vm_compute. apply list_elem_of_further, list_elem_of_here.
  - apply list_elem_of_here.
  - reflexivity.
  - simpl. lia.
Defined.

(** X14.  All counters of the result are non-negative, and the number of
    matched trades exceeds neither the number of backtest rows nor the
    number of live rows, whatever the index labels of the two ledgers. *)
Theorem compare_trades_counters_bounded
    (self : TradeValidator) (df_bt df_lv : Ledger) :
  let results := compare_trades self df_bt df_lv in
  0 <= matched_trades results <= Z.of_nat (length df_bt)
  /\ matched_trades results <= Z.of_nat (length df_lv)
  /\ 0 <= unmatched_backtest results
  /\ 0 <= unmatched_live results.
Proof.
  cbv zeta. unfold compare_trades.
  pose proof (compare_loop_trace self df_bt df_lv) as H.
  pose proof (compare_loop_counts self df_bt df_lv) as Hc.
  destruct (compare_loop self df_bt df_lv) as [results used_live].
  destruct H as (_ & Hun & _).
  destruct Hc as (Hpos & Hsum & Hsize & Hnd & Hin & Hsub). simpl.
  assert (Hle : (size used_live <= length df_lv)%nat).
  { rewrite <- (length_fmap fst df_lv).
    unfold size, set_size. simpl.
    apply submseteq_length, NoDup_submseteq; [apply NoDup_elements|].
    intros l Hl. apply Hsub. now apply elem_of_elements. }
  lia.
Qed.

(** *** A ledger compared with itself *)

Lemma find_live_skip_used self used_live bt pre rest :
  (forall x, x ∈ pre -> x.1 ∈ used_live) ->
  find_live self used_live bt (pre ++ rest) = find_live self used_live bt rest.
Proof.
  induction pre as [|[l r] pre IH]; intros Hused; [reflexivity|].
  simpl. rewrite bool_decide_eq_true_2
    by (apply (Hused (l, r)), list_elem_of_here).
  apply IH. intros x Hx. apply Hused. now apply list_elem_of_further.
Qed.

Lemma find_live_self self used_live l bt rest :
  l ∉ used_live -> 0 <= candle_window self ->
  find_live self used_live bt ((l, bt) :: rest) = Some (l, bt).
Proof.
  intros Hfresh Hw. simpl.
  rewrite bool_decide_eq_false_2 by assumption.
  rewrite bool_decide_eq_false_2 by (intros H; now apply H).
  rewrite Z.sub_diag. change (Z.abs 0) with 0.
  destruct (candle_window self <? 0) eqn:E; [apply Z.ltb_lt in E; lia|].
  reflexivity.
Qed.

Lemma compare_fold_self self (suf : Ledger) : forall pre results used_live,
  NoDup (fst <$> (pre ++ suf)) ->
  0 <= candle_window self ->
  (forall l, l ∈ used_live <-> l ∈ (fst <$> pre)) ->
  matched_live (details results) = fst <$> pre ->
  unmatched_backtest results = 0 ->
  matched_trades results = Z.of_nat (length pre) ->
  let acc := fold_left (compare_step self (pre ++ suf)) (snd <$> suf)
               (results, used_live) in
  matched_live (details acc.1) = fst <$> (pre ++ suf)
  /\ unmatched_backtest acc.1 = 0
  /\ matched_trades acc.1 = Z.of_nat (length (pre ++ suf)).
Proof.
  induction suf as [|[l bt] suf IH];
    intros pre results used_live Hnd Hw Hused Hlive Hun Hm; cbv zeta.
  - simpl. rewrite app_nil_r. auto.
  - simpl fold_left. unfold compare_step at 2.
    rewrite find_live_skip_used
      by (intros x Hx; apply Hused; now apply list_elem_of_fmap_2).
    assert (Hfresh : l ∉ used_live).
    { rewrite Hused. rewrite fmap_app in Hnd. simpl in Hnd.
      apply NoDup_app in Hnd as (_ & Hdisj & _).
      intros Hl. apply (Hdisj l Hl). apply list_elem_of_here. }
    rewrite find_live_self by assumption.
    replace (pre ++ (l, bt) :: suf) with ((pre ++ [(l, bt)]) ++ suf)
      by (now rewrite <- app_assoc).
    apply IH.
    + now rewrite <- app_assoc.
    + assumption.
    + intros l'. rewrite fmap_app, elem_of_app, elem_of_union, Hused.
      simpl. rewrite elem_of_singleton, list_elem_of_singleton. tauto.
    + simpl. rewrite matched_live_app, Hlive, fmap_app. reflexivity.
    + assumption.
    + simpl. rewrite Hm, length_app. simpl. lia.
Qed.

(** X15.  A ledger with pairwise distinct index labels, compared with
    itself under a non-negative window, is matched completely: every row is
    paired, and paired with itself (the live labels of the pairings are the
    labels of the ledger, in order); nothing is left unmatched on either
    side. *)
Theorem compare_trades_with_itself (self : TradeValidator) (df : Ledger) :
  NoDup (fst <$> df) ->
  0 <= candle_window self ->
  let results := compare_trades self df df in
  matched_trades results = Z.of_nat (length df)
  /\ unmatched_backtest results = 0
  /\ unmatched_live results = 0
  /\ matched_live (details results) = fst <$> df.
Proof.
  intros Hnd Hw. cbv zeta.
  pose proof (compare_loop_counts self df df) as Hc.
  pose proof (compare_fold_self self df []
                (mkResults (Z.of_nat (length df)) (Z.of_nat (length df))
                   0 0 0 []) ∅ Hnd Hw) as H.
  cbv zeta in H. simpl app in H.
  unfold compare_trades. unfold compare_loop in *.
  destruct (fold_left _ _ _) as [results used_live].
  destruct H as (Hlive & Hun & Hm); try reflexivity.
  { intros l. simpl. split; intros Hl; [apply elem_of_empty in Hl|inversion Hl];
      contradiction. }
  destruct Hc as (_ & _ & Hsize & _). simpl in *.
  repeat split; try assumption. lia.
Qed.

Lemma compare_trades_with_itself_witness :
  matched_trades (compare_trades ex_validator ex_bt_ledger ex_bt_ledger) = 2
  /\ unmatched_backtest (compare_trades ex_validator ex_bt_ledger ex_bt_ledger)
     = 0
  /\ unmatched_live (compare_trades ex_validator ex_bt_ledger ex_bt_ledger) = 0
  /\ matched_live (details (compare_trades ex_validator ex_bt_ledger
                              ex_bt_ledger)) = [0; 1].
Proof.
  apply (compare_trades_with_itself ex_validator ex_bt_ledger).
  - vm_compute. repeat constructor; intros H; inversion H; subst;
      match goal with H' : _ ∈ _ |- _ => inversion H' end.
  - simpl. lia.
Defined.

(* ===================================================================== *)
(** * Properties of the backtest adapter *)
(* ===================================================================== *)

Lemma filter_le_none (p : Z) (times : list Z) :
  Forall (fun t => p < t) times -> filter (fun t => t <= p) times = [].
Proof.
  induction 1 as [|x l Hx Hall IH]; [reflexivity|].
  rewrite filter_cons_False by lia. exact IH.
Qed.

Lemma filter_le_sorted (p : Z) (times : list Z) :
  StronglySorted Z.le times ->
  forall (k : nat) t, times !! k = Some t ->
    ((k < length (filter (fun t => (t <= p)%Z) times))%nat <-> t <= p).
Proof.
  induction 1 as [|x l Hsorted IH Hall]; intros k t Hk; [inversion Hk|].
  destruct (decide (x <= p)) as [Hx|Hx].
  - rewrite filter_cons_True by assumption.
    destruct k as [|k]; simpl in *.
    + injection Hk as <-. split; [auto|lia].
    + rewrite <- (IH k t Hk). lia.
  - rewrite filter_cons_False by assumption.
    rewrite filter_le_none
      by (eapply Forall_impl; [exact Hall|]; simpl; intros; lia).
    simpl. split; [lia|]. intros Ht. exfalso.
    destruct k as [|k]; simpl in Hk.
    + injection Hk as <-. lia.
    + rewrite Forall_forall in Hall.
      assert (x <= t) by (apply Hall; eapply list_elem_of_lookup_2; eauto).
      lia.
Qed.

(** X16.  On a secondary index sorted by time, [_find_secondary_index]
    returns the position of the latest secondary bar whose time is not
    after the primary time: that bar is at or before it and every later
    bar is strictly after it; it returns [None] exactly when every
    secondary bar lies after the primary time (in particular on an empty
    index). *)
Theorem find_secondary_index_latest
    (secondary_times : list Z) (primary_time : Z) :
  Sorted Z.le secondary_times ->
  match _find_secondary_index secondary_times primary_time with
  | None => forall t, t ∈ secondary_times -> primary_time < t
  | Some idx =>
      0 <= idx
      /\ (exists t, secondary_times !! Z.to_nat idx = Some t
                    /\ t <= primary_time)
      /\ forall (k : nat) t, idx < Z.of_nat k ->
           secondary_times !! k = Some t -> primary_time < t
  end.
Proof.
  intros Hsorted. apply Sorted_StronglySorted in Hsorted;
    [|intros x y z; apply Z.le_trans].
  pose proof (filter_le_sorted primary_time secondary_times Hsorted) as H.
  unfold _find_secondary_index. cbv zeta.
  set (n := length (filter (fun t => t <= primary_time) secondary_times)) in *.
  destruct (n =? 0)%nat eqn:E.
  - apply Nat.eqb_eq in E. intros t Ht.
    apply list_elem_of_lookup in Ht as [k Hk].
    destruct (Z_lt_le_dec primary_time t) as [|Hle]; [assumption|].
    apply (H k t Hk) in Hle. lia.
  - apply Nat.eqb_neq in E.
    assert (Hn : (n <= length secondary_times)%nat) by apply length_filter.
    split; [lia|]. split.
    + destruct (lookup_lt_is_Some_2 secondary_times
                  (Z.to_nat (Z.of_nat n - 1))) as [t Ht]; [lia|].
      exists t. split; [assumption|]. apply (H _ t Ht). lia.
    + intros k t Hk Ht.
      destruct (Z_lt_le_dec primary_time t) as [|Hle]; [assumption|].
      apply (H k t Ht) in Hle. lia.
Qed.

Lemma find_secondary_index_latest_witness :
  0 <= 1
  /\ (exists t, [0; 3; 6; 9] !! Z.to_nat 1 = Some t /\ t <= 4)
  /\ forall (k : nat) t, 1 < Z.of_nat k ->
       [0; 3; 6; 9] !! k = Some t -> 4 < t.
Proof.
  apply (find_secondary_index_latest [0; 3; 6; 9] 4).
  repeat constructor; lia.
Defined.

(** X17.  While the framework's position and the strategy's position agree
    ([in_position] exactly when the strategy is LONG), one call of [next]
    on a bar that has a secondary bar is one evaluation followed by the
    position update, and it places the order that goes with the signal: a
    buy on BUY, a close on SELL, nothing on HOLD.  No signal is dropped. *)
Theorem next_in_sync
    (self : Strategy) (df_primary : list Primary.row)
    (df_secondary : list Secondary.row) (secondary_times : list Z)
    (data : list (Z * fval)) (in_position : bool)
    (last : Z * fval) (secondary_idx : Z) (signal : Signal) :
  in_position = bool_decide (position self = LONG) ->
  iloc data (-1) = Ok last ->
  _find_secondary_index secondary_times last.1 = Some secondary_idx ->
  (generate_signal df_primary df_secondary (Z.of_nat (length data) - 1)
     secondary_idx self).1 = Ok signal ->
  next df_primary df_secondary secondary_times data in_position self
  = (Ok (action_of signal), (update_position signal last.2 self).2).
Proof.
  intros Hsync Hlast Hidx Hsig.
  unfold next, bind, lift. rewrite Hlast, Hidx.
  destruct (generate_signal df_primary df_secondary
              (Z.of_nat (length data) - 1) secondary_idx self)
    as [[s|e] self1] eqn:E; simpl in Hsig; [|discriminate].
  injection Hsig as ->.
  apply generate_signal_in_turn in E as (-> & Hbuy & Hsell).
  subst in_position.
  destruct signal; simpl.
  - rewrite (Hbuy eq_refl). reflexivity.
  - rewrite (Hsell eq_refl). reflexivity.
  - reflexivity.
Qed.

Lemma next_in_sync_witness :
  next ex_primary ex_secondary [0; 3; 6; 9] ex_data false ex_strategy
  = (Ok (Some Buy), (update_position BUY (Fin 9) ex_strategy).2).
Proof.
  apply (next_in_sync ex_strategy ex_primary ex_secondary [0; 3; 6; 9]
           ex_data false (9, Fin 9) 3 BUY); reflexivity.
Defined.

(** *** The backtest ledger *)

Lemma process_trades_bind symbol (trades_data : list BtTrade.t) :
  let ledger := _process_trades (Some trades_data) symbol [] in
  BacktestRecord.side <$> ledger
  = trades_data ≫= (fun _ => ["BUY"; "SELL"]%string)
  /\ BacktestRecord.timestamp <$> ledger
     = trades_data ≫= (fun t => [BtTrade.EntryTime t; BtTrade.ExitTime t])
  /\ complete_trades ledger = length trades_data.
Proof.
  cbv zeta. unfold _process_trades.
  destruct trades_data as [|t0 rest]; [repeat split|].
  change (length (t0 :: rest) =? 0)%nat with false. cbv iota.
  generalize (t0 :: rest). clear t0 rest.
  induction l as [|t l (IH1 & IH2 & IH3)]; [repeat split|].
  unfold complete_trades in *. rewrite !bind_cons.
  rewrite !fmap_app, IH1, IH2, filter_app, length_app, IH3.
  repeat split.
Qed.

(** X18.  After a backtest that made trades, the ledger is rebuilt from
    the framework's trade table: one BUY record at the entry time followed
    by one SELL record at the exit time for each trade, in order, so that
    'total_trades' of the summary is the number of round trips.  After a
    backtest without trades the ledger is left as it was (it is not
    cleared). *)
Theorem process_trades_ledger
    (symbol : string) (trades_data : list BtTrade.t)
    (trades : list BacktestRecord.t) :
  let ledger := _process_trades (Some trades_data) symbol trades in
  match trades_data with
  | [] => ledger = trades
  | _ :: _ =>
      BacktestRecord.side <$> ledger
      = trades_data ≫= (fun _ => ["BUY"; "SELL"]%string)
      /\ BacktestRecord.timestamp <$> ledger
         = trades_data ≫= (fun t => [BtTrade.EntryTime t; BtTrade.ExitTime t])
      /\ complete_trades ledger = length trades_data
  end.
Proof.
  cbv zeta. destruct trades_data as [|t0 rest]; [reflexivity|].
  exact (process_trades_bind symbol (t0 :: rest)).
Qed.

(* ===================================================================== *)
(** * Properties of the live engine *)
(* ===================================================================== *)

(** ** Waiting for the candle close *)

Lemma datetime_minute_bound now : 0 <= datetime_minute now < 60.
Proof. unfold datetime_minute. apply Z.mod_pos_bound. lia. Qed.

Lemma datetime_second_bound now : 0 <= datetime_second now < 60.
Proof. unfold datetime_second. apply Z.mod_pos_bound. lia. Qed.

(** Lines 106-112 after a positive count of seconds. *)
Lemma wait_finish_pos now monotonic s :
  0 <= now <= datetime_max ->
  5 <= s ->
  match timedelta_of_seconds s with
  | None => WaitOverflowError
  | Some delta =>
      match datetime_add now delta with
      | None => WaitOverflowError
      | Some _ => sleep monotonic s
      end
  end
  = if (sleep_max <? s) || (datetime_max <? now + s * 1000000)
    then WaitOverflowError
    else if deadline_max <? monotonic + s * 1000000000 then WaitOSError
    else Slept s.
Proof.
  unfold timedelta_of_seconds, datetime_add, sleep, sleep_max, datetime_max,
    deadline_max.
  intros Hnow Hs.
  repeat match goal with
         | |- context [?a <? ?b] => destruct (Z.ltb_spec a b); simpl
         end;
    try reflexivity; exfalso; Z.div_mod_to_equations; lia.
Qed.

(** Lines 106-112 after a negative count of seconds. *)
Lemma wait_finish_neg now monotonic s :
  0 <= now <= datetime_max ->
  s < 0 ->
  match timedelta_of_seconds s with
  | None => WaitOverflowError
  | Some delta =>
      match datetime_add now delta with
      | None => WaitOverflowError
      | Some _ => sleep monotonic s
      end
  end
  = if (s <? - sleep_max) || (now + s * 1000000 <? 0)
    then WaitOverflowError else WaitValueError.
Proof.
  unfold timedelta_of_seconds, datetime_add, sleep, sleep_max, datetime_max,
    deadline_max.
  intros Hnow Hs.
  repeat match goal with
         | |- context [?a <? ?b] => destruct (Z.ltb_spec a b); simpl
         end;
    try reflexivity; exfalso; Z.div_mod_to_equations; lia.
Qed.

Lemma wait_seconds_aligned interval_minutes now monotonic :
  0 < interval_minutes ->
  0 <= now <= datetime_max ->
  exists s,
    5 <= s <= interval_minutes * 60 + 4
    /\ (datetime_minute now * 60 + datetime_second now + s)
       mod (interval_minutes * 60) = 0
    /\ wait_seconds interval_minutes now monotonic
       = if (sleep_max <? s) || (datetime_max <? now + s * 1000000)
         then WaitOverflowError
         else if deadline_max <? monotonic + s * 1000000000
         then WaitOSError
         else Slept s.
Proof.
  intros HI Hnow. unfold wait_seconds.
  pose proof (datetime_minute_bound now) as Hm.
  pose proof (datetime_second_bound now) as Hs.
  set (current_minute := datetime_minute now) in *.
  set (current_second := datetime_second now) in *.
  destruct (interval_minutes =? 0) eqn:E; [apply Z.eqb_eq in E; lia|].
  pose proof (Z.mod_pos_bound current_minute interval_minutes HI) as Hmod.
  pose proof (Z.div_mod current_minute interval_minutes ltac:(lia)) as Hdiv.
  set (r := current_minute mod interval_minutes) in *.
  set (q := current_minute / interval_minutes) in *.
  cbv zeta.
  assert (Halign : forall k,
             (current_minute * 60 + current_second
              + ((interval_minutes - r) * 60 - current_second
                 + k * (interval_minutes * 60)))
             mod (interval_minutes * 60) = 0).
  { intros k.
    replace (current_minute * 60 + current_second
             + ((interval_minutes - r) * 60 - current_second
                + k * (interval_minutes * 60)))
      with ((q + 1 + k) * (interval_minutes * 60)) by nia.
    apply Z.mod_mul. lia. }
  destruct ((interval_minutes - r) * 60 - current_second <? 5) eqn:E5.
  - apply Z.ltb_lt in E5.
    eexists. split; [|split; [|apply wait_finish_pos; [exact Hnow|]]].
    + nia.
    + specialize (Halign 1). now rewrite Z.mul_1_l in Halign.
    + nia.
  - apply Z.ltb_ge in E5.
    eexists. split; [|split; [|apply wait_finish_pos; [exact Hnow|]]].
    + nia.
    + specialize (Halign 0). now rewrite Z.mul_0_l, Z.add_0_r in Halign.
    + lia.
Qed.

Lemma wait_seconds_negative interval_minutes now monotonic :
  interval_minutes < 0 ->
  0 <= now <= datetime_max ->
  exists s,
    120 * interval_minutes - 59 <= s <= 60 * interval_minutes - 60
    /\ wait_seconds interval_minutes now monotonic
       = if (s <? - sleep_max) || (now + s * 1000000 <? 0)
         then WaitOverflowError else WaitValueError.
Proof.
  intros HI Hnow. unfold wait_seconds.
  pose proof (datetime_minute_bound now) as Hm.
  pose proof (datetime_second_bound now) as Hs.
  set (current_minute := datetime_minute now) in *.
  set (current_second := datetime_second now) in *.
  destruct (interval_minutes =? 0) eqn:E; [apply Z.eqb_eq in E; lia|].
  pose proof (Z.mod_neg_bound current_minute interval_minutes HI) as Hmod.
  set (r := current_minute mod interval_minutes) in *.
  cbv zeta.
  destruct ((interval_minutes - r) * 60 - current_second <? 5) eqn:E5;
    [|apply Z.ltb_ge in E5; lia].
  eexists. split; [|apply wait_finish_neg; [exact Hnow|]]; lia.
Qed.

(** X19.  For a primary time frame of [n] minutes ("nm") or [n] hours
    ("nh") with [n > 0], and any reading of the two clocks,
    [_wait_for_candle_close] computes a wait of [s] seconds that is at
    least 5 seconds and at most one interval plus 4 seconds, and such that
    the second it ends at, counted from the start of the current hour, is
    a multiple of the interval (a boundary of the candle grid laid from
    the top of the hour).  It then sleeps [s] seconds, except at the far
    ends of the clocks: it raises [OverflowError] exactly when [s] is more
    than [time.sleep] takes or [now] plus [s] seconds lies beyond
    [datetime.max], and otherwise [OSError] exactly when the deadline of
    the sleep does not fit the monotonic clock. *)
Theorem wait_for_candle_close_aligned
    (int_ : string -> option Z) (engine : LiveTradingEngine)
    (n interval_minutes now monotonic : Z) :
  int_ (drop_last (primary_tf engine)) = Some n ->
  0 < n ->
  (endswith (primary_tf engine) "m" = true /\ interval_minutes = n)
  \/ (endswith (primary_tf engine) "m" = false
      /\ endswith (primary_tf engine) "h" = true
      /\ interval_minutes = n * 60) ->
  0 <= now <= datetime_max ->
  exists s,
    5 <= s <= interval_minutes * 60 + 4
    /\ (datetime_minute now * 60 + datetime_second now + s)
       mod (interval_minutes * 60) = 0
    /\ _wait_for_candle_close int_ engine now monotonic
       = if (sleep_max <? s) || (datetime_max <? now + s * 1000000)
         then WaitOverflowError
         else if deadline_max <? monotonic + s * 1000000000
         then WaitOSError
         else Slept s.
Proof.
  intros Hint Hn Htf Hnow. unfold _wait_for_candle_close.
  destruct Htf as [(Hmin & ->)|(Hmin & Hh & ->)].
  - rewrite Hmin, Hint. apply wait_seconds_aligned; [lia|exact Hnow].
  - rewrite Hmin, Hh, Hint. apply wait_seconds_aligned; [lia|exact Hnow].
Qed.

Lemma wait_for_candle_close_aligned_witness :
  exists s,
    5 <= s <= 15 * 60 + 4
    /\ (datetime_minute 63929306697000000 * 60
        + datetime_second 63929306697000000 + s) mod (15 * 60) = 0
    /\ _wait_for_candle_close int_decimal
         (mkLiveTradingEngine ex_strategy "BTCUSDT" "15m" "1h"
            (Fin (1 # 1000)) 900 [] false)
         63929306697000000 18357000000000
       = if (sleep_max <? s)
            || (datetime_max <? 63929306697000000 + s * 1000000)
         then WaitOverflowError
         else if deadline_max <? 18357000000000 + s * 1000000000
         then WaitOSError
         else Slept s.
Proof.
  apply (wait_for_candle_close_aligned int_decimal
           (mkLiveTradingEngine ex_strategy "BTCUSDT" "15m" "1h"
              (Fin (1 # 1000)) 900 [] false) 15 15 63929306697000000
           18357000000000);
    [reflexivity | lia | left; split; reflexivity
    | unfold datetime_max; lia].
Defined.

(** X20.  A minute or hour count that is not positive gets through the
    construction of the engine (the check interval is just [n * 60] or
    [n * 3600]) and makes every later wait raise.  A count of 0 raises
    [ZeroDivisionError].  A negative count makes the wait [s] negative, and
    the wait raises [ValueError] from the negative sleep, unless [s] is
    below what [time.sleep] takes or [now] plus [s] seconds lies before
    [datetime.min]: then, and only then, it raises [OverflowError]
    instead. *)
Theorem wait_raises_on_nonpositive_interval
    (int_ : string -> option Z) (strategy : Strategy)
    (symbol primary_timeframe secondary_timeframe : string)
    (trade_quantity : fval)
    (check_interval n interval_minutes now monotonic : Z) :
  int_ (drop_last primary_timeframe) = Some n ->
  n <= 0 ->
  (endswith primary_timeframe "m" = true /\ interval_minutes = n)
  \/ (endswith primary_timeframe "m" = false
      /\ endswith primary_timeframe "h" = true
      /\ interval_minutes = n * 60) ->
  0 <= now <= datetime_max ->
  exists engine,
    LiveTradingEngine_init int_ strategy symbol primary_timeframe
      secondary_timeframe trade_quantity check_interval = Ok engine
    /\ (n = 0 ->
        _wait_for_candle_close int_ engine now monotonic
        = WaitZeroDivisionError)
    /\ (n < 0 ->
        exists s,
          120 * interval_minutes - 59 <= s <= 60 * interval_minutes - 60
          /\ _wait_for_candle_close int_ engine now monotonic
             = if (s <? - sleep_max) || (now + s * 1000000 <? 0)
               then WaitOverflowError else WaitValueError).
Proof.
  intros Hint Hn Htf Hnow.
  unfold LiveTradingEngine_init, _parse_timeframe_to_seconds, int_of.
  unfold _wait_for_candle_close.
  destruct Htf as [(Hmin & ->)|(Hmin & Hh & ->)].
  - rewrite Hmin, Hint. simpl. eexists. split; [reflexivity|]. simpl.
    rewrite Hmin, Hint. split.
    + intros ->. reflexivity.
    + intros Hneg. apply wait_seconds_negative; [lia|exact Hnow].
  - rewrite Hmin, Hh, Hint. simpl. eexists. split; [reflexivity|]. simpl.
    rewrite Hmin, Hh, Hint. split.
    + intros ->. reflexivity.
    + intros Hneg. apply wait_seconds_negative; [lia|exact Hnow].
Qed.

Lemma wait_raises_on_nonpositive_interval_witness :
  exists engine,
    LiveTradingEngine_init int_decimal ex_strategy "BTCUSDT" "0m" "3m"
      (Fin (1 # 1000)) 1 = Ok engine
    /\ (0 = 0 ->
        _wait_for_candle_close int_decimal engine 63929306697000000
          18357000000000
        = WaitZeroDivisionError)
    /\ (0 < 0 ->
        exists s,
          120 * 0 - 59 <= s <= 60 * 0 - 60
          /\ _wait_for_candle_close int_decimal engine 63929306697000000
               18357000000000
             = if (s <? - sleep_max)
                  || (63929306697000000 + s * 1000000 <? 0)
               then WaitOverflowError else WaitValueError).
Proof.
  apply (wait_raises_on_nonpositive_interval int_decimal ex_strategy
           "BTCUSDT" "0m" "3m" (Fin (1 # 1000)) 1 0 0 63929306697000000
           18357000000000);
    [reflexivity | lia | left; split; reflexivity
    | unfold datetime_max; lia].
Defined.

(** ** The live ledger *)

Lemma open_buys_app l1 l2 : open_buys (l1 ++ l2) = (open_buys l1 + open_buys l2)%nat.
Proof. unfold open_buys. now rewrite filter_app, length_app. Qed.

Lemma buy_records_app l1 l2 :
  buy_records (l1 ++ l2) = (buy_records l1 + buy_records l2)%nat.
Proof. unfold buy_records. now rewrite filter_app, length_app. Qed.

Lemma sell_records_app l1 l2 :
  sell_records (l1 ++ l2) = (sell_records l1 + sell_records l2)%nat.
Proof. unfold sell_records. now rewrite filter_app, length_app. Qed.

Lemma open_buys_cons t l :
  open_buys (t :: l) = ((if is_open_buy t then 1 else 0) + open_buys l)%nat.
Proof.
  unfold open_buys. destruct (is_open_buy t) eqn:E.
  - now rewrite filter_cons_True.
  - rewrite filter_cons_False; [reflexivity|congruence].
Qed.

Lemma buy_records_cons t l :
  buy_records (t :: l)
  = ((if bool_decide (LiveTrade.side t = "BUY"%string) then 1 else 0)
     + buy_records l)%nat.
Proof.
  unfold buy_records. case_bool_decide.
  - now rewrite filter_cons_True.
  - now rewrite filter_cons_False.
Qed.

Lemma sell_records_cons t l :
  sell_records (t :: l)
  = ((if bool_decide (LiveTrade.side t = "SELL"%string) then 1 else 0)
     + sell_records l)%nat.
Proof.
  unfold sell_records. case_bool_decide.
  - now rewrite filter_cons_True.
  - now rewrite filter_cons_False.
Qed.

(** Closing the last open BUY: one open BUY fewer, the records keep their
    sides, and nothing happens exactly when no BUY is open. *)
Lemma close_last_open_spec trades timestamp current_price quantity :
  match close_last_open trades timestamp current_price quantity with
  | Some (trades', _) =>
      open_buys trades = S (open_buys trades')
      /\ LiveTrade.side <$> trades' = LiveTrade.side <$> trades
      /\ (sells_have_pnl trades -> sells_have_pnl trades')
  | None => open_buys trades = 0%nat
  end.
Proof.
  induction trades as [|t rest IH]; [reflexivity|]. simpl.
  destruct (close_last_open rest timestamp current_price quantity)
    as [[rest' info]|].
  - destruct IH as (Hopen & Hsides & Hpnl).
    rewrite !open_buys_cons, Hopen. repeat split.
    + lia.
    + rewrite !fmap_cons, Hsides. reflexivity.
    + unfold sells_have_pnl. rewrite !Forall_cons. intros [H1 H2].
      split; [assumption|now apply Hpnl].
  - destruct (is_open_buy t) eqn:E.
    + split; [|split].
      * rewrite !open_buys_cons, E, IH.
        unfold is_open_buy. simpl. now rewrite andb_false_r.
      * reflexivity.
      * unfold sells_have_pnl. rewrite !Forall_cons. intros [H1 H2].
        split; [|assumption]. simpl. intros Hsell.
        unfold is_open_buy in E. apply andb_true_iff in E as [E _].
        apply bool_decide_eq_true in E. congruence.
    + now rewrite open_buys_cons, E, IH.
Qed.

Lemma sides_records (l1 l2 : list LiveTrade.t) :
  LiveTrade.side <$> l1 = LiveTrade.side <$> l2 ->
  buy_records l1 = buy_records l2 /\ sell_records l1 = sell_records l2
  /\ (Forall (fun t => LiveTrade.side t = "BUY"%string
                       \/ LiveTrade.side t = "SELL"%string) l2 ->
      Forall (fun t => LiveTrade.side t = "BUY"%string
                       \/ LiveTrade.side t = "SELL"%string) l1).
Proof.
  revert l2. induction l1 as [|a l1 IH]; intros [|b l2] H; try discriminate.
  - repeat split. auto.
  - simpl in H. injection H as Hab Hrest.
    destruct (IH l2 Hrest) as (Hb & Hs & Hall).
    rewrite !buy_records_cons, !sell_records_cons, Hab, Hb, Hs.
    repeat split. rewrite !Forall_cons, Hab. intros [H1 H2]. auto.
Qed.

Section LiveLoopFacts.
Variable int_ : string -> option Z.
Variable _generate_signature : list (string * Param) -> string.
Variable base_url : string.
Variable engine : LiveTradingEngine.

Lemma live_generate_signal_in_turn df_primary df_secondary self signal self' :
  live_generate_signal df_primary df_secondary self = (Ok signal, self') ->
  self' = self
  /\ (signal = BUY -> position self = FLAT)
  /\ (signal = SELL -> position self = LONG).
Proof.
  unfold live_generate_signal, bind, lift.
  destruct (iloc df_primary _) as [r|]; [|discriminate].
  destruct (iloc df_secondary _) as [sr|]; [|discriminate].
  pose proof (check_sma_crossover_read_only df_primary
                (Z.of_nat (length df_primary) - 1) self) as Hc.
  destruct (check_sma_crossover df_primary _ self) as [[c|] s1];
    [|discriminate]. simpl in Hc. subst s1.
  pose proof (get_trend_direction_read_only df_secondary
                (Z.of_nat (length df_secondary) - 1) self) as Ht.
  destruct (get_trend_direction df_secondary _ self) as [[t|] s2];
    [|discriminate]. simpl in Ht. subst s2.
  apply generate_signal_in_turn.
Qed.

Lemma live_generate_signal_raise df_primary df_secondary self e self' :
  live_generate_signal df_primary df_secondary self = (Raise e, self') ->
  self' = self.
Proof.
  intros H.
  assert (Hro : read_only (live_generate_signal df_primary df_secondary)).
  { unfold live_generate_signal. frame;
      auto using check_sma_crossover_read_only, get_trend_direction_read_only,
                 generate_signal_read_only. }
  specialize (Hro self). now rewrite H in Hro.
Qed.

(** One order, placed in turn, keeps the ledger consistent. *)
Lemma execute_trade_inv now_ms post signal index df_primary self success self' :
  live_inv self ->
  (signal = BUY -> position self.1 = FLAT) ->
  (signal = SELL -> position self.1 = LONG) ->
  _execute_trade _generate_signature base_url engine now_ms post signal index
    df_primary self = Ok (success, self') ->
  live_inv self'
  /\ buy_records self'.2
     = (buy_records self.2
        + if success && bool_decide (signal = BUY) then 1 else 0)%nat.
Proof.
  intros (Hopen & Hbal & Hpnl & Hsides) Hbuy Hsell.
  destruct self as [strategy trades]. simpl in *.
  unfold _execute_trade.
  destruct (iloc df_primary (-1)) as [row|]; [simpl|discriminate].
  destruct (iloc index (-1)) as [timestamp|]; [simpl|discriminate].
  destruct signal.
  - (* BUY *)
    destruct (create_order _ _ _ _ _ _ _ _ _ _) as [order|].
    + intros [= <- <-]. cbn [fst snd].
      rewrite (Hbuy eq_refl) in Hopen. simpl in Hopen.
      set (rec := LiveTrade.mk timestamp (symbol engine) "BUY"
                    (Primary.close row) (quantity engine) (orderId order)
                    (status order) None None None None).
      assert (Ho : open_buys [rec] = 1%nat) by reflexivity.
      assert (Hb : buy_records [rec] = 1%nat) by reflexivity.
      assert (Hs : sell_records [rec] = 0%nat) by reflexivity.
      unfold live_inv. cbn [fst snd].
      rewrite open_buys_app, buy_records_app, sell_records_app, Ho, Hb, Hs,
        Hopen.
      split; [split; [|split; [|split]]|].
      * reflexivity.
      * lia.
      * unfold sells_have_pnl. apply Forall_app. split; [assumption|].
        apply Forall_singleton. simpl. discriminate.
      * apply Forall_app. split; [assumption|].
        apply Forall_singleton. simpl. auto.
      * simpl. lia.
    + intros [= <- <-]. simpl. split; [now repeat split|lia].
  - (* SELL *)
    destruct (create_order _ _ _ _ _ _ _ _ _ _) as [order|].
    + intros [= <- <-]. cbn [fst snd].
      rewrite (Hsell eq_refl) in Hopen. simpl in Hopen.
      pose proof (close_last_open_spec trades timestamp (Primary.close row)
                    (quantity engine)) as Hclose.
      destruct (close_last_open trades timestamp (Primary.close row)
                  (quantity engine)) as [[trades' [[e p] r]]|];
        [|rewrite Hopen in Hclose; discriminate].
      destruct Hclose as (Hopen' & Hsd & Hpnl').
      destruct (sides_records trades' trades Hsd) as (Hb & Hs & Hall).
      assert (Hzero : open_buys trades' = 0%nat) by lia.
      set (rec := LiveTrade.mk timestamp (symbol engine) "SELL"
                    (if truthy e then e else Primary.close row)
                    (quantity engine) (orderId order) (status order)
                    (Some timestamp) (Some (Primary.close row)) (Some p)
                    (Some r)).
      assert (Ho1 : open_buys [rec] = 0%nat) by reflexivity.
      assert (Hb1 : buy_records [rec] = 0%nat) by reflexivity.
      assert (Hs1 : sell_records [rec] = 1%nat) by reflexivity.
      unfold live_inv. cbn [fst snd].
      rewrite open_buys_app, buy_records_app, sell_records_app, Hb, Hs, Hzero,
        Ho1, Hb1, Hs1.
      split; [split; [|split; [|split]]|].
      * reflexivity.
      * lia.
      * unfold sells_have_pnl. apply Forall_app. split; [now apply Hpnl'|].
        apply Forall_singleton. simpl. intros _. split; eauto.
      * apply Forall_app. split; [now apply Hall|].
        apply Forall_singleton. simpl. auto.
      * simpl. lia.
    + intros [= <- <-]. simpl. split; [now repeat split|lia].
  - intros [= <- <-]. simpl. split; [now repeat split|lia].
Qed.

Lemma iteration_inv tick trade_count self :
  live_inv self ->
  let (trade_count', self') :=
    iteration _generate_signature base_url engine tick trade_count self in
  live_inv self'
  /\ trade_count <= trade_count' <= trade_count + 1
  /\ Z.of_nat (buy_records self'.2)
     = Z.of_nat (buy_records self.2) + (trade_count' - trade_count).
Proof.
  intros Hinv. unfold iteration.
  destruct (tick_fetch tick) as [[df_primary df_secondary]|];
    [|split; [assumption|lia]].
  destruct ((length df_primary =? 0)%nat || (length df_secondary =? 0)%nat);
    [split; [assumption|lia]|].
  destruct (calculate_indicators self.1 df_primary df_secondary)
    as [frames|]; [|split; [assumption|lia]].
  destruct (live_generate_signal frames.1 frames.2 self.1)
    as [[signal|e] strategy'] eqn:E.
  - apply live_generate_signal_in_turn in E as (-> & Hbuy & Hsell).
    assert (Hself : (self.1, self.2) = self) by now destruct self.
    rewrite Hself.
    case_bool_decide as Hhold; [|split; [assumption|lia]].
    destruct (_execute_trade _ _ _ _ _ _ _ _ self)
      as [[success self']|] eqn:Ex; [|split; [assumption|lia]].
    apply (execute_trade_inv _ _ _ _ _ _ _ _ Hinv Hbuy Hsell) in Ex
      as (Hinv' & Hcount).
    destruct (success && bool_decide (signal = BUY));
      (split; [assumption|]); lia.
  - apply live_generate_signal_raise in E as ->.
    assert (Hself : (self.1, self.2) = self) by now destruct self.
    rewrite Hself. split; [assumption|lia].
Qed.

Lemma start_loop_inv max_trades ticks : forall first trade_count self,
  live_inv self ->
  let (trade_count', self') :=
    start_loop int_ _generate_signature base_url engine max_trades ticks first
      trade_count self in
  live_inv self'
  /\ trade_count <= trade_count'
  /\ Z.of_nat (buy_records self'.2)
     = Z.of_nat (buy_records self.2) + (trade_count' - trade_count)
  /\ (forall m, max_trades = Some m -> m <> 0 -> trade_count <= Z.max m 0 ->
                trade_count' <= Z.max m 0).
Proof.
  induction ticks as [|tick rest IH]; intros first trade_count self Hinv.
  - simpl. split; [assumption|]. split; [lia|]. split; [lia|]. auto.
  - simpl.
    destruct (if first then Slept 0 else _) as [s| | | |];
      [|split; [assumption|]; split; [lia|]; split; [lia|]; auto
       |split; [assumption|]; split; [lia|]; split; [lia|]; auto
       |split; [assumption|]; split; [lia|]; split; [lia|]; auto
       |split; [assumption|]; split; [lia|]; split; [lia|]; auto].
    destruct (match max_trades with
              | Some m => negb (m =? 0) && (m <=? trade_count)
              | None => false
              end) eqn:Emax;
      [split; [assumption|]; split; [lia|]; split; [lia|]; auto|].
    pose proof (iteration_inv tick trade_count self Hinv) as Hit.
    destruct (iteration _ _ _ tick trade_count self) as [tc1 self1].
    destruct Hit as (Hinv1 & Hrange & Hb1).
    specialize (IH false tc1 self1 Hinv1).
    destruct (start_loop _ _ _ _ max_trades rest false tc1 self1)
      as [tc2 self2].
    destruct IH as (Hinv2 & Hle & Hb2 & Hmax).
    split; [assumption|]. split; [lia|]. split; [lia|].
    intros m Hm Hm0 Hle0. apply (Hmax m Hm Hm0).
    rewrite Hm in Emax.
    destruct (m =? 0) eqn:E0; [apply Z.eqb_eq in E0; lia|].
    simpl in Emax. apply Z.leb_gt in Emax. lia.
Qed.

End LiveLoopFacts.

(** X21.  A session of the live loop on a fresh engine (empty ledger),
    whatever the ticks, the exchange's answers and [max_trades]: at the end
    the ledger holds only BUY and SELL records, exactly one open BUY record
    if the strategy is LONG and none if it is FLAT, as many BUY records as
    SELL records plus open ones, every SELL record carries an exit price
    and a PnL, and the counter of the loop is the number of BUY records. *)
Theorem live_session_ledger_consistent
    (int_ : string -> option Z)
    (_generate_signature : list (string * Param) -> string)
    (base_url : string) (engine : LiveTradingEngine)
    (max_trades : option Z) (ticks : list Tick) (strategy : Strategy) :
  let (trade_count, self') :=
    start int_ _generate_signature base_url engine max_trades ticks
      (strategy, []) in
  live_inv self'
  /\ Z.of_nat (buy_records self'.2) = trade_count.
Proof.
  unfold start.
  pose proof (start_loop_inv int_ _generate_signature base_url engine
                max_trades ticks true 0 ((reset strategy).2, [])) as H.
  cbn [fst snd] in *.
  destruct (start_loop _ _ _ _ max_trades ticks true 0 _) as [tc self'].
  destruct H as (Hinv & _ & Hb & _).
  - unfold live_inv. simpl. repeat split; constructor.
  - split; [assumption|].
    change (buy_records []) with 0%nat in Hb. lia.
Qed.

Lemma iteration_count _generate_signature base_url engine tick trade_count
      self :
  trade_count
  <= (iteration _generate_signature base_url engine tick trade_count self).1
  <= trade_count + 1.
Proof.
  unfold iteration.
  destruct (tick_fetch tick) as [[df_primary df_secondary]|]; [|simpl; lia].
  destruct ((length df_primary =? 0)%nat || (length df_secondary =? 0)%nat);
    [simpl; lia|].
  destruct (calculate_indicators self.1 df_primary df_secondary)
    as [frames|]; [|simpl; lia].
  destruct (live_generate_signal frames.1 frames.2 self.1)
    as [[signal|e] strategy']; [|simpl; lia].
  case_bool_decide; [|simpl; lia].
  destruct (_execute_trade _ _ _ _ _ _ _ _ _) as [[success self']|];
    [|simpl; lia].
  destruct (success && bool_decide (signal = BUY)); simpl; lia.
Qed.

Lemma start_loop_count int_ _generate_signature base_url engine m ticks :
  m <> 0 ->
  forall first trade_count self,
    trade_count <= Z.max m 0 ->
    (start_loop int_ _generate_signature base_url engine (Some m) ticks first
       trade_count self).1 <= Z.max m 0.
Proof.
  intros Hm. induction ticks as [|tick rest IH];
    intros first trade_count self Hle; [assumption|].
  simpl.
  destruct (if first then Slept 0 else _) as [s| | | |]; try assumption.
  destruct (m =? 0) eqn:E0; [apply Z.eqb_eq in E0; lia|]. simpl.
  destruct (m <=? trade_count) eqn:E; [assumption|].
  apply Z.leb_gt in E.
  pose proof (iteration_count _generate_signature base_url engine tick
                trade_count self) as Hit.
  destruct (iteration _ _ _ tick trade_count self) as [tc1 self1].
  simpl in Hit. apply IH. lia.
Qed.

(** X22.  With [max_trades = m] given and not 0, the loop never executes
    more than [m] BUY orders (none at all when [m] is negative), whatever
    the ticks and the state it starts from: its counter ends at most at
    [max m 0]. *)
Theorem live_session_max_trades
    (int_ : string -> option Z)
    (_generate_signature : list (string * Param) -> string)
    (base_url : string) (engine : LiveTradingEngine)
    (m : Z) (ticks : list Tick) (self : Strategy * list LiveTrade.t) :
  m <> 0 ->
  (start int_ _generate_signature base_url engine (Some m) ticks self).1
  <= Z.max m 0.
Proof.
  intros Hm. unfold start. apply start_loop_count; [assumption|lia].
Qed.

Lemma live_session_max_trades_witness :
  (start int_decimal (fun _ => ""%string) "https://testnet.binance.vision/api"
     ex_engine (Some 1) [ex_tick; ex_tick; ex_tick] (ex_strategy, [])).1
  <= Z.max 1 0.
Proof.
  apply (live_session_max_trades int_decimal (fun _ => ""%string)
           "https://testnet.binance.vision/api" ex_engine 1
           [ex_tick; ex_tick; ex_tick] (ex_strategy, [])).
  lia.
Defined.

(** X23.  When the order cannot be placed (the HTTP layer raises),
    [_execute_trade] answers [False] and leaves the strategy's position and
    the ledger exactly as they were, whatever the signal. *)
Theorem execute_trade_failed_order
    (_generate_signature : list (string * Param) -> string)
    (base_url : string) (engine : LiveTradingEngine) (now_ms : Z)
    (post : string -> list (string * Param) -> result Order)
    (signal : Signal) (index : list Z) (df_primary : list Primary.row)
    (self : Strategy * list LiveTrade.t)
    (success : bool) (self' : Strategy * list LiveTrade.t) :
  (forall endpoint params, exists e, post endpoint params = Raise e) ->
  _execute_trade _generate_signature base_url engine now_ms post signal index
    df_primary self = Ok (success, self') ->
  success = false /\ self' = self.
Proof.
  intros Hpost. unfold _execute_trade.
  destruct (iloc df_primary (-1)) as [row|]; [simpl|discriminate].
  destruct (iloc index (-1)) as [timestamp|]; [simpl|discriminate].
  unfold create_order. simpl.
  destruct signal.
  - match goal with |- context [post ?ep ?ps] =>
      destruct (Hpost ep ps) as [e ->] end.
    intros [= <- <-]. auto.
  - match goal with |- context [post ?ep ?ps] =>
      destruct (Hpost ep ps) as [e ->] end.
    intros [= <- <-]. auto.
  - intros [= <- <-]. auto.
Qed.

Lemma execute_trade_failed_order_witness :
  false = false
  /\ (ex_strategy, @nil LiveTrade.t) = (ex_strategy, []).
Proof.
  apply (execute_trade_failed_order (fun _ => ""%string)
           "https://testnet.binance.vision/api" ex_engine 0 ex_failing_post
           BUY [0; 60] ex_primary (ex_strategy, []) false (ex_strategy, [])).
  - intros endpoint params. exists ValueError. reflexivity.
  - reflexivity.
Defined.

Lemma generate_signal_warmup_guard self df_primary df_secondary
      (primary_idx secondary_idx : Z) :
  primary_idx < slow_sma self \/ secondary_idx < trend_sma self ->
  generate_signal df_primary df_secondary primary_idx secondary_idx self
  = (Ok HOLD, self).
Proof.
  intros Hwarm. unfold generate_signal, bind, get.
  destruct (primary_idx <? slow_sma self) eqn:G1; [reflexivity|].
  destruct (secondary_idx <? trend_sma self) eqn:G2; [reflexivity|].
  apply Z.ltb_ge in G1. apply Z.ltb_ge in G2. lia.
Qed.

Lemma generate_signal_returns_in_range self df_primary df_secondary
      (primary_idx secondary_idx : Z) :
  0 <= primary_idx < Z.of_nat (length df_primary) ->
  exists signal,
    generate_signal df_primary df_secondary primary_idx secondary_idx self
    = (Ok signal, self).
Proof.
  intros Hi.
  destruct (Z_lt_le_dec primary_idx (slow_sma self)) as [H1|H1];
    [eexists; apply generate_signal_warmup_guard; now left|].
  destruct (Z_lt_le_dec secondary_idx (trend_sma self)) as [H2|H2];
    [eexists; apply generate_signal_warmup_guard; now right|].
  destruct (lookup_lt_is_Some_2 df_primary (Z.to_nat primary_idx))
    as [row Hrow]; [lia|].
  destruct (check_sma_crossover_total df_primary primary_idx self Hi)
    as [c Hc].
  destruct (get_trend_direction_total df_secondary secondary_idx self)
    as [t Ht].
  eexists.
  apply (generate_signal_past_guard _ _ _ _ _ row c t); try assumption; lia.
Qed.

(** X24.  On two non-empty frames, the live evaluation is the strategy's
    evaluation at the last bar of each frame, and it returns a signal: it
    cannot raise.  (On an empty frame the first read raises [IndexError];
    the loop skips empty frames before it gets there.) *)
Theorem live_generate_signal_last_bar
    (self : Strategy) (df_primary : list Primary.row)
    (df_secondary : list Secondary.row) :
  df_primary <> [] -> df_secondary <> [] ->
  live_generate_signal df_primary df_secondary self
  = generate_signal df_primary df_secondary
      (Z.of_nat (length df_primary) - 1) (Z.of_nat (length df_secondary) - 1)
      self
  /\ exists signal,
       live_generate_signal df_primary df_secondary self = (Ok signal, self).
Proof.
  intros Hp Hs.
  assert (Hlp : (0 < length df_primary)%nat)
    by (destruct df_primary; [contradiction|simpl; lia]).
  assert (Hls : (0 < length df_secondary)%nat)
    by (destruct df_secondary; [contradiction|simpl; lia]).
  assert (Heq : live_generate_signal df_primary df_secondary self
                = generate_signal df_primary df_secondary
                    (Z.of_nat (length df_primary) - 1)
                    (Z.of_nat (length df_secondary) - 1) self).
  { unfold live_generate_signal, bind, lift.
    destruct (lookup_lt_is_Some_2 df_primary
                (Z.to_nat (Z.of_nat (length df_primary) - 1)))
      as [r Hr]; [lia|].
    destruct (lookup_lt_is_Some_2 df_secondary
                (Z.to_nat (Z.of_nat (length df_secondary) - 1)))
      as [sr Hsr]; [lia|].
    rewrite (iloc_lookup _ _ r) by (assumption || lia).
    rewrite (iloc_lookup _ _ sr) by (assumption || lia).
    destruct (check_sma_crossover_total df_primary
                (Z.of_nat (length df_primary) - 1) self) as [c ->]; [lia|].
    destruct (get_trend_direction_total df_secondary
                (Z.of_nat (length df_secondary) - 1) self) as [t ->].
    reflexivity. }
  split; [exact Heq|]. rewrite Heq.
  apply generate_signal_returns_in_range. lia.
Qed.

Lemma live_generate_signal_last_bar_witness :
  live_generate_signal ex_primary ex_secondary ex_strategy
  = generate_signal ex_primary ex_secondary
      (Z.of_nat (length ex_primary) - 1) (Z.of_nat (length ex_secondary) - 1)
      ex_strategy
  /\ exists signal,
       live_generate_signal ex_primary ex_secondary ex_strategy
       = (Ok signal, ex_strategy).
Proof.
  apply (live_generate_signal_last_bar ex_strategy ex_primary ex_secondary);
    discriminate.
Defined.

(* ===================================================================== *)
(** ** The day matcher of scripts/match_trades.py *)
(* ===================================================================== *)

Lemma day_score_within live_order bt_order r :
  day_score live_order bt_order = Some (Some r) ->
  within_tolerance (DayOrder.timestamp live_order)
    (DayOrder.timestamp bt_order).
Proof.
  unfold day_score, within_tolerance, tolerance_ns, tolerance_minutes.
  set (d := Z.abs _).
  change (fdiv (Fin (d # 1000000000)) (Fin 60))
    with (Fin ((d # 1000000000) / 60)).
  change (fgt (Fin ((d # 1000000000) / 60)) (of_Z 15))
    with (Qltb (inject_Z 15) ((d # 1000000000) / 60)).
  destruct (Qltb _ _) eqn:Hlt; [discriminate|]; intros _.
  destruct (Qlt_le_dec (inject_Z 15) ((d # 1000000000) / 60)) as [Hc|Hc].
  - apply Qltb_true in Hc. congruence.
  - assert (Hq : (d # 1000000000 <= 900)%Q).
    { change (inject_Z 15) with 15%Q in Hc.
      generalize dependent (d # 1000000000). intros q _ Hc.
      destruct (Qlt_le_dec 900 q) as [Hgt|Hle]; [|exact Hle].
      exfalso. apply (Qlt_not_le _ _ (Qlt_shift_div_l 15 q 60 eq_refl Hgt)).
      exact Hc. }
    unfold Qle in Hq. simpl in Hq. lia.
Qed.

Lemma best_backtest_spec mb live_order bt best score r :
  best_backtest mb live_order bt best score = Some r ->
  r = best \/ exists b, r = Some b /\ day_candidate mb live_order bt b.
Proof.
  revert best score.
  induction bt as [|[bt_idx bt_order] rest IH]; intros best score H.
  - simpl in H. left. congruence.
  - simpl in H.
    assert (Hmono : forall b, day_candidate mb live_order rest b ->
                              day_candidate mb live_order
                                ((bt_idx, bt_order) :: rest) b).
    { intros b (Hin & Hfree & Hw). split; [|split]; try assumption.
      apply list_elem_of_further, Hin. }
    assert (Hrest : forall best' score',
              best_backtest mb live_order rest best' score' = Some r ->
              r = best' \/ exists b, r = Some b /\
                day_candidate mb live_order ((bt_idx, bt_order) :: rest) b).
    { intros best' score' H'. destruct (IH _ _ H') as [->|(b & -> & Hb)];
        [left; reflexivity | right; exists b; split; [reflexivity|auto]]. }
    case_bool_decide as Hfree; [exact (Hrest _ _ H)|].
    destruct (day_score live_order bt_order) as [[[[tds pdp] sc]|]|] eqn:Hs;
      [|exact (Hrest _ _ H)|discriminate].
    destruct (flt sc score); [|exact (Hrest _ _ H)].
    destruct (Hrest _ _ H) as [->|Hb]; [|right; exact Hb].
    right. eexists; split; [reflexivity|].
    split; [|split]; simpl.
    + apply list_elem_of_here.
    + exact Hfree.
    + exact (day_score_within _ _ _ Hs).
Qed.

Lemma match_day_loop_spec date bt live m ul mb m' ul' mb' :
  match_day_loop date bt live (m, ul, mb) = Some (m', ul', mb') ->
  (length m' + length ul' = length m + length ul + length live)%nat
  /\ (size mb' + length m = size mb + length m')%nat
  /\ mb' ⊆ mb ∪ list_to_set bt.*1
  /\ (Forall (fun mi => within_tolerance (mi_live_time mi)
                          (mi_backtest_time mi)) m ->
      Forall (fun mi => within_tolerance (mi_live_time mi)
                          (mi_backtest_time mi)) m').
Proof.
  revert m ul mb.
  induction live as [|[lidx live_order] rest IH]; intros m ul mb H.
  - simpl in H. injection H as -> -> ->.
    split; [simpl; lia|]. split; [lia|]. split; [set_solver|auto].
  - simpl in H.
    destruct (best_backtest mb live_order bt None PInf)
      as [[[[[idx order] tds] pdp]|]|] eqn:Hbest; [| |discriminate].
    + destruct (best_backtest_spec _ _ _ _ _ _ Hbest)
        as [Habs|(b & Hb & Hin & Hfree & Hw)]; [discriminate|].
      injection Hb as <-. simpl in Hin, Hfree, Hw.
      destruct (IH _ _ _ H) as (H1 & H2 & H3 & H4).
      rewrite length_app in H1, H2. simpl in H1, H2.
      rewrite size_union in H2 by (apply disjoint_singleton_l; exact Hfree).
      rewrite size_singleton in H2.
      split; [simpl; lia|]. split; [lia|]. split.
      * assert (Hidx : idx ∈ (list_to_set bt.*1 : gset Z)).
        { apply elem_of_list_to_set, list_elem_of_fmap.
          exists (idx, order). split; [reflexivity|exact Hin]. }
        intros x Hx. apply H3 in Hx.
        rewrite !elem_of_union, elem_of_singleton in Hx.
        rewrite elem_of_union.
        destruct Hx as [[->|Hx]|Hx]; auto.
      * intros Hm. apply H4, Forall_app. split; [exact Hm|].
        constructor; [exact Hw|constructor].
    + destruct (IH _ _ _ H) as (H1 & H2 & H3 & H4).
      rewrite length_app in H1. simpl in H1.
      split; [simpl; lia|]. auto.
Qed.

Lemma inter_cons_in (x : Z) (mb S : gset Z) :
  x ∈ mb -> mb ∩ ({[x]} ∪ S) = {[x]} ∪ (mb ∩ S).
Proof.
  intros Hx. apply set_eq. intros y.
  rewrite elem_of_intersection, !elem_of_union, elem_of_intersection,
    elem_of_singleton.
  intuition congruence.
Qed.

Lemma inter_cons_out (x : Z) (mb S : gset Z) :
  x ∉ mb -> mb ∩ ({[x]} ∪ S) = mb ∩ S.
Proof.
  intros Hx. apply set_eq. intros y.
  rewrite !elem_of_intersection, elem_of_union, elem_of_singleton.
  intuition congruence.
Qed.

Lemma diff_singleton_subseteq (x : Z) (S : gset Z) : S ∖ {[x]} ⊆ S.
Proof. intros y Hy. apply elem_of_difference in Hy as [Hy _]. exact Hy. Qed.

Lemma filter_unmatched_length {A} (l : list (Z * A)) (mb : gset Z) :
  NoDup l.*1 ->
  (length (filter (fun row => row.1 ∉ mb) l)
   + size (mb ∩ list_to_set l.*1) = length l)%nat.
Proof.
  induction l as [|x l IH]; intros Hnd.
  - assert (E : mb ∩ list_to_set ([] : list (Z * A)).*1 = ∅)
      by (apply intersection_empty_r_L).
    rewrite E, size_empty. reflexivity.
  - rewrite fmap_cons in Hnd. apply NoDup_cons in Hnd as [Hx Hnd].
    specialize (IH Hnd). rewrite fmap_cons, list_to_set_cons.
    destruct (decide (x.1 ∈ mb)) as [Hin|Hout].
    + rewrite filter_cons_False by (intros Hc; exact (Hc Hin)).
      rewrite (inter_cons_in _ _ _ Hin).
      rewrite size_union.
      2:{ apply disjoint_singleton_l. intros Hc.
          apply elem_of_intersection in Hc as [_ Hc].
          apply elem_of_list_to_set in Hc. exact (Hx Hc). }
      rewrite size_singleton. simpl. lia.
    + rewrite filter_cons_True by exact Hout.
      rewrite (inter_cons_out _ _ _ Hout).
      simpl. lia.
Qed.

Lemma size_list_to_set_le (l : list Z) :
  (size (list_to_set l : gset Z) <= length l)%nat.
Proof.
  induction l as [|x l IH].
  - apply Nat.eq_le_incl. reflexivity.
  - rewrite list_to_set_cons.
    pose proof (size_union_alt ({[x]} : gset Z) (list_to_set l)) as Hs.
    pose proof (subseteq_size _ _
                  (diff_singleton_subseteq x (list_to_set l))) as Hd.
    rewrite size_singleton in Hs. simpl. lia.
Qed.

(** X26.  Whenever [match_day] returns, every live order is matched or
    reported unmatched, never both; no more orders are matched than the
    backtest day holds; when the backtest rows carry distinct labels every
    backtest order is matched or reported unmatched; and the two orders of
    each match are at most fifteen minutes apart. *)
Theorem match_day_conserves live_day backtest_day date
    matches unmatched_live unmatched_backtest :
  match_day live_day backtest_day date
    = Some (matches, unmatched_live, unmatched_backtest) ->
  (length matches + length unmatched_live = length live_day)%nat
  /\ (length matches <= length backtest_day)%nat
  /\ (NoDup backtest_day.*1 ->
      (length matches + length unmatched_backtest
       = length backtest_day)%nat)
  /\ Forall (fun mi => within_tolerance (mi_live_time mi)
                         (mi_backtest_time mi)) matches.
Proof.
  unfold match_day.
  destruct (match_day_loop date backtest_day live_day ([], [], ∅))
    as [[[m ul] mb]|] eqn:Hloop; [|discriminate].
  intros H. injection H as -> -> <-.
  destruct (match_day_loop_spec _ _ _ _ _ _ _ _ _ Hloop)
    as (H1 & H2 & H3 & H4).
  rewrite size_empty in H2. simpl in H1, H2.
  assert (Hsub : mb ⊆ list_to_set backtest_day.*1).
  { intros x Hx. apply H3 in Hx. apply elem_of_union in Hx as [Hx|Hx];
      [exfalso; exact (not_elem_of_empty _ Hx)|exact Hx]. }
  split; [lia|]. split; [|split].
  - pose proof (subseteq_size _ _ Hsub).
    pose proof (size_list_to_set_le backtest_day.*1) as Hle.
    rewrite length_fmap in Hle. lia.
  - intros Hnd. pose proof (filter_unmatched_length backtest_day mb Hnd) as Hf.
    rewrite (subseteq_intersection_1_L _ _ Hsub) in Hf.
    rewrite length_fmap. lia.
  - apply H4. constructor.
Qed.

Lemma match_day_conserves_witness :
  (1 + 1 = length ex_live_day)%nat
  /\ (1 <= length ex_backtest_day)%nat
  /\ (NoDup ex_backtest_day.*1 -> (1 + 1 = length ex_backtest_day)%nat)
  /\ Forall (fun mi => within_tolerance (mi_live_time mi)
                         (mi_backtest_time mi))
       [mkMatchInfo 0 60000000000 0 (Fin (60000000000 # 1000000000))
          (Fin 100) (Fin 100) (Fin (0 # 100))].
Proof.
  exact (match_day_conserves ex_live_day ex_backtest_day 0 _ _ _ eq_refl).
Defined.

Lemma day_score_tolerance_test live_order bt_order :
  within_tolerance (DayOrder.timestamp live_order)
    (DayOrder.timestamp bt_order) ->
  day_score live_order bt_order
  = match pydiv (fabs (fsub (DayOrder.entry_price live_order)
                            (DayOrder.entry_price bt_order)))
                (DayOrder.entry_price live_order) with
    | None => None
    | Some ratio =>
        let time_diff_seconds :=
          Fin (Z.abs (DayOrder.timestamp live_order
                      - DayOrder.timestamp bt_order) # 1000000000) in
        let price_diff_pct := fmul ratio (Fin 100) in
        Some (Some (time_diff_seconds, price_diff_pct,
                    fadd time_diff_seconds (fmul price_diff_pct (Fin 100))))
    end.
Proof.
  unfold day_score, within_tolerance, tolerance_ns, tolerance_minutes.
  set (d := Z.abs _). intros Hd.
  change (fdiv (Fin (d # 1000000000)) (Fin 60))
    with (Fin ((d # 1000000000) / 60)).
  change (fgt (Fin ((d # 1000000000) / 60)) (of_Z 15))
    with (Qltb (inject_Z 15) ((d # 1000000000) / 60)).
  destruct (Qltb _ _) eqn:Hlt; [|reflexivity].
  exfalso. apply Qltb_true in Hlt. revert Hlt. apply Qle_not_lt.
  apply Qle_shift_div_r; [reflexivity|].
  unfold Qle. simpl. lia.
Qed.

Lemma pydiv_zero x y : pyzero y = true -> pydiv x y = None.
Proof. destruct y as [b| | |]; simpl; try discriminate. intros ->. reflexivity. Qed.

Lemma pydiv_nonzero x y : pyzero y = false -> pydiv x y = Some (fdiv x y).
Proof. destruct y as [b| | |]; simpl; try reflexivity. intros ->. reflexivity. Qed.

Lemma day_score_nonzero live_order bt_order :
  pyzero (DayOrder.entry_price live_order) = false ->
  day_score live_order bt_order <> None.
Proof.
  intros Hnz. unfold day_score.
  destruct (fgt _ _); [discriminate|].
  rewrite (pydiv_nonzero _ _ Hnz). discriminate.
Qed.

Lemma best_backtest_returns mb live_order bt best score :
  pyzero (DayOrder.entry_price live_order) = false ->
  is_Some (best_backtest mb live_order bt best score).
Proof.
  intros Hnz. revert best score.
  induction bt as [|[bt_idx bt_order] rest IH]; intros best score; simpl.
  - eexists; reflexivity.
  - case_bool_decide; [apply IH|].
    pose proof (day_score_nonzero live_order bt_order Hnz) as Hs.
    destruct (day_score live_order bt_order) as [[[[tds pdp] sc]|]|];
      [|apply IH|congruence].
    destruct (flt sc score); apply IH.
Qed.

Lemma match_day_loop_returns date bt live acc :
  Forall (fun row => pyzero (DayOrder.entry_price row.2) = false) live ->
  is_Some (match_day_loop date bt live acc).
Proof.
  intros Hall. revert acc.
  induction Hall as [|[lidx live_order] rest Hnz _ IH]; intros [[m ul] mb].
  - eexists; reflexivity.
  - simpl in Hnz |- *.
    destruct (best_backtest_returns mb live_order bt None PInf Hnz)
      as [r ->].
    destruct r as [[[[idx order] tds] pdp]|]; apply IH.
Qed.

Lemma best_backtest_zero_price live_order bt best score j bo :
  pyzero (DayOrder.entry_price live_order) = true ->
  (j, bo) ∈ bt ->
  within_tolerance (DayOrder.timestamp live_order) (DayOrder.timestamp bo) ->
  best_backtest ∅ live_order bt best score = None.
Proof.
  intros Hz Hin Hw. revert best score.
  induction bt as [|[bt_idx bt_order] rest IH]; intros best score.
  - apply elem_of_nil in Hin. contradiction.
  - simpl. rewrite bool_decide_eq_false_2 by apply not_elem_of_empty.
    apply elem_of_cons in Hin as [Heq|Hin].
    + injection Heq as <- <-.
      rewrite (day_score_tolerance_test _ _ Hw), (pydiv_zero _ _ Hz).
      reflexivity.
    + unfold day_score. destruct (fgt _ _); [exact (IH Hin _ _)|].
      rewrite (pydiv_zero _ _ Hz). reflexivity.
Qed.

(** X27.  [match_day] returns whenever no live order of the day has a zero
    entry price: the only thing it can raise is the division by the live
    price. *)
Theorem match_day_returns live_day backtest_day date :
  Forall (fun row => pyzero (DayOrder.entry_price row.2) = false) live_day ->
  is_Some (match_day live_day backtest_day date).
Proof.
  intros Hall. unfold match_day.
  destruct (match_day_loop_returns date backtest_day live_day ([], [], ∅) Hall)
    as [[[m ul] mb] ->].
  eexists; reflexivity.
Qed.

Lemma match_day_returns_witness :
  is_Some (match_day ex_live_day ex_backtest_day 0).
Proof.
  apply (match_day_returns ex_live_day ex_backtest_day 0).
  repeat constructor.
Defined.

(** X28.  When the first live order of the day has a zero entry price and
    some backtest order lies within fifteen minutes of it, [match_day]
    raises [ZeroDivisionError] instead of returning. *)
Theorem match_day_zero_price_raises lidx live_order rest backtest_day date
    j bo :
  pyzero (DayOrder.entry_price live_order) = true ->
  (j, bo) ∈ backtest_day ->
  within_tolerance (DayOrder.timestamp live_order) (DayOrder.timestamp bo) ->
  match_day ((lidx, live_order) :: rest) backtest_day date = None.
Proof.
  intros Hz Hin Hw. unfold match_day. simpl.
  rewrite (best_backtest_zero_price _ _ _ _ _ _ Hz Hin Hw). reflexivity.
Qed.

Lemma match_day_zero_price_raises_witness :
  match_day [(0, DayOrder.mk 60000000000 (Fin 0))] ex_backtest_day 0 = None.
Proof.
  apply (match_day_zero_price_raises 0 (DayOrder.mk 60000000000 (Fin 0)) []
           ex_backtest_day 0 0 (DayOrder.mk 0 (Fin 100))).
  - reflexivity.
  - apply list_elem_of_here.
  - unfold within_tolerance, tolerance_ns. simpl. lia.
Defined.
